(** * PySimpleGUI4 demos: a shallow embedding of the logic behind the widgets

    The repository is a set of independent demo scripts.  The parts that
    carry logic of their own are embedded here, each in a module named after
    the Python class it comes from:

    - [ValidationManager]   (demos/Accounting.py)  the SIRET checksum, the
                            patterns of the e-mail and VAT-number checks;
    - [DownloadManager]     (demos/Multi-threaded_Download_Manager.py)
                            the bounded spawning of download threads, the
                            thread of a download and the event loop;
    - [Sqlite], [Accounting] (demos/Accounting.py)  the journal-entry form of
                            ComptabiliteApp, the form of its lines, the SQL
                            it sends and the way an entry is stored;
    - [BackupManager]       (demos/Accounting.py)  backups, their retention
                            and their restoration;
    - [NetworkScanner]      (demos/Network_Scanner_and_Port_Monitor.py)
                            the scan of a network and its stop flag.

    Python values are modelled as the code has them: [int] as [Z], [float] as
    the kernel's binary64 [float], [str] as a list of characters or [string],
    a [dict] used as a map as [gmap], a list as [list]. *)

From Stdlib Require Import ZArith List String Ascii Lia PrimFloat.
From Stdlib Require FloatOps SpecFloat FloatAxioms.
From stdpp Require Import base option list sorting gmap strings fin_maps pretty.
Import ListNotations.

(* ===================================================================== *)
(** * ValidationManager.validate_siret                                    *)
(* ===================================================================== *)

Module ValidationManager.

Section ValidateSiret.
Local Open Scope Z_scope.

(** A Python [str] is a sequence of Unicode code points.  The function only
    looks at one character at a time, through [int(digit)]: for a string of
    length one, [int] returns the decimal value of a decimal-digit character
    and raises [ValueError] on any other character.  The character type and
    that table are the parameters of the section. *)
Variable char : Type.
Variable int_of_char : char -> option Z.
Hypothesis int_of_char_decimal :
  forall c d, int_of_char c = Some d -> 0 <= d <= 9.

(** One iteration of the body of [for i, digit in enumerate(siret)];
    [None] is the [ValueError] raised by [int(digit)]. *)
Definition siret_step (i : nat) (digit : char) (total : Z) : option Z :=
  match int_of_char digit with
  | None => None
  | Some n =>
      let n :=
        if Nat.eqb (i mod 2) 1 then
          let n := n * 2 in
          if n >? 9 then n / 10 + n mod 10 else n
        else n in
      Some (total + n)
  end.

(** The loop, from index [i] with the running [total]. *)
Fixpoint siret_loop (i : nat) (total : Z) (siret : list char) : option Z :=
  match siret with
  | [] => Some total
  | digit :: rest =>
      match siret_step i digit total with
      | None => None
      | Some total' => siret_loop (S i) total' rest
      end
  end.

Definition validate_siret (siret : list char) : bool :=
  if (match siret with [] => true | _ => false end)
     || negb (Nat.eqb (length siret) 14)
  then false
  else
    match siret_loop 0 0 siret with
    | Some total => total mod 10 =? 0
    | None => false                       (* except ValueError *)
    end.

(** ** The checksum as the specification words it *)

(** The decimal digits of a number, through the standard decimal printer. *)
Fixpoint uint_digit_sum (u : Decimal.uint) : Z :=
  match u with
  | Decimal.Nil => 0
  | Decimal.D0 u => 0 + uint_digit_sum u
  | Decimal.D1 u => 1 + uint_digit_sum u
  | Decimal.D2 u => 2 + uint_digit_sum u
  | Decimal.D3 u => 3 + uint_digit_sum u
  | Decimal.D4 u => 4 + uint_digit_sum u
  | Decimal.D5 u => 5 + uint_digit_sum u
  | Decimal.D6 u => 6 + uint_digit_sum u
  | Decimal.D7 u => 7 + uint_digit_sum u
  | Decimal.D8 u => 8 + uint_digit_sum u
  | Decimal.D9 u => 9 + uint_digit_sum u
  end.

Definition decimal_digit_sum (n : Z) : Z :=
  uint_digit_sum (N.to_uint (Z.to_N n)).

(** The contribution of the digit [d] found at 0-based index [i]. *)
Definition checksum_term (i : nat) (d : Z) : Z :=
  if Nat.odd i then
    if 9 <? 2 * d then decimal_digit_sum (2 * d) else 2 * d
  else d.

(** The sum over all digits, the first of which sits at index [i]. *)
Fixpoint checksum_from (i : nat) (ds : list Z) : Z :=
  match ds with
  | [] => 0
  | d :: ds => checksum_term i d + checksum_from (S i) ds
  end.

Definition checksum (ds : list Z) : Z := checksum_from 0 ds.

(** The digits of a string, when every character is a decimal digit. *)
Definition digits_of (siret : list char) : option (list Z) :=
  mapM int_of_char siret.

(** ** The ASCII instance: [int('0')] .. [int('9')] *)

Definition ascii_int_of_char (c : ascii) : option Z :=
  let n := Z.of_N (N_of_ascii c) in
  if (48 <=? n)%Z && (n <=? 57)%Z then Some (n - 48)%Z else None.

Definition siret_ok : list ascii := list_ascii_of_string "17203040506040".
Definition siret_ok_digits : list Z :=
  [1; 7; 2; 0; 3; 0; 4; 0; 5; 0; 6; 0; 4; 0]%Z.

(** ** Proofs *)

Lemma doubled_digit_sum d :
  0 <= d <= 9 -> 9 < d * 2 ->
  decimal_digit_sum (d * 2) = (d * 2) / 10 + (d * 2) mod 10.
Proof.
  intros Hd Hlt.
  assert (Hcases : d = 5 \/ d = 6 \/ d = 7 \/ d = 8 \/ d = 9) by lia.
  destruct Hcases as [->|[->|[->|[->| ->]]]]; reflexivity.
Qed.

Lemma odd_mod2 i : Nat.eqb (i mod 2) 1 = Nat.odd i.
Proof.
  rewrite <- Nat.bit0_mod, Nat.bit0_odd. by destruct (Nat.odd i).
Qed.

Lemma siret_step_digit i c d total :
  int_of_char c = Some d ->
  siret_step i c total = Some (total + checksum_term i d).
Proof.
  intros Hc. unfold siret_step, checksum_term. rewrite Hc, odd_mod2.
  destruct (Nat.odd i); [|done].
  pose proof (int_of_char_decimal _ _ Hc) as Hd.
  cbn zeta. rewrite Z.gtb_ltb, (Z.mul_comm 2 d).
  destruct (9 <? d * 2) eqn:Hlt; [|done].
  apply Z.ltb_lt in Hlt. by rewrite doubled_digit_sum.
Qed.

Lemma siret_step_nondigit i c total :
  int_of_char c = None -> siret_step i c total = None.
Proof. intros Hc. unfold siret_step. by rewrite Hc. Qed.

(** The loop adds up the checksum of the digits it has read. *)
Lemma siret_loop_digits siret ds :
  digits_of siret = Some ds ->
  forall i total, siret_loop i total siret = Some (total + checksum_from i ds).
Proof.
  unfold digits_of. intros Hds. apply mapM_Some_1 in Hds.
  induction Hds as [|c d siret ds Hc _ IH]; intros i total.
  - cbn. f_equal. lia.
  - cbn [siret_loop checksum_from].
    rewrite (siret_step_digit _ _ _ _ Hc), IH. f_equal. lia.
Qed.

(** The loop stops with [ValueError] on the first character that is not a
    decimal digit. *)
Lemma siret_loop_nondigit siret : forall i total c,
  c ∈ siret -> int_of_char c = None -> siret_loop i total siret = None.
Proof.
  induction siret as [|c0 siret IH]; intros i total c Hin Hc.
  - by apply elem_of_nil in Hin.
  - cbn [siret_loop].
    destruct (siret_step i c0 total) as [total'|] eqn:Hstep; [|done].
    apply elem_of_cons in Hin as [->|Hin].
    + by rewrite siret_step_nondigit in Hstep.
    + by apply (IH _ _ c).
Qed.

Lemma validate_siret_length siret :
  length siret = 14%nat ->
  validate_siret siret =
    match siret_loop 0 0 siret with
    | Some total => total mod 10 =? 0
    | None => false
    end.
Proof.
  intros Hlen. unfold validate_siret. rewrite Hlen.
  by destruct siret.
Qed.

Lemma validate_siret_wrong_length siret :
  length siret ≠ 14%nat -> validate_siret siret = false.
Proof.
  intros Hlen. unfold validate_siret.
  apply Nat.eqb_neq in Hlen. rewrite Hlen. by destruct siret.
Qed.

(** C7.  [validate_siret] is [False] on every string whose length is not 14
    or that holds a character that is not a decimal digit; on a string of 14
    decimal digits it is [True] exactly when the checksum (every digit at an
    odd 0-based index doubled, a doubled value above 9 replaced by the sum of
    its two decimal digits) is divisible by 10. *)
Theorem validate_siret_spec (siret : list char) :
  (length siret ≠ 14%nat -> validate_siret siret = false) /\
  ((exists c, c ∈ siret /\ int_of_char c = None) ->
   validate_siret siret = false) /\
  (forall ds, length siret = 14%nat -> digits_of siret = Some ds ->
     (validate_siret siret = true <-> checksum ds mod 10 = 0)).
Proof.
  split; [apply validate_siret_wrong_length|split].
  - intros (c & Hin & Hc).
    destruct (decide (length siret = 14%nat)) as [Hlen|Hlen].
    + rewrite validate_siret_length by done.
      by rewrite (siret_loop_nondigit _ _ _ c).
    + by apply validate_siret_wrong_length.
  - intros ds Hlen Hds.
    rewrite validate_siret_length by done.
    rewrite (siret_loop_digits _ ds Hds).
    unfold checksum. rewrite Z.add_0_l. apply Z.eqb_eq.
Qed.

End ValidateSiret.

Lemma ascii_int_of_char_decimal c d :
  ascii_int_of_char c = Some d -> (0 <= d <= 9)%Z.
Proof.
  unfold ascii_int_of_char. intros H.
  destruct (48 <=? _)%Z eqn:H1; [|done].
  destruct (_ <=? 57)%Z eqn:H2; [|done].
  simplify_eq/=. lia.
Qed.

(** C7 at the ASCII digits, on the string 17203040506040. *)
Lemma validate_siret_spec_witness :
  validate_siret ascii ascii_int_of_char siret_ok = true <->
  (checksum siret_ok_digits mod 10 = 0)%Z.
Proof.
  apply (validate_siret_spec ascii ascii_int_of_char ascii_int_of_char_decimal
           siret_ok); reflexivity.
Defined.

(** The index parity is counted from the left, so that on 14 digits the
    digits doubled are not those the Luhn check of a SIRET doubles:
    73282932000074 passes that check and is refused here. *)
Example validate_siret_accepts :
  validate_siret ascii ascii_int_of_char
    (list_ascii_of_string "73282932000074") = false /\
  validate_siret ascii ascii_int_of_char
    (list_ascii_of_string "17203040506040") = true /\
  validate_siret ascii ascii_int_of_char
    (list_ascii_of_string "1720304050604x") = false /\
  validate_siret ascii ascii_int_of_char
    (list_ascii_of_string "1720304050604") = false.
Proof. repeat split; reflexivity. Qed.

(* ===================================================================== *)
(** * More of ValidationManager                                           *)
(* ===================================================================== *)

Section SiretErrors.
Local Open Scope Z_scope.

Variable char : Type.
Variable int_of_char : char -> option Z.
Hypothesis int_of_char_decimal :
  forall c d, int_of_char c = Some d -> 0 <= d <= 9.

(** The digits of a string after one character has been replaced. *)
Lemma digits_of_insert (siret : list char) ds i c' d' :
  digits_of char int_of_char siret = Some ds ->
  int_of_char c' = Some d' ->
  digits_of char int_of_char (<[i := c']> siret) = Some (<[i := d']> ds).
Proof.
  unfold digits_of. intros Hds Hc'. apply mapM_Some. apply mapM_Some in Hds.
  by apply Forall2_insert.
Qed.

Lemma checksum_from_insert ds : forall k i d d',
  ds !! i = Some d ->
  checksum_from k (<[i := d']> ds)
  = checksum_from k ds - checksum_term (k + i) d + checksum_term (k + i) d'.
Proof.
  induction ds as [|d0 ds IH]; intros k i d d' Hi; [done|].
  destruct i as [|i].
  - cbn in *. simplify_eq. rewrite Nat.add_0_r. lia.
  - change (<[S i:=d']> (d0 :: ds)) with (d0 :: <[i:=d']> ds).
    cbn [checksum_from]. rewrite (IH (S k) i d d' Hi).
    replace (S k + i)%nat with (k + S i)%nat by lia. lia.
Qed.

(** Two different digits never weigh the same at the same index. *)
Lemma checksum_term_distinct i d d' :
  0 <= d <= 9 -> 0 <= d' <= 9 -> d ≠ d' ->
  (checksum_term i d' - checksum_term i d) mod 10 ≠ 0.
Proof.
  intros Hd Hd' Hne. unfold checksum_term.
  destruct (Nat.odd i).
  - assert (Hc : d = 0 \/ d = 1 \/ d = 2 \/ d = 3 \/ d = 4 \/ d = 5 \/ d = 6
                 \/ d = 7 \/ d = 8 \/ d = 9) by lia.
    assert (Hc' : d' = 0 \/ d' = 1 \/ d' = 2 \/ d' = 3 \/ d' = 4 \/ d' = 5
                  \/ d' = 6 \/ d' = 7 \/ d' = 8 \/ d' = 9) by lia.
    destruct Hc as [->|[->|[->|[->|[->|[->|[->|[->|[->| ->]]]]]]]]];
      destruct Hc' as [->|[->|[->|[->|[->|[->|[->|[->|[->| ->]]]]]]]]];
      try done; vm_compute; discriminate.
  - intros Hmod. apply Z.mod_divide in Hmod; [|lia].
    destruct Hmod as [q Hq]. lia.
Qed.

Lemma validate_siret_digits (siret : list char) ds :
  length siret = 14%nat ->
  digits_of char int_of_char siret = Some ds ->
  validate_siret char int_of_char siret = (checksum ds mod 10 =? 0).
Proof.
  intros Hlen Hds. rewrite validate_siret_length by done.
  rewrite (siret_loop_digits char int_of_char int_of_char_decimal _ ds Hds).
  unfold checksum. by rewrite Z.add_0_l.
Qed.

Lemma validate_siret_nondigit (siret : list char) c :
  c ∈ siret -> int_of_char c = None ->
  validate_siret char int_of_char siret = false.
Proof.
  intros Hin Hc.
  destruct (decide (length siret = 14%nat)) as [Hlen|Hlen];
    [|by apply validate_siret_wrong_length].
  rewrite validate_siret_length by done.
  by rewrite (siret_loop_nondigit char int_of_char _ _ _ c).
Qed.

Lemma validate_siret_true (siret : list char) :
  validate_siret char int_of_char siret = true ->
  length siret = 14%nat /\
  exists ds,
    digits_of char int_of_char siret = Some ds /\ checksum ds mod 10 = 0.
Proof.
  intros Hvalid.
  destruct (decide (length siret = 14%nat)) as [Hlen|Hlen];
    [|by rewrite validate_siret_wrong_length in Hvalid].
  split; [done|].
  destruct (digits_of char int_of_char siret) as [ds|] eqn:Hds.
  - exists ds. split; [done|].
    rewrite (validate_siret_digits siret ds Hlen Hds) in Hvalid.
    by apply Z.eqb_eq.
  - unfold digits_of in Hds. apply mapM_None in Hds.
    apply Exists_exists in Hds as (c & Hin & Hc).
    by rewrite (validate_siret_nondigit siret c) in Hvalid.
Qed.

(** X1.  The checksum catches every single-character error: if a string is
    accepted, the string obtained by replacing one of its characters by a
    character of another value (another digit, or not a digit at all) is
    refused. *)
Theorem validate_siret_single_error (siret : list char) i c c' :
  validate_siret char int_of_char siret = true ->
  siret !! i = Some c ->
  int_of_char c' ≠ int_of_char c ->
  validate_siret char int_of_char (<[i := c']> siret) = false.
Proof.
  intros Hvalid Hi Hne.
  destruct (validate_siret_true siret Hvalid) as (Hlen & ds & Hds & Hsum).
  destruct (int_of_char c') as [d'|] eqn:Hc'.
  - assert (exists d, int_of_char c = Some d /\ ds !! i = Some d)
      as (d & Hc & Hdi).
    { unfold digits_of in Hds. apply mapM_Some in Hds.
      destruct (Forall2_lookup_l _ _ _ _ _ Hds Hi) as (d & Hdi & Hc). eauto. }
    pose proof (digits_of_insert siret ds i c' d' Hds Hc') as Hds'.
    rewrite (validate_siret_digits _ _ (eq_trans (length_insert _ _ _) Hlen)
               Hds').
    apply Z.eqb_neq. intros Hv'.
    unfold checksum in *. rewrite (checksum_from_insert ds 0 i d d' Hdi) in Hv'.
    cbn [Nat.add] in Hv'.
    destruct (checksum_term_distinct i d d') as [];
      [eauto using int_of_char_decimal..| |].
    { intros ->. by rewrite Hc in Hne. }
    replace (checksum_term i d' - checksum_term i d)
      with ((checksum_from 0 ds - checksum_term i d + checksum_term i d')
            - checksum_from 0 ds) by lia.
    rewrite Zminus_mod, Hv', Hsum. done.
  - apply (validate_siret_nondigit _ c'); [|done].
    apply list_elem_of_lookup. exists i.
    apply list_lookup_insert_eq. by eapply lookup_lt_Some.
Qed.

End SiretErrors.

(** X1 on the ASCII digits: 17203040506040 is accepted, 17203040506041 is
    not. *)
Lemma validate_siret_single_error_witness :
  validate_siret ascii ascii_int_of_char
    (<[13%nat := "1"%char]> siret_ok) = false.
Proof.
  apply (validate_siret_single_error ascii ascii_int_of_char
           ascii_int_of_char_decimal siret_ok 13 "0"%char "1"%char);
    [reflexivity|reflexivity|vm_compute; discriminate].
Defined.

(* ===================================================================== *)
(** * validate_email and validate_tva_number: the patterns given to re.match *)
(* ===================================================================== *)

(** A [str] is taken here as the sequence of the bytes of its UTF-8
    encoding.  The two patterns only have classes of ASCII characters, which
    no byte of a character outside ASCII belongs to, so that [re.match]
    gives the same answer on the characters and on the bytes. *)

(** [validate_amount]: the comma is read as a decimal point. *)
Fixpoint replace (old new : ascii) (s : string) : string :=
  match s with
  | EmptyString => EmptyString
  | String c s => String (if Ascii.eqb c old then new else c)
                         (replace old new s)
  end.

Section ValidateAmount.

(** Python's [float] on a [str]: [None] when it raises [ValueError]. *)
Variable float_of_string : string -> option float.

Definition validate_amount (amount_str : string) : bool * float :=
  (* Remplace la virgule par un point *)
  let amount_str := replace "," "." amount_str in
  match float_of_string amount_str with
  | Some amount => (true, amount)
  | None => (false, 0%float)
  end.

End ValidateAmount.

(** The part of the syntax of [re] the two patterns use. *)
Inductive regex :=
| Nothing
| Eps
| Chr (p : ascii -> bool)
| Cat (r1 r2 : regex)
| Alt (r1 r2 : regex)
| Star (r : regex).

(** [r+], [r{n}] and [r{n,}]. *)
Definition Plus (r : regex) : regex := Cat r (Star r).

Fixpoint Repeat (n : nat) (r : regex) : regex :=
  match n with
  | O => Eps
  | S n => Cat r (Repeat n r)
  end.

Definition AtLeast (n : nat) (r : regex) : regex := Cat (Repeat n r) (Star r).

(** The strings a pattern matches from end to end. *)
Inductive matches : regex -> list ascii -> Prop :=
| m_eps : matches Eps []
| m_chr p c : p c = true -> matches (Chr p) [c]
| m_cat r1 r2 s1 s2 :
    matches r1 s1 -> matches r2 s2 -> matches (Cat r1 r2) (s1 ++ s2)
| m_alt_l r1 r2 s : matches r1 s -> matches (Alt r1 r2) s
| m_alt_r r1 r2 s : matches r2 s -> matches (Alt r1 r2) s
| m_star_nil r : matches (Star r) []
| m_star_app r s1 s2 :
    matches r s1 -> matches (Star r) s2 -> matches (Star r) (s1 ++ s2).

(** The matcher: derivatives of the pattern by the characters read. *)
Fixpoint nullable (r : regex) : bool :=
  match r with
  | Nothing => false
  | Eps => true
  | Chr _ => false
  | Cat r1 r2 => nullable r1 && nullable r2
  | Alt r1 r2 => nullable r1 || nullable r2
  | Star _ => true
  end.

Fixpoint deriv (c : ascii) (r : regex) : regex :=
  match r with
  | Nothing => Nothing
  | Eps => Nothing
  | Chr p => if p c then Eps else Nothing
  | Cat r1 r2 =>
      if nullable r1 then Alt (Cat (deriv c r1) r2) (deriv c r2)
      else Cat (deriv c r1) r2
  | Alt r1 r2 => Alt (deriv c r1) (deriv c r2)
  | Star r => Cat (deriv c r) (Star r)
  end.

Fixpoint fullmatch (r : regex) (s : list ascii) : bool :=
  match s with
  | [] => nullable r
  | c :: s => fullmatch (deriv c r) s
  end.

(** The string without its last character when that is a newline. *)
Fixpoint before_final_newline (s : list ascii) : option (list ascii) :=
  match s with
  | [] => None
  | [c] => if Ascii.eqb c "010"%char then Some [] else None
  | c :: s => cons c <$> before_final_newline s
  end.

(** [re.match('^' r '$', s) is not None]: without the MULTILINE flag, [$]
    holds at the end of the string and also just before a newline that ends
    it. *)
Definition re_match (r : regex) (s : string) : bool :=
  let s := list_ascii_of_string s in
  fullmatch r s
  || match before_final_newline s with
     | Some s' => fullmatch r s'
     | None => false
     end.

(** Character classes. *)
Definition in_range (lo hi c : ascii) : bool :=
  (N_of_ascii lo <=? N_of_ascii c)%N && (N_of_ascii c <=? N_of_ascii hi)%N.

Definition digit (c : ascii) : bool := in_range "0" "9" c.
Definition upper (c : ascii) : bool := in_range "A" "Z" c.
Definition lower (c : ascii) : bool := in_range "a" "z" c.
Definition one_of (l : list ascii) (c : ascii) : bool :=
  existsb (Ascii.eqb c) l.

(** [[a-zA-Z0-9._%+-]], [[a-zA-Z0-9.-]], [[a-zA-Z]] and [[0-9A-Z]]. *)
Definition local_char (c : ascii) : bool :=
  lower c || upper c || digit c || one_of ["."; "_"; "%"; "+"; "-"]%char c.
Definition domain_char (c : ascii) : bool :=
  lower c || upper c || digit c || one_of ["."; "-"]%char c.
Definition letter (c : ascii) : bool := lower c || upper c.
Definition digit_or_upper (c : ascii) : bool := digit c || upper c.
Definition is_char (x c : ascii) : bool := Ascii.eqb c x.

(** [r'^[a-zA-Z0-9._%+-]+@[a-zA-Z0-9.-]+\.[a-zA-Z]{2,}$'] *)
Definition email_pattern : regex :=
  Cat (Plus (Chr local_char))
   (Cat (Chr (is_char "@"))
    (Cat (Plus (Chr domain_char))
     (Cat (Chr (is_char "."))
          (AtLeast 2 (Chr letter))))).

Definition validate_email (email : string) : bool :=
  re_match email_pattern email.

(** [r'^FR[0-9A-Z]{2}[0-9]{9}$'] *)
Definition tva_pattern : regex :=
  Cat (Chr (is_char "F"))
   (Cat (Chr (is_char "R"))
    (Cat (Repeat 2 (Chr digit_or_upper))
         (Repeat 9 (Chr digit)))).

Definition validate_tva_number (tva : string) : bool :=
  re_match tva_pattern tva.

Example validate_email_examples :
  validate_email "jean.dupont@example.fr" = true /\
  validate_email "jean@example" = false /\
  validate_email "jean@example.f" = false /\
  validate_email "a@b@example.fr" = false /\
  validate_email "jean dupont@example.fr" = false /\
  validate_email "jean@..fr" = true /\
  validate_email "jean@example.fr
" = true.
Proof. vm_compute. repeat split; reflexivity. Qed.

Example validate_tva_number_examples :
  validate_tva_number "FR12345678901" = true /\
  validate_tva_number "FRAB345678901" = true /\
  validate_tva_number "FRab345678901" = false /\
  validate_tva_number "FR1234567890" = false /\
  validate_tva_number "fr12345678901" = false /\
  validate_tva_number " FR12345678901" = false.
Proof. vm_compute. repeat split; reflexivity. Qed.

(** ** The matcher decides [matches] *)

Lemma nullable_matches r : nullable r = true <-> matches r [].
Proof.
  induction r as [| |p|r1 IH1 r2 IH2|r1 IH1 r2 IH2|r IH]; cbn.
  - split; [done|]. inversion 1.
  - split; [constructor|done].
  - split; [done|]. inversion 1.
  - rewrite andb_true_iff, IH1, IH2. split.
    + intros [H1 H2]. by apply (m_cat _ _ [] []).
    + intros Hm. inversion Hm as [| |? ? s1 s2 H1 H2| | | |]; subst.
      match goal with H : _ ++ _ = [] |- _ =>
        apply app_eq_nil in H as [-> ->] end.
      done.
  - rewrite orb_true_iff, IH1, IH2. split.
    + intros [H|H]; [by apply m_alt_l|by apply m_alt_r].
    + inversion 1; subst; auto.
  - split; [constructor|done].
Qed.

(** A non-empty match of [r*] starts with a non-empty match of [r]. *)
Lemma matches_star_cons r c s :
  matches (Star r) (c :: s) ->
  exists s1 s2, s = s1 ++ s2 /\ matches r (c :: s1) /\ matches (Star r) s2.
Proof.
  intros Hm. remember (Star r) as r' eqn:Hr. remember (c :: s) as s' eqn:Hs.
  revert s Hs.
  induction Hm as [| | | | | |r0 s1 s2 H1 _ H2 IH2]; intros t Ht;
    try discriminate.
  injection Hr as ->.
  destruct s1 as [|c1 s1].
  - cbn in Ht. by apply IH2.
  - cbn in Ht. injection Ht as -> <-. eauto.
Qed.

Lemma matches_cat_cons r1 r2 c s :
  matches (Cat r1 r2) (c :: s) ->
  (exists s1 s2, s = s1 ++ s2 /\ matches r1 (c :: s1) /\ matches r2 s2) \/
  (matches r1 [] /\ matches r2 (c :: s)).
Proof.
  intros Hm. inversion Hm as [| |? ? s1 s2 H1 H2| | | |]; subst.
  destruct s1 as [|c1 s1].
  - right. cbn in *. by subst.
  - left. match goal with H : _ = c :: s |- _ => injection H as -> <- end.
    eauto.
Qed.

Lemma deriv_matches c r : forall s,
  matches (deriv c r) s <-> matches r (c :: s).
Proof.
  induction r as [| |p|r1 IH1 r2 IH2|r1 IH1 r2 IH2|r IH]; intros s; cbn.
  - split; inversion 1.
  - split; inversion 1.
  - destruct (p c) eqn:Hp; split.
    + inversion 1; subst. by constructor.
    + inversion 1; subst. constructor.
    + inversion 1.
    + inversion 1; subst. congruence.
  - assert (Hcat : matches (Cat (deriv c r1) r2) s ->
                   matches (Cat r1 r2) (c :: s)).
    { intros Hm. inversion Hm as [| |? ? s1 s2 H1 H2| | | |]; subst.
      apply IH1 in H1. by apply (m_cat _ _ (c :: s1) s2). }
    assert (Hback : matches (Cat r1 r2) (c :: s) ->
                    matches (Cat (deriv c r1) r2) s \/
                    (matches r1 [] /\ matches r2 (c :: s))).
    { intros Hm. apply matches_cat_cons in Hm
        as [(s1 & s2 & -> & H1 & H2)|H]; [left|by right].
      apply m_cat; [by apply IH1|done]. }
    destruct (nullable r1) eqn:Hnull; split.
    + inversion 1; subst; [by apply Hcat|].
      apply (m_cat _ _ [] (c :: s)); [by apply nullable_matches|by apply IH2].
    + intros Hm. destruct (Hback Hm) as [H|[_ H]];
        [by apply m_alt_l|apply m_alt_r; by apply IH2].
    + apply Hcat.
    + intros Hm. destruct (Hback Hm) as [H|[H _]]; [done|].
      apply nullable_matches in H. congruence.
  - split.
    + inversion 1; subst;
        [apply m_alt_l; by apply IH1|apply m_alt_r; by apply IH2].
    + inversion 1; subst;
        [apply m_alt_l; by apply IH1|apply m_alt_r; by apply IH2].
  - split.
    + intros Hm. inversion Hm as [| |? ? s1 s2 H1 H2| | | |]; subst.
      apply IH in H1. by apply (m_star_app _ (c :: s1) s2).
    + intros Hm. apply matches_star_cons in Hm as (s1 & s2 & -> & H1 & H2).
      apply m_cat; [by apply IH|done].
Qed.

Lemma fullmatch_matches s : forall r,
  fullmatch r s = true <-> matches r s.
Proof.
  induction s as [|c s IH]; intros r; cbn.
  - apply nullable_matches.
  - by rewrite IH, deriv_matches.
Qed.

(** ** What the building blocks match *)

Lemma matches_chr p s :
  matches (Chr p) s <-> exists c, s = [c] /\ p c = true.
Proof.
  split.
  - inversion 1; subst. eauto.
  - intros (c & -> & Hp). by constructor.
Qed.

Lemma matches_cat r1 r2 s :
  matches (Cat r1 r2) s <->
  exists s1 s2, s = s1 ++ s2 /\ matches r1 s1 /\ matches r2 s2.
Proof.
  split.
  - inversion 1; subst. eauto.
  - intros (s1 & s2 & -> & H1 & H2). by constructor.
Qed.

Lemma matches_eps s : matches Eps s <-> s = [].
Proof. split; [by inversion 1|intros ->; constructor]. Qed.

Lemma matches_star_chr p s :
  matches (Star (Chr p)) s <-> Forall (fun c => p c = true) s.
Proof.
  split.
  - induction s as [|c s IH]; intros Hm; [constructor|].
    apply matches_star_cons in Hm as (s1 & s2 & -> & H1 & H2).
    apply matches_chr in H1 as (c' & Heq & Hp).
    injection Heq as -> ->. constructor; [done|]. by apply IH.
  - induction 1 as [|c s Hp _ IH]; [constructor|].
    apply (m_star_app _ [c] s); [by constructor|done].
Qed.

Lemma matches_repeat_chr p n : forall s,
  matches (Repeat n (Chr p)) s <->
  length s = n /\ Forall (fun c => p c = true) s.
Proof.
  induction n as [|n IH]; intros s; cbn [Repeat].
  - rewrite matches_eps. split.
    + intros ->. by split.
    + intros [Hlen _]. by apply nil_length_inv.
  - rewrite matches_cat. split.
    + intros (s1 & s2 & -> & H1 & H2).
      apply matches_chr in H1 as (c & -> & Hp). apply IH in H2 as [Hlen Hall].
      cbn. split; [by f_equal|by constructor].
    + intros [Hlen Hall]. destruct s as [|c s]; [done|].
      inversion Hall; subst. exists [c], s. split; [done|].
      split; [by constructor|]. apply IH. split; [|done].
      cbn in Hlen. lia.
Qed.

Lemma matches_plus_chr p s :
  matches (Plus (Chr p)) s <-> s ≠ [] /\ Forall (fun c => p c = true) s.
Proof.
  unfold Plus. rewrite matches_cat. split.
  - intros (s1 & s2 & -> & H1 & H2).
    apply matches_chr in H1 as (c & -> & Hp). apply matches_star_chr in H2.
    split; [done|by constructor].
  - intros [Hne Hall]. destruct s as [|c s]; [done|].
    inversion Hall; subst. exists [c], s.
    split; [done|]. split; [by constructor|by apply matches_star_chr].
Qed.

Lemma matches_atleast_chr p n s :
  matches (AtLeast n (Chr p)) s <->
  (n <= length s)%nat /\ Forall (fun c => p c = true) s.
Proof.
  unfold AtLeast. rewrite matches_cat. split.
  - intros (s1 & s2 & -> & H1 & H2).
    apply matches_repeat_chr in H1 as [Hlen H1]. apply matches_star_chr in H2.
    rewrite length_app. split; [lia|by apply Forall_app].
  - intros [Hlen Hall]. exists (take n s), (drop n s).
    split; [by rewrite take_drop|].
    split; [apply matches_repeat_chr|apply matches_star_chr].
    + split; [by rewrite length_take_le|by apply Forall_take].
    + by apply Forall_drop.
Qed.

Lemma before_final_newline_snoc s' :
  before_final_newline (s' ++ ["010"%char]) = Some s'.
Proof.
  induction s' as [|c s' IH]; [done|].
  destruct s' as [|c2 s']; [done|].
  change (before_final_newline ((c :: c2 :: s') ++ ["010"%char]))
    with (cons c <$> before_final_newline ((c2 :: s') ++ ["010"%char])).
  by rewrite IH.
Qed.

Lemma before_final_newline_inv s : forall s',
  before_final_newline s = Some s' -> s = s' ++ ["010"%char].
Proof.
  induction s as [|c s IH]; intros s' Hs; [done|].
  destruct s as [|c2 s].
  - cbn in Hs. destruct (Ascii.eqb_spec c "010"%char); by simplify_eq.
  - change (before_final_newline (c :: c2 :: s))
      with (cons c <$> before_final_newline (c2 :: s)) in Hs.
    destruct (before_final_newline (c2 :: s)) as [t|]; [|done].
    cbn in Hs. simplify_eq. by rewrite (IH t eq_refl).
Qed.

Lemma before_final_newline_Some s s' :
  before_final_newline s = Some s' <-> s = s' ++ ["010"%char].
Proof.
  split; [apply before_final_newline_inv|].
  intros ->. apply before_final_newline_snoc.
Qed.

(** [re_match]: the pattern matches the whole string, or the whole string
    but a final newline. *)
Lemma re_match_true r s :
  re_match r s = true <->
  exists body,
    (list_ascii_of_string s = body \/
     list_ascii_of_string s = body ++ ["010"%char]) /\
    matches r body.
Proof.
  unfold re_match. rewrite orb_true_iff, fullmatch_matches. split.
  - intros [H|H]; [eauto|].
    destruct (before_final_newline _) as [s'|] eqn:Hs; [|done].
    apply before_final_newline_Some in Hs. apply fullmatch_matches in H. eauto.
  - intros (body & [Heq|Heq] & Hm); [left; by rewrite Heq|right].
    apply before_final_newline_Some in Heq. rewrite Heq.
    by apply fullmatch_matches.
Qed.

(** ** The strings the two validators accept *)

(** local@domain.tld: a non-empty local part and a non-empty domain of the
    allowed characters, and at least two letters after the last dot. *)
Definition email_shape (body : list ascii) : Prop :=
  exists loc dom tld,
    body = loc ++ "@"%char :: dom ++ "."%char :: tld /\
    loc ≠ [] /\ Forall (fun c => local_char c = true) loc /\
    dom ≠ [] /\ Forall (fun c => domain_char c = true) dom /\
    (2 <= length tld)%nat /\ Forall (fun c => letter c = true) tld.

(** FR, two characters that are digits or capitals, nine digits. *)
Definition tva_shape (body : list ascii) : Prop :=
  exists a b ds,
    body = "F"%char :: "R"%char :: a :: b :: ds /\
    digit_or_upper a = true /\ digit_or_upper b = true /\
    length ds = 9%nat /\ Forall (fun c => digit c = true) ds.

Lemma is_char_true x c : is_char x c = true <-> c = x.
Proof. unfold is_char. apply Ascii.eqb_eq. Qed.

Lemma email_pattern_matches body :
  matches email_pattern body <-> email_shape body.
Proof.
  unfold email_pattern, email_shape. split.
  - intros Hm.
    apply matches_cat in Hm as (loc & s1 & -> & Hloc & Hm).
    apply matches_cat in Hm as (at_ & s2 & -> & Hat & Hm).
    apply matches_cat in Hm as (dom & s3 & -> & Hdom & Hm).
    apply matches_cat in Hm as (dot & tld & -> & Hdot & Htld).
    apply matches_plus_chr in Hloc as [? ?].
    apply matches_chr in Hat as (c1 & -> & ->%is_char_true).
    apply matches_plus_chr in Hdom as [? ?].
    apply matches_chr in Hdot as (c2 & -> & ->%is_char_true).
    apply matches_atleast_chr in Htld as [? ?].
    by exists loc, dom, tld.
  - intros (loc & dom & tld & -> & ? & ? & ? & ? & ? & ?).
    apply m_cat; [by apply matches_plus_chr|].
    apply (m_cat _ _ ["@"%char]); [by constructor|].
    apply m_cat; [by apply matches_plus_chr|].
    apply (m_cat _ _ ["."%char]); [by constructor|].
    by apply matches_atleast_chr.
Qed.

Lemma tva_pattern_matches body :
  matches tva_pattern body <-> tva_shape body.
Proof.
  unfold tva_pattern, tva_shape. split.
  - intros Hm.
    apply matches_cat in Hm as (f & s1 & -> & Hf & Hm).
    apply matches_cat in Hm as (r & s2 & -> & Hr & Hm).
    apply matches_cat in Hm as (ab & ds & -> & Hab & Hds).
    apply matches_chr in Hf as (c1 & -> & ->%is_char_true).
    apply matches_chr in Hr as (c2 & -> & ->%is_char_true).
    apply matches_repeat_chr in Hab as [Hlen Hab].
    apply matches_repeat_chr in Hds as [? ?].
    destruct ab as [|a [|b [|]]]; try done.
    inversion Hab as [|? ? ? Hb]; subst. inversion Hb; subst.
    by exists a, b, ds.
  - intros (a & b & ds & -> & ? & ? & ? & ?).
    apply (m_cat _ _ ["F"%char]); [by constructor|].
    apply (m_cat _ _ ["R"%char]); [by constructor|].
    apply (m_cat _ _ [a; b]); apply matches_repeat_chr; [|done].
    split; [done|]. by repeat constructor.
Qed.

(** The number of occurrences of a character. *)
Definition count_char (x : ascii) (s : list ascii) : nat :=
  length (filter (fun c => c = x) s).

Lemma count_char_app x s1 s2 :
  count_char x (s1 ++ s2) = (count_char x s1 + count_char x s2)%nat.
Proof. unfold count_char. by rewrite filter_app, length_app. Qed.

Lemma count_char_class p x s :
  p x = false -> Forall (fun c => p c = true) s -> count_char x s = 0%nat.
Proof.
  intros Hx. unfold count_char. induction 1 as [|c s Hc _ IH]; [done|].
  rewrite filter_cons_False; [done|]. intros ->. congruence.
Qed.

(** X2.  [validate_email] accepts exactly the strings of the shape
    local@domain.tld described by [email_shape], and the same strings
    followed by one newline. *)
Theorem validate_email_accepts email :
  validate_email email = true <->
  exists body,
    (list_ascii_of_string email = body \/
     list_ascii_of_string email = body ++ ["010"%char]) /\
    email_shape body.
Proof.
  unfold validate_email. rewrite re_match_true.
  split; intros (body & Heq & Hm); exists body;
    (split; [done|by apply email_pattern_matches]).
Qed.

(** X3.  An accepted email address has exactly one [@], and none of its
    characters is a space. *)
Theorem validate_email_one_at email :
  validate_email email = true ->
  count_char "@" (list_ascii_of_string email) = 1%nat /\
  count_char " " (list_ascii_of_string email) = 0%nat.
Proof.
  unfold validate_email. rewrite re_match_true.
  intros (body & Heq & Hm). apply email_pattern_matches in Hm.
  destruct Hm as (loc & dom & tld & -> & _ & Hloc & _ & Hdom & _ & Htld).
  assert (forall x, local_char x = false -> domain_char x = false ->
                    letter x = false ->
                    count_char x (loc ++ "@"%char :: dom ++ "."%char :: tld)
                    = (count_char x ["@"%char] + count_char x ["."%char])%nat)
    as Hcount.
  { intros x H1 H2 H3.
    change ("@"%char :: dom ++ "."%char :: tld)
      with (["@"%char] ++ dom ++ ["."%char] ++ tld).
    rewrite !count_char_app.
    rewrite (count_char_class _ _ _ H1 Hloc), (count_char_class _ _ _ H2 Hdom),
      (count_char_class _ _ _ H3 Htld). lia. }
  pose proof (Hcount "@"%char eq_refl eq_refl eq_refl) as Hat.
  pose proof (Hcount " "%char eq_refl eq_refl eq_refl) as Hsp.
  set (body := loc ++ "@"%char :: dom ++ "."%char :: tld) in *.
  destruct Heq as [->| ->].
  - by rewrite Hat, Hsp.
  - by rewrite !(count_char_app _ body), Hat, Hsp.
Qed.

(** X4.  [validate_tva_number] accepts exactly FR followed by two characters
    that are digits or capital letters and by nine digits, and the same
    strings followed by one newline. *)
Theorem validate_tva_number_accepts tva :
  validate_tva_number tva = true <->
  exists body,
    (list_ascii_of_string tva = body \/
     list_ascii_of_string tva = body ++ ["010"%char]) /\
    tva_shape body.
Proof.
  unfold validate_tva_number. rewrite re_match_true.
  split; intros (body & Heq & Hm); exists body;
    (split; [done|by apply tva_pattern_matches]).
Qed.

(** X3 on an address. *)
Lemma validate_email_one_at_witness :
  count_char "@" (list_ascii_of_string "jean.dupont@example.fr") = 1%nat /\
  count_char " " (list_ascii_of_string "jean.dupont@example.fr") = 0%nat.
Proof.
  apply (validate_email_one_at "jean.dupont@example.fr"). reflexivity.
Defined.

End ValidationManager.

(* ===================================================================== *)
(** * Python values shared by the demos                                   *)
(* ===================================================================== *)

Module Py.

(** [int(x)] for a finite float [x]: truncation towards zero.  ([int] raises
    on an infinity or a NaN; the clock never returns one, and the value 0 is
    only a placeholder there.) *)
Definition int_of_float (x : float) : Z :=
  match FloatOps.Prim2SF x with
  | SpecFloat.S754_finite s m e =>
      let v := if (0 <=? e)%Z then (Z.pos m * 2 ^ e)%Z
               else (Z.pos m / 2 ^ (- e))%Z in
      if s then (- v)%Z else v
  | _ => 0%Z
  end.

(** An [int] as a [float], as [float(n)] and the arithmetic of an int with
    a float convert it: the nearest float, ties to even.  From 2^1024 on
    Python raises [OverflowError]; the value here is then an infinity, which
    the callers test with [is_finite]. *)
Definition float_of_int (n : Z) : float :=
  FloatOps.SF2Prim
    (SpecFloat.binary_normalize FloatOps.prec FloatOps.emax n 0 false).

(** [a / b] on two ints, [b] not 0: the quotient of the integers, rounded
    once to the nearest float.  The quotient is taken with 64 bits or more
    and a last bit that tells whether the division was exact, which rounds
    as the exact quotient does.  Python raises [OverflowError] when the
    result is too large for a float; the value here is then an infinity. *)
Definition true_divide (a b : Z) : float :=
  let shift := Z.max 0 (64 + Z.log2 (Z.abs b) - Z.log2 (Z.abs a)) in
  let n := (Z.abs a * 2 ^ shift)%Z in
  let q := (n / Z.abs b)%Z in
  let sticky := if (n mod Z.abs b =? 0)%Z then 0%Z else 1%Z in
  let m := (2 * q + sticky)%Z in
  let negative := xorb (a <? 0)%Z (b <? 0)%Z in
  FloatOps.SF2Prim
    (SpecFloat.binary_normalize FloatOps.prec FloatOps.emax
       (if negative then - m else m)%Z (- (shift + 1)) negative).

(** [math.isfinite]: neither an infinity nor a NaN. *)
Definition is_finite (x : float) : bool :=
  PrimFloat.ltb (PrimFloat.abs x) PrimFloat.infinity.

(** The builtin [sum] on floats, started from the integer 0.  Up to
    CPython 3.11 it adds from left to right; from CPython 3.12 on it
    carries a compensation (Neumaier) that it adds at the end.  In both,
    the first float is added to the integer 0 by [+]. *)
Inductive summation := left_to_right | compensated.

(** One item of the compensated loop: the running sum and the
    compensation. *)
Definition neumaier (acc : float * float) (x : float) : float * float :=
  let '(f_result, c) := acc in
  let t := (f_result + x)%float in
  (t,
   if PrimFloat.leb (PrimFloat.abs x) (PrimFloat.abs f_result)
   then (c + ((f_result - t) + x))%float
   else (c + ((x - t) + f_result))%float).

(** The end of the compensated loop: [if (c && isfinite(c)) f_result += c]. *)
Definition compensate (acc : float * float) : float :=
  let '(f_result, c) := acc in
  if negb (PrimFloat.eqb c 0) && is_finite c then (f_result + c)%float
  else f_result.

Definition sum (how : summation) (xs : list float) : float :=
  match xs with
  | [] => 0%float
  | x :: xs =>
      match how with
      | left_to_right => fold_left PrimFloat.add xs (0 + x)%float
      | compensated =>
          compensate (fold_left neumaier xs ((0 + x)%float, 0%float))
      end
  end.

(** [time.time()]: the clock is an unknown sequence of readings, consumed in
    order; [reads] counts the calls made so far. *)
Record clock := { readings : nat -> float; reads : nat }.

Definition time_time (c : clock) : float * clock :=
  (readings c (reads c), {| readings := readings c; reads := S (reads c) |}).

(** Truth value of a [str]: the empty string is falsy. *)
Definition truthy (s : string) : bool :=
  match s with EmptyString => false | _ => true end.

End Py.

(* ===================================================================== *)
(** * DownloadManager (demos/Multi-threaded_Download_Manager.py)          *)
(* ===================================================================== *)

Module DownloadManager.

(** The dictionary stored in [self.downloads] under a download id.  The keys
    ['end_time'] and ['total_size'] are absent until they are first set. *)
Record download := {
  dl_url : string;
  dl_filename : string;
  dl_status : string;
  dl_progress : Z;
  dl_speed : float;
  dl_start_time : float;
  dl_end_time : option float;
  dl_total_size : option Z
}.

(** An item of [self.download_history]. *)
Record history_item := {
  h_url : string;
  h_filename : string;
  h_size : Z;
  h_completed : string;
  h_status : string
}.

(** The attributes of a [DownloadManager].  [download_queue] is created by
    [__init__] and never used afterwards; it has no counterpart here. *)
Record manager := {
  downloads : gmap string download;
  active_downloads : Z;
  max_concurrent : Z;
  download_history : list history_item
}.

(** What a method does besides updating [self]. *)
Inductive effect :=
| popup (msg : string)
| thread_start (url filename download_id : string).
    (* threading.Thread(target=self.download_file,
                        args=(url, full_path, download_id, window)).start() *)

(** [__init__], with the history that [load_history] found on disk. *)
Definition init (history : list history_item) : manager :=
  {| downloads := ∅; active_downloads := 0; max_concurrent := 3;
     download_history := history |}.

Section Methods.

(** Library functions the methods call: [urlparse(url).path],
    [os.path.basename] and [os.path.join]. *)
Variable urlparse_path : string -> string.
Variable os_path_basename : string -> string.
Variable os_path_join : string -> string -> string.

Definition get_filename_from_url (url : string) (clk : Py.clock)
  : string * Py.clock :=
  let path := urlparse_path url in
  if Py.truthy path then (os_path_basename path, clk)
  else
    let '(t, clk) := Py.time_time clk in
    ("download_" +:+ pretty (Py.int_of_float t), clk).

(** [start_download(self, url, save_path, window)]: the value returned
    ([None] for a bare [return]), the manager afterwards, the effects in
    order, and the clock. *)
Definition start_download (self : manager) (url save_path : string)
    (clk : Py.clock)
  : option string * manager * list effect * Py.clock :=
  if (max_concurrent self <=? active_downloads self)%Z then
    (None, self,
     [popup "Maximum concurrent downloads reached. Please wait."], clk)
  else
    let '(filename, clk) := get_filename_from_url url clk in
    let full_path := os_path_join save_path filename in
    let '(t, clk) := Py.time_time clk in
    let download_id := "dl_" +:+ pretty (Py.int_of_float t) in
    let '(t_start, clk) := Py.time_time clk in
    let entry :=
      {| dl_url := url; dl_filename := full_path; dl_status := "Starting";
         dl_progress := 0; dl_speed := 0%float; dl_start_time := t_start;
         dl_end_time := None; dl_total_size := None |} in
    let self :=
      {| downloads := <[download_id := entry]> (downloads self);
         active_downloads := (active_downloads self + 1)%Z;
         max_concurrent := max_concurrent self;
         download_history := download_history self |} in
    (Some download_id, self, [thread_start url full_path download_id], clk).

(** Projections of the result. *)
Definition returned (r : option string * manager * list effect * Py.clock)
  : option string := r.1.1.1.
Definition after (r : option string * manager * list effect * Py.clock)
  : manager := r.1.1.2.
Definition effects (r : option string * manager * list effect * Py.clock)
  : list effect := r.1.2.

Definition is_thread_start (e : effect) : bool :=
  match e with thread_start _ _ _ => true | _ => false end.

(** The number of worker threads a call has spawned. *)
Definition spawned (r : option string * manager * list effect * Py.clock)
  : nat := length (List.filter is_thread_start (effects r)).

(** ** The worker thread: download_file *)

(** What [window.write_event_value] puts on the event queue of the GUI. *)
Inductive event :=
| UPDATE_PROGRESS (id : string) (progress downloaded total : Z) (speed : float)
| DOWNLOAD_COMPLETE (id : string)
| DOWNLOAD_ERROR (id : string) (error : string).

(** What the network gives the thread: [requests.get], [raise_for_status],
    the header and [open] either raise ([inl], with [str(e)]) or give the
    announced size and the chunks of [iter_content], each a length or an
    exception raised in the middle of the transfer. *)
Inductive chunk := data (len : Z) | raises (e : string).
Record response := { content_length : Z; body : list chunk }.

(** Where the thread stands in [download_file].  The GUI thread may run
    between two steps.  A step holds one write of [self]: the status at
    [at_start], [at_completed] and [in_except], the end time and the
    history at [at_end_time], the counter at [in_finally].  Two accesses are
    taken in one step where the manager ends the same whether a branch of
    the event loop runs between them or before them: the two reads of the
    entry in the loop (the test of the status, which no branch sets to
    ['Cancelled'], and [start_time]; an entry removed in between raises the
    [KeyError] one read later), and the write of [end_time] followed by the
    append to [self.download_history], which is another attribute, and by
    [save_history], which writes a file and no attribute.
    [self.active_downloads -= 1] is a load followed by a store in the
    interpreter; it is one step here, for a thread taken on its own, and the
    two steps it is in [reachable_system] below, where threads run
    together. *)
Inductive pc :=
| at_start
| in_loop (total_size downloaded : Z) (rest : list chunk)
| at_completed (total_size : Z)
| at_end_time (total_size : Z)
| in_except (e : string)
| in_finally
| finished.

(** The thread: its arguments, its position, and what its environment will
    answer: the network, the clock, [time.strftime], and [save_history],
    which writes [download_history.json] and may raise ([Some], with
    [str(e)]). *)
Record worker := {
  w_url : string;
  w_filename : string;
  w_download_id : string;
  w_pc : pc;
  w_get : string + response;
  w_clock : Py.clock;
  w_strftime : string;
  w_save_history : option string
}.

Definition goto (w : worker) (clk : Py.clock) (p : pc) : worker :=
  {| w_url := w_url w; w_filename := w_filename w;
     w_download_id := w_download_id w; w_pc := p; w_get := w_get w;
     w_clock := clk; w_strftime := w_strftime w;
     w_save_history := w_save_history w |}.

(** [self.downloads[id] = d], the other attributes as they are. *)
Definition store (self : manager) (id : string) (d : download) : manager :=
  {| downloads := <[id := d]> (downloads self);
     active_downloads := active_downloads self;
     max_concurrent := max_concurrent self;
     download_history := download_history self |}.

Definition with_status (d : download) (st : string) : download :=
  {| dl_url := dl_url d; dl_filename := dl_filename d; dl_status := st;
     dl_progress := dl_progress d; dl_speed := dl_speed d;
     dl_start_time := dl_start_time d; dl_end_time := dl_end_time d;
     dl_total_size := dl_total_size d |}.

Definition with_end_time (d : download) (t : float) : download :=
  {| dl_url := dl_url d; dl_filename := dl_filename d;
     dl_status := dl_status d; dl_progress := dl_progress d;
     dl_speed := dl_speed d; dl_start_time := dl_start_time d;
     dl_end_time := Some t; dl_total_size := dl_total_size d |}.

(** [str(KeyError(id))]. *)
Definition key_error (id : string) : string := "'" +:+ id +:+ "'".

(** One step of the thread on the shared manager: the manager and the thread
    afterwards, and the events posted. *)
Definition download_file_step (self : manager) (w : worker)
  : manager * worker * list event :=
  let id := w_download_id w in
  let clk := w_clock w in
  match w_pc w with
  | at_start =>
      (* self.downloads[download_id]['status'] = 'Downloading' *)
      match downloads self !! id with
      | None => (self, goto w clk (in_except (key_error id)), [])
      | Some d =>
          let self := store self id (with_status d "Downloading") in
          match w_get w with
          | inl e => (self, goto w clk (in_except e), [])
          | inr r =>
              (self, goto w clk (in_loop (content_length r) 0 (body r)), [])
          end
      end
  | in_loop total_size downloaded rest =>
      match rest with
      | [] => (self, goto w clk (at_completed total_size), [])
      | raises e :: _ => (self, goto w clk (in_except e), [])
      | data len :: rest =>
          match downloads self !! id with
          | None => (self, goto w clk (in_except (key_error id)), [])
          | Some d =>
              if String.eqb (dl_status d) "Cancelled" then
                (self, goto w clk in_finally, [])          (* return *)
              else
                let downloaded := (downloaded + len)%Z in
                if (0 <? total_size)%Z then
                  (* progress = int((downloaded / total_size) * 100) *)
                  let ratio := Py.true_divide downloaded total_size in
                  let scaled := (ratio * 100)%float in
                  if negb (Py.is_finite ratio) then
                    (self,
                     goto w clk
                       (in_except
                          "integer division result too large for a float"),
                     [])
                  else if negb (Py.is_finite scaled) then
                    (self,
                     goto w clk
                       (in_except "cannot convert float infinity to integer"),
                     [])
                  else
                    let progress := Py.int_of_float scaled in
                    (* speed = downloaded / (time.time() - start_time) *)
                    let '(now, clk) := Py.time_time clk in
                    let elapsed := (now - dl_start_time d)%float in
                    let size := Py.float_of_int downloaded in
                    if negb (Py.is_finite size) then
                      (self,
                       goto w clk
                         (in_except "int too large to convert to float"),
                       [])
                    else if PrimFloat.eqb elapsed 0%float then
                      (self, goto w clk (in_except "float division by zero"),
                       [])
                    else
                      let speed := (size / elapsed)%float in
                      (self, goto w clk (in_loop total_size downloaded rest),
                       [UPDATE_PROGRESS id progress downloaded total_size
                          speed])
                else
                  (self, goto w clk (in_loop total_size downloaded rest), [])
          end
      end
  | at_completed total_size =>
      (* self.downloads[download_id]['status'] = 'Completed' *)
      match downloads self !! id with
      | None => (self, goto w clk (in_except (key_error id)), [])
      | Some d =>
          (store self id (with_status d "Completed"),
           goto w clk (at_end_time total_size), [])
      end
  | at_end_time total_size =>
      (* self.downloads[download_id]['end_time'] = time.time(), the item of
         the history, save_history(), then the event *)
      let '(now, clk) := Py.time_time clk in
      match downloads self !! id with
      | None => (self, goto w clk (in_except (key_error id)), [])
      | Some d =>
          let item :=
            {| h_url := w_url w; h_filename := w_filename w;
               h_size := total_size; h_completed := w_strftime w;
               h_status := "Completed" |} in
          let self :=
            {| downloads := <[id := with_end_time d now]> (downloads self);
               active_downloads := active_downloads self;
               max_concurrent := max_concurrent self;
               download_history := download_history self ++ [item] |} in
          match w_save_history w with
          | Some e => (self, goto w clk (in_except e), [])
          | None => (self, goto w clk in_finally, [DOWNLOAD_COMPLETE id])
          end
      end
  | in_except e =>
      (* a KeyError raised here leaves the handler; finally runs all the same *)
      match downloads self !! id with
      | None => (self, goto w clk in_finally, [])
      | Some d =>
          (store self id (with_status d ("Error: " +:+ e)),
           goto w clk in_finally, [DOWNLOAD_ERROR id e])
      end
  | in_finally =>
      ({| downloads := downloads self;
          active_downloads := (active_downloads self - 1)%Z;
          max_concurrent := max_concurrent self;
          download_history := download_history self |},
       goto w clk finished, [])
  | finished => (self, w, [])
  end.

(** The thread run on its own for [n] steps. *)
Fixpoint download_file_run (n : nat) (self : manager) (w : worker)
  : manager * worker * list event :=
  match n with
  | O => (self, w, [])
  | S n =>
      let '(self, w, posted) := download_file_step self w in
      let '(self, w, posted') := download_file_run n self w in
      (self, w, posted ++ posted')
  end.

(** The decrement of [active_downloads] the thread still owes. *)
Definition owed (w : worker) : Z :=
  match w_pc w with finished => 0 | _ => 1 end.

(** A bound on the steps the thread has left. *)
Definition steps_left (w : worker) : nat :=
  match w_pc w with
  | at_start =>
      7 + match w_get w with inl _ => 0 | inr r => length (body r) end
  | in_loop _ _ rest => 6 + length rest
  | at_completed _ => 5
  | at_end_time _ => 4
  | in_except _ => 2
  | in_finally => 1
  | finished => 0
  end.

(** The id an event speaks about. *)
Definition event_id (e : event) : string :=
  match e with
  | UPDATE_PROGRESS id _ _ _ _ => id
  | DOWNLOAD_COMPLETE id => id
  | DOWNLOAD_ERROR id _ => id
  end.

(** What one step of a thread may change in the manager it shares with the
    GUI thread. *)
Record step_footprint (self self' : manager) (w w' : worker)
    (posted : list event) : Prop := {
  fp_max : max_concurrent self' = max_concurrent self;
  fp_dom : dom (downloads self') = dom (downloads self);
  fp_others : forall id, id ≠ w_download_id w ->
                downloads self' !! id = downloads self !! id;
  fp_history : exists items, download_history self'
                             = download_history self ++ items
                             /\ (length items <= 1)%nat;
  fp_posted : Forall (fun e => event_id e = w_download_id w) posted;
  fp_counter : (active_downloads self' - owed w'
                = active_downloads self - owed w)%Z;
  fp_same_thread : w_download_id w' = w_download_id w /\ w_get w' = w_get w
}.

(** ** Example data *)

(** A clock whose first readings all fall in the second 1700000000. *)
Definition same_second : Py.clock :=
  {| Py.readings := fun k =>
       nth k [1700000000.125; 1700000000.25; 1700000000.375;
              1700000000.5; 1700000000.625; 1700000000.75]%float
             1700000000.875%float;
     Py.reads := 0 |}.

(** A clock for one download, and the thread of that download. *)
Definition exemple_clock : Py.clock :=
  {| Py.readings := fun k => nth k [1700000000.5; 1700000000.5;
                                    1700000001.5; 1700000002.5]%float
                                   1700000003.5%float;
     Py.reads := 0 |}.

Definition exemple_worker (clk : Py.clock) : worker :=
  {| w_url := "http://example.org/a.bin"; w_filename := "/tmp/a.bin";
     w_download_id := "dl_1700000000"; w_pc := at_start;
     w_get := inr {| content_length := 12288;
                     body := [data 8192; data 4096] |};
     w_clock := clk; w_strftime := "2023-11-14 22:13:23";
     w_save_history := None |}.

(** ** What [start_download] does on either side of the limit *)

Lemma start_download_at_limit self url save_path clk :
  (max_concurrent self <= active_downloads self)%Z ->
  start_download self url save_path clk =
    (None, self,
     [popup "Maximum concurrent downloads reached. Please wait."], clk).
Proof.
  intros Hfull. unfold start_download.
  by rewrite (proj2 (Z.leb_le _ _) Hfull).
Qed.

Lemma start_download_below_limit self url save_path clk :
  (active_downloads self < max_concurrent self)%Z ->
  exists download_id entry,
    let r := start_download self url save_path clk in
    returned r = Some download_id /\
    downloads (after r) = <[download_id := entry]> (downloads self) /\
    dl_url entry = url /\ dl_status entry = "Starting" /\
    active_downloads (after r) = (active_downloads self + 1)%Z /\
    max_concurrent (after r) = max_concurrent self /\
    download_history (after r) = download_history self /\
    (exists full_path,
       effects r = [thread_start url full_path download_id]
       /\ dl_filename entry = full_path) /\
    spawned r = 1%nat.
Proof.
  intros Hroom. unfold start_download.
  rewrite (proj2 (Z.leb_gt _ _) Hroom).
  destruct (get_filename_from_url url clk) as [fname clk1].
  destruct (Py.time_time clk1) as [t clk2] eqn:Ht.
  destruct (Py.time_time clk2) as [t_start clk3] eqn:Hs.
  eexists _, _. cbn. repeat split; eauto.
Qed.

(** Below the limit, a call whose id is not yet a key of [self.downloads]
    adds one entry to it. *)
Lemma start_download_fresh self url save_path clk download_id :
  (active_downloads self < max_concurrent self)%Z ->
  returned (start_download self url save_path clk) = Some download_id ->
  downloads self !! download_id = None ->
  size (downloads (after (start_download self url save_path clk)))
  = S (size (downloads self)).
Proof.
  intros Hroom Hret Hfresh.
  destruct (start_download_below_limit self url save_path clk Hroom)
    as (id & entry & Hid & Hdl & _).
  cbn zeta in Hid, Hdl. rewrite Hid in Hret. injection Hret as ->.
  rewrite Hdl. by apply map_size_insert_None.
Qed.

(** Whatever the call, the counter ends at most at [max_concurrent] unless it
    was already above it, and it moves by at most one. *)
Lemma start_download_bounded self url save_path clk :
  let r := start_download self url save_path clk in
  (active_downloads self <= max_concurrent self ->
   active_downloads (after r) <= max_concurrent (after r))%Z /\
  (active_downloads (after r) = active_downloads self \/
   active_downloads (after r) = active_downloads self + 1 /\
   active_downloads (after r) <= max_concurrent (after r))%Z.
Proof.
  destruct (Z.le_gt_cases (max_concurrent self) (active_downloads self))
    as [Hfull|Hroom].
  - rewrite start_download_at_limit by done. cbn. auto.
  - destruct (start_download_below_limit self url save_path clk Hroom)
      as (id & entry & _ & _ & _ & _ & Hact & Hmax & _).
    cbn zeta. rewrite Hact, Hmax. split; [intros _|right]; lia.
Qed.

(** ** Two downloads started within one second *)

Lemma same_second_id k :
  (k <= 6)%nat ->
  "dl_" +:+ pretty (Py.int_of_float (Py.readings same_second k))
  = "dl_1700000000".
Proof.
  intros Hk. do 7 (destruct k as [|k]; [vm_compute; reflexivity|]). lia.
Qed.

Lemma start_download_id self url save_path clk :
  (active_downloads self < max_concurrent self)%Z ->
  let r := start_download self url save_path clk in
  exists k entry,
    (Py.reads clk <= k <= S (Py.reads clk))%nat /\
    Py.reads r.2 = S (S k) /\ Py.readings r.2 = Py.readings clk /\
    returned r
      = Some ("dl_" +:+ pretty (Py.int_of_float (Py.readings clk k))) /\
    downloads (after r)
      = <["dl_" +:+ pretty (Py.int_of_float (Py.readings clk k)) := entry]>
          (downloads self) /\
    dl_url entry = url /\
    active_downloads (after r) = (active_downloads self + 1)%Z /\
    max_concurrent (after r) = max_concurrent self /\
    spawned r = 1%nat.
Proof.
  intros Hroom. unfold start_download, get_filename_from_url.
  rewrite (proj2 (Z.leb_gt _ _) Hroom).
  destruct (Py.truthy (urlparse_path url)); cbn.
  - exists (Py.reads clk). eexists. repeat split; eauto.
  - exists (S (Py.reads clk)). eexists. repeat split; eauto.
Qed.

(** C8, at the input where it fails.  Two calls made below the limit and
    within the same second return the same id: each spawns its thread and
    increments the counter, but the second call overwrites the entry of the
    first, so [self.downloads] holds one entry for two running downloads. *)
Theorem start_download_same_second url1 url2 save_path :
  let r1 := start_download (init []) url1 save_path same_second in
  let r2 := start_download (after r1) url2 save_path r1.2 in
  returned r1 = Some "dl_1700000000" /\
  returned r2 = Some "dl_1700000000" /\
  spawned r1 = 1%nat /\ spawned r2 = 1%nat /\
  active_downloads (after r2) = 2%Z /\
  size (downloads (after r1)) = 1%nat /\
  size (downloads (after r2)) = 1%nat /\
  dl_url <$> downloads (after r2) !! "dl_1700000000" = Some url2.
Proof.
  intros r1 r2.
  destruct (start_download_id (init []) url1 save_path same_second)
    as (k1 & e1 & Hk1 & Hreads1 & Hrd1 & Hret1 & Hdl1 & _ & Hact1 & Hmax1
        & Hsp1);
    [cbn; lia|].
  fold r1 in Hreads1, Hrd1, Hret1, Hdl1, Hact1, Hmax1, Hsp1.
  destruct (start_download_id (after r1) url2 save_path r1.2)
    as (k2 & e2 & Hk2 & _ & _ & Hret2 & Hdl2 & Hurl2 & Hact2 & _ & Hsp2);
    [rewrite Hact1, Hmax1; cbn; lia|].
  fold r2 in Hret2, Hdl2, Hact2, Hsp2.
  cbn in Hk1. cbn [downloads init] in Hdl1.
  rewrite Hreads1 in Hk2. rewrite Hrd1 in Hret2, Hdl2.
  rewrite same_second_id in Hret1, Hdl1 by lia.
  rewrite same_second_id in Hret2, Hdl2 by lia.
  rewrite Hret1, Hret2, Hsp1, Hsp2, Hact2, Hact1, Hdl2, Hdl1.
  rewrite insert_insert_eq, insert_empty, map_size_singleton.
  repeat split; try done.
  by rewrite lookup_insert_eq, <- Hurl2.
Qed.

(** ** Proofs about the thread *)

Ltac no_item := exists []; split; [by rewrite app_nil_r | cbn; lia].

Lemma store_footprint self w clk p id d d' posted :
  id = w_download_id w ->
  downloads self !! id = Some d ->
  p ≠ finished -> w_pc w ≠ finished ->
  Forall (fun e => event_id e = w_download_id w) posted ->
  step_footprint self (store self id d') w (goto w clk p) posted.
Proof.
  intros -> Hd Hp Hw Hposted. split; cbn; try done.
  - apply dom_insert_lookup_L. by eexists.
  - intros id Hid. by apply lookup_insert_ne.
  - no_item.
  - unfold owed. cbn. destruct p, (w_pc w); done.
Qed.

Lemma same_footprint self w clk p posted :
  p ≠ finished -> w_pc w ≠ finished ->
  Forall (fun e => event_id e = w_download_id w) posted ->
  step_footprint self self w (goto w clk p) posted.
Proof.
  intros Hp Hw Hposted. split; cbn; try done.
  - no_item.
  - unfold owed. cbn. destruct p, (w_pc w); done.
Qed.

Lemma download_file_step_footprint self w :
  step_footprint self (download_file_step self w).1.1
    w (download_file_step self w).1.2 (download_file_step self w).2.
Proof.
  unfold download_file_step.
  destruct (w_pc w) as [|total downloaded rest|total|total|e| |] eqn:Hpc.
  - (* at_start *)
    destruct (downloads self !! w_download_id w) as [d|] eqn:Hd.
    + destruct (w_get w); cbn [fst snd];
        eapply store_footprint; eauto; by rewrite ?Hpc.
    + apply same_footprint; by rewrite ?Hpc.
  - (* in_loop *)
    destruct rest as [|[len|e] rest];
      [apply same_footprint; by rewrite ?Hpc| |
       apply same_footprint; by rewrite ?Hpc].
    destruct (downloads self !! w_download_id w) as [d|] eqn:Hd;
      [|apply same_footprint; by rewrite ?Hpc].
    destruct (String.eqb _ _); [apply same_footprint; by rewrite ?Hpc|].
    destruct (0 <? total)%Z; [|apply same_footprint; by rewrite ?Hpc].
    destruct (negb (Py.is_finite (Py.true_divide _ _)));
      [apply same_footprint; by rewrite ?Hpc|].
    destruct (negb (Py.is_finite (_ * 100)));
      [apply same_footprint; by rewrite ?Hpc|].
    cbn [Py.time_time].
    destruct (negb (Py.is_finite (Py.float_of_int _)));
      [apply same_footprint; by rewrite ?Hpc|].
    destruct (PrimFloat.eqb _ _); cbn [fst snd];
      apply same_footprint; rewrite ?Hpc; try done.
    by repeat constructor.
  - (* at_completed *)
    destruct (downloads self !! w_download_id w) as [d|] eqn:Hd;
      [|apply same_footprint; by rewrite ?Hpc].
    eapply store_footprint; eauto; by rewrite ?Hpc.
  - (* at_end_time *)
    cbn [Py.time_time].
    destruct (downloads self !! w_download_id w) as [d|] eqn:Hd;
      [|apply same_footprint; by rewrite ?Hpc].
    destruct (w_save_history w); cbn [fst snd]; split; cbn; try done.
    + apply dom_insert_lookup_L. by eexists.
    + intros id Hid. by apply lookup_insert_ne.
    + eexists [_]. split; [done|cbn; lia].
    + unfold owed. rewrite Hpc. cbn. lia.
    + apply dom_insert_lookup_L. by eexists.
    + intros id Hid. by apply lookup_insert_ne.
    + eexists [_]. split; [done|cbn; lia].
    + by repeat constructor.
    + unfold owed. rewrite Hpc. cbn. lia.
  - (* in_except *)
    destruct (downloads self !! w_download_id w) as [d|] eqn:Hd; cbn [fst snd].
    + eapply store_footprint; eauto; rewrite ?Hpc; try done;
        by repeat constructor.
    + apply same_footprint; by rewrite ?Hpc.
  - (* in_finally *)
    split; cbn; try done.
    + no_item.
    + unfold owed. cbn. rewrite Hpc. lia.
  - (* finished *)
    split; cbn; try done. no_item.
Qed.

Lemma download_file_step_left self w :
  w_pc w ≠ finished ->
  (steps_left (download_file_step self w).1.2 < steps_left w)%nat.
Proof.
  unfold download_file_step, steps_left. intros Hpc.
  destruct (w_pc w) as [|total downloaded rest|total|total|e| |];
    [| | | | | |done].
  - destruct (downloads self !! w_download_id w);
      [destruct (w_get w)|]; cbn; lia.
  - destruct rest as [|[len|e] rest]; [cbn; lia| |cbn; lia].
    destruct (downloads self !! w_download_id w); [|cbn; lia].
    destruct (String.eqb _ _); [cbn; lia|].
    destruct (0 <? total)%Z; [|cbn; lia].
    destruct (negb _); [cbn; lia|].
    destruct (negb _); [cbn; lia|].
    cbn [Py.time_time].
    destruct (negb _); [cbn; lia|].
    destruct (PrimFloat.eqb _ _); cbn; lia.
  - destruct (downloads self !! w_download_id w); cbn; lia.
  - cbn [Py.time_time].
    destruct (downloads self !! w_download_id w); cbn; [|lia].
    destruct (w_save_history w); cbn; lia.
  - destruct (downloads self !! w_download_id w); cbn; lia.
  - cbn. lia.
Qed.

(** Run on its own, the thread ends, and has decremented the counter by the
    one it owed. *)
Lemma download_file_run_finishes n : forall self w,
  (steps_left w <= n)%nat ->
  w_pc (download_file_run n self w).1.2 = finished /\
  active_downloads (download_file_run n self w).1.1
  = (active_downloads self - owed w)%Z.
Proof.
  induction n as [|n IH]; intros self w Hleft.
  - cbn. unfold owed. unfold steps_left in Hleft.
    destruct (w_pc w); try (cbn in Hleft; lia). split; [done|lia].
  - cbn [download_file_run].
    pose proof (download_file_step_footprint self w) as Hfp.
    assert (w_pc w = finished \/ w_pc w ≠ finished) as [Hfin|Hrun]
      by (destruct (w_pc w); (by left) || (by right)).
    + destruct (download_file_step self w) as [[self1 w1] posted] eqn:Hstep.
      assert (self1 = self /\ w1 = w) as [-> ->].
      { unfold download_file_step in Hstep. rewrite Hfin in Hstep.
        by simplify_eq. }
      destruct (IH self w) as [Hpc Hact];
        [unfold steps_left; rewrite Hfin; lia|].
      destruct (download_file_run n self w) as [[self2 w2] posted2].
      by cbn in *.
    + pose proof (download_file_step_left self w Hrun) as Hless.
      destruct (download_file_step self w) as [[self1 w1] posted].
      cbn in Hfp, Hless.
      destruct (IH self1 w1) as [Hpc Hact]; [lia|].
      destruct (download_file_run n self1 w1) as [[self2 w2] posted2]. cbn in *.
      split; [done|]. rewrite Hact. apply (fp_counter _ _ _ _ _ Hfp).
Qed.

End Methods.

Lemma start_download_spawned urlparse_path os_path_basename os_path_join
    self url save_path clk :
  let r := start_download urlparse_path os_path_basename os_path_join
             self url save_path clk in
  spawned r
  = (if (active_downloads self <? max_concurrent self)%Z then 1 else 0)%nat /\
  active_downloads (after r)
  = (active_downloads self + Z.of_nat (spawned r))%Z.
Proof.
  destruct (Z.le_gt_cases (max_concurrent self) (active_downloads self))
    as [Hfull|Hroom].
  - rewrite start_download_at_limit by done.
    rewrite (proj2 (Z.ltb_ge _ _) Hfull). cbn. split; [done|lia].
  - destruct (start_download_below_limit urlparse_path os_path_basename
                os_path_join self url save_path clk Hroom)
      as (id & entry & _ & _ & _ & _ & Hact & _ & _ & _ & Hsp).
    cbn zeta. rewrite Hsp, Hact, (proj2 (Z.ltb_lt _ _) Hroom).
    split; [done|lia].
Qed.

(** ** One download from start to end *)

Example download_end_to_end :
  let r := start_download (fun _ => "/a.bin") (fun _ => "a.bin")
             (fun _ _ => "/tmp/a.bin")
             (init []) "http://example.org/a.bin" "/tmp" exemple_clock in
  let '(self, w, posted) :=
    download_file_run 7 (after r) (exemple_worker r.2) in
  returned r = Some "dl_1700000000" /\
  active_downloads (after r) = 1%Z /\
  active_downloads self = 0%Z /\
  w_pc w = finished /\
  dl_status <$> downloads self !! "dl_1700000000" = Some "Completed" /\
  length (download_history self) = 1%nat /\
  posted = [UPDATE_PROGRESS "dl_1700000000" 66 8192 12288 8192;
            UPDATE_PROGRESS "dl_1700000000" 100 12288 12288 6144;
            DOWNLOAD_COMPLETE "dl_1700000000"].
Proof. vm_compute. repeat split; reflexivity. Qed.

(** ** The counter shared by the two threads *)

(** Stand-ins for the library functions, for the examples. *)
Definition url_path (url : string) : string := "/file.bin".
Definition path_basename (path : string) : string := "file.bin".
Definition path_join (dir name : string) : string := dir +:+ "/" +:+ name.

(** Three downloads started ten seconds apart. *)
Definition trois_clock : Py.clock :=
  {| Py.readings := fun k =>
       nth k [1700000000.5; 1700000000.5; 1700000010.5; 1700000010.5;
              1700000020.5; 1700000020.5; 1700000030.5]%float
             1700000031.5%float;
     Py.reads := 0 |}.

Definition trois_lances
  : option string * manager * list effect * Py.clock :=
  let start := start_download url_path path_basename path_join in
  let r1 := start (init []) "http://example.org/a.bin" "/tmp" trois_clock in
  let r2 := start (after r1) "http://example.org/b.bin" "/tmp" r1.2 in
  start (after r2) "http://example.org/c.bin" "/tmp" r2.2.

(** The thread of the first of them, whose request times out. *)
Definition premier : worker :=
  {| w_url := "http://example.org/a.bin"; w_filename := "/tmp/file.bin";
     w_download_id := "dl_1700000000"; w_pc := at_start;
     w_get := inl "timeout"; w_clock := trois_lances.2;
     w_strftime := "2023-11-14 22:13:50";
     w_save_history := None |}.

(** The manager and that thread once the thread has reported the error and
    is about to leave [download_file] through its [finally] block. *)
Definition trois_actifs : manager :=
  (download_file_run 2 (after trois_lances) premier).1.1.
Definition sortant : worker :=
  (download_file_run 2 (after trois_lances) premier).1.2.

Example trois_actifs_state :
  active_downloads trois_actifs = 3%Z /\
  max_concurrent trois_actifs = 3%Z /\
  size (downloads trois_actifs) = 3%nat /\
  dl_status <$> downloads trois_actifs !! "dl_1700000000"
    = Some "Error: timeout" /\
  w_pc sortant = in_finally /\
  (download_file_run 2 (after trois_lances) premier).2
    = [DOWNLOAD_ERROR "dl_1700000000" "timeout"] /\
  returned (start_download url_path path_basename path_join trois_actifs
              "http://example.org/d.bin" "/tmp" (w_clock sortant)) = None /\
  (download_file_step trois_actifs sortant).2 = [] /\
  returned (start_download url_path path_basename path_join
              (download_file_step trois_actifs sortant).1.1
              "http://example.org/d.bin" "/tmp" (w_clock sortant))
    = Some "dl_1700000030".
Proof. vm_compute. repeat split; reflexivity. Qed.



(* ===================================================================== *)
(** * More of DownloadManager: the event loop and whole downloads         *)
(* ===================================================================== *)

(** ** The branches of the event loop of [run] that change the manager *)

(** ['-UPDATE_PROGRESS-']: [self.downloads[dl_id].update(...)] when the id
    is a key of [self.downloads]. *)
Definition on_update_progress (self : manager) (dl_id : string)
    (progress total : Z) (speed : float) : manager :=
  match downloads self !! dl_id with
  | Some d =>
      store self dl_id
        {| dl_url := dl_url d; dl_filename := dl_filename d;
           dl_status := dl_status d; dl_progress := progress;
           dl_speed := speed; dl_start_time := dl_start_time d;
           dl_end_time := dl_end_time d; dl_total_size := Some total |}
  | None => self
  end.

(** [v['status'] not in ['Completed', 'Error']]. *)
Definition kept_by_clear (d : download) : bool :=
  negb (String.eqb (dl_status d) "Completed"
        || String.eqb (dl_status d) "Error").

(** ['-CLEAR_COMPLETED-']: the dictionary is rebuilt from the entries whose
    status is neither ['Completed'] nor ['Error']. *)
Definition on_clear_completed (self : manager) : manager :=
  {| downloads := filter (fun kv => kept_by_clear kv.2 = true) (downloads self);
     active_downloads := active_downloads self;
     max_concurrent := max_concurrent self;
     download_history := download_history self |}.

(** ['-MAX_CONCURRENT-'] and ['-CLEAR_HISTORY-'] ([answer] is what the user
    answers to the question). *)
Definition on_max_concurrent (self : manager) (value : Z) : manager :=
  {| downloads := downloads self;
     active_downloads := active_downloads self;
     max_concurrent := value;
     download_history := download_history self |}.

Definition on_clear_history (self : manager) (answer : string) : manager :=
  if String.eqb answer "Yes" then
    {| downloads := downloads self;
       active_downloads := active_downloads self;
       max_concurrent := max_concurrent self;
       download_history := [] |}
  else self.

(** The managers the program can be in: what [__init__] builds, changed by
    the branches of the event loop and by steps of download threads, in
    any order and whatever the library functions, the clocks and the
    network answer. *)
Inductive reachable : manager -> Prop :=
| reach_init history : reachable (init history)
| reach_start urlparse_path os_path_basename os_path_join self url
    save_path clk :
    reachable self ->
    reachable (after (start_download urlparse_path os_path_basename
                        os_path_join self url save_path clk))
| reach_step self w :
    reachable self -> reachable (download_file_step self w).1.1
| reach_update_progress self dl_id progress total speed :
    reachable self ->
    reachable (on_update_progress self dl_id progress total speed)
| reach_clear_completed self :
    reachable self -> reachable (on_clear_completed self)
| reach_max_concurrent self value :
    reachable self -> reachable (on_max_concurrent self value)
| reach_clear_history self answer :
    reachable self -> reachable (on_clear_history self answer).

(** The statuses the program writes. *)
Definition written_status (st : string) : Prop :=
  st = "Starting" \/ st = "Downloading" \/ st = "Completed"
  \/ exists e, st = "Error: " +:+ e.

(** The thread a [thread_start] effect starts, in the environment it will
    meet. *)
Definition thread_of (e : effect) (get : string + response)
    (clk : Py.clock) (strftime : string) (save_history : option string)
  : option worker :=
  match e with
  | thread_start url filename download_id =>
      Some {| w_url := url; w_filename := filename;
              w_download_id := download_id; w_pc := at_start;
              w_get := get; w_clock := clk; w_strftime := strftime;
              w_save_history := save_history |}
  | popup _ => None
  end.

(** The two statements on the counter, [self.active_downloads += 1] in
    [start_download] and [self.active_downloads -= 1] in the [finally] of
    [download_file], are each a load of the attribute followed by a store of
    the result, and the code takes no lock: another thread may run between
    the load and the store.  A thread of the pool is either [stepping]
    through [download_file] or [storing]: it has loaded the counter in its
    [finally] and has not stored the result yet. *)
Inductive thread :=
| stepping (w : worker)
| storing (w : worker) (loaded : Z).

(** The decrement a thread of the pool still owes. *)
Definition owes (t : thread) : Z :=
  match t with
  | stepping w => owed w
  | storing _ _ => 1
  end.

(** The decrements the threads of a pool still owe: the number of threads
    that have not gone through their [finally]. *)
Definition running (threads : list thread) : Z :=
  foldr (fun t n => (owes t + n)%Z) 0%Z threads.

Definition with_counter (self : manager) (n : Z) : manager :=
  {| downloads := downloads self;
     active_downloads := n;
     max_concurrent := max_concurrent self;
     download_history := download_history self |}.

(** What is assumed of the scheduler: under [indivisible] no other thread
    writes the counter between the load and the store of an update, under
    [any_order] nothing is assumed. *)
Inductive schedule := indivisible | any_order.

Definition allowed (s : schedule) (loaded now : Z) : Prop :=
  match s with
  | indivisible => loaded = now
  | any_order => True
  end.

(** The manager, the threads it has started and the GUI thread, which is
    either in the event loop ([None]) or inside [start_download] between the
    load and the store of [+= 1], holding the value it has loaded and the
    thread it is about to start.  The threads started by a call are those of
    its [thread_start] effects; a thread takes its steps when the scheduler
    lets it. *)
Inductive reachable_system (s : schedule)
  : manager -> list thread -> option (Z * list worker) -> Prop :=
| sys_init history : reachable_system s (init history) [] None
| sys_start_refused urlparse_path os_path_basename os_path_join self threads
    url save_path clk :
    reachable_system s self threads None ->
    (max_concurrent self <= active_downloads self)%Z ->
    reachable_system s
      (after (start_download urlparse_path os_path_basename os_path_join
                self url save_path clk))
      threads None
| sys_start_load urlparse_path os_path_basename os_path_join self threads
    url save_path clk get wclk strftime save_history :
    reachable_system s self threads None ->
    (active_downloads self < max_concurrent self)%Z ->
    reachable_system s
      (with_counter
         (after (start_download urlparse_path os_path_basename os_path_join
                   self url save_path clk))
         (active_downloads self))
      threads
      (Some (active_downloads self,
             omap (fun e => thread_of e get wclk strftime save_history)
                  (effects (start_download urlparse_path os_path_basename
                              os_path_join self url save_path clk))))
| sys_start_store self threads loaded started :
    reachable_system s self threads (Some (loaded, started)) ->
    allowed s loaded (active_downloads self) ->
    reachable_system s (with_counter self (loaded + 1))
      (threads ++ (stepping <$> started)) None
| sys_thread self threads gui i w :
    reachable_system s self threads gui ->
    threads !! i = Some (stepping w) ->
    w_pc w ≠ in_finally ->
    reachable_system s (download_file_step self w).1.1
      (<[i := stepping (download_file_step self w).1.2]> threads) gui
| sys_finally_load self threads gui i w :
    reachable_system s self threads gui ->
    threads !! i = Some (stepping w) ->
    w_pc w = in_finally ->
    reachable_system s self
      (<[i := storing w (active_downloads self)]> threads) gui
| sys_finally_store self threads gui i w loaded :
    reachable_system s self threads gui ->
    threads !! i = Some (storing w loaded) ->
    allowed s loaded (active_downloads self) ->
    reachable_system s (with_counter self (loaded - 1))
      (<[i := stepping (goto w (w_clock w) finished)]> threads) gui
| sys_update_progress self threads dl_id progress total speed :
    reachable_system s self threads None ->
    reachable_system s (on_update_progress self dl_id progress total speed)
      threads None
| sys_clear_completed self threads :
    reachable_system s self threads None ->
    reachable_system s (on_clear_completed self) threads None
| sys_max_concurrent self threads value :
    reachable_system s self threads None ->
    reachable_system s (on_max_concurrent self value) threads None
| sys_clear_history self threads answer :
    reachable_system s self threads None ->
    reachable_system s (on_clear_history self answer) threads None.

Definition is_progress (e : event) : bool :=
  match e with UPDATE_PROGRESS _ _ _ _ _ => true | _ => false end.

(** The item [download_file] appends to the history. *)
Definition completed_item (w : worker) (size : Z) : history_item :=
  {| h_url := w_url w; h_filename := w_filename w; h_size := size;
     h_completed := w_strftime w; h_status := "Completed" |}.

(** How a thread that is left alone ends: progress events, then the closing
    event, with the status and the history that go with it.  When
    [save_history] raises, the item is already in [self.download_history]
    and the status, first ['Completed'], is overwritten by the [except]
    branch. *)
Inductive outcome (self : manager) (w : worker) (self' : manager)
    (posted : list event) : Prop :=
| completes ups size d' :
    Forall (fun e => is_progress e = true) ups ->
    posted = ups ++ [DOWNLOAD_COMPLETE (w_download_id w)] ->
    downloads self' !! w_download_id w = Some d' ->
    dl_status d' = "Completed" ->
    download_history self'
      = download_history self ++ [completed_item w size] ->
    w_save_history w = None ->
    outcome self w self' posted
| fails ups e d' :
    Forall (fun e => is_progress e = true) ups ->
    posted = ups ++ [DOWNLOAD_ERROR (w_download_id w) e] ->
    downloads self' !! w_download_id w = Some d' ->
    dl_status d' = "Error: " +:+ e ->
    download_history self' = download_history self ->
    outcome self w self' posted
| fails_saving ups size e d' :
    Forall (fun e => is_progress e = true) ups ->
    posted = ups ++ [DOWNLOAD_ERROR (w_download_id w) e] ->
    downloads self' !! w_download_id w = Some d' ->
    dl_status d' = "Error: " +:+ e ->
    download_history self'
      = download_history self ++ [completed_item w size] ->
    w_save_history w = Some e ->
    outcome self w self' posted.

(** The states from which the thread meets its entry and no cancellation. *)
Definition runs_alone (self : manager) (w : worker) : Prop :=
  match w_pc w with
  | at_start | at_completed _ | in_except _ =>
      is_Some (downloads self !! w_download_id w)
  | at_end_time _ =>
      exists d, downloads self !! w_download_id w = Some d
                /\ dl_status d = "Completed"
  | in_loop _ _ _ =>
      exists d, downloads self !! w_download_id w = Some d
                /\ String.eqb (dl_status d) "Cancelled" = false
  | in_finally | finished => False
  end.

(** The states from which no progress event can come any more: no size was
    announced. *)
Definition no_size (w : worker) : Prop :=
  match w_pc w with
  | at_start =>
      match w_get w with
      | inr r => (content_length r <= 0)%Z
      | inl _ => True
      end
  | in_loop total_size _ _ => (total_size <= 0)%Z
  | _ => True
  end.

(** ** Ids *)

Lemma download_id_inj (n m : Z) :
  "dl_" +:+ pretty n = "dl_" +:+ pretty m -> n = m.
Proof. intros Heq. by simplify_eq. Qed.

(** X5.  A download started in another second is never overwritten: the
    entry stored under [dl_n] is left as it is by every call whose clock
    readings do not fall in the second [n]. *)
Theorem start_download_other_second urlparse_path os_path_basename
    os_path_join self url save_path clk (n : Z) d :
  downloads self !! ("dl_" +:+ pretty n) = Some d ->
  (forall k, (Py.reads clk <= k <= S (Py.reads clk))%nat ->
             Py.int_of_float (Py.readings clk k) ≠ n) ->
  downloads (after (start_download urlparse_path os_path_basename os_path_join
                      self url save_path clk))
    !! ("dl_" +:+ pretty n) = Some d.
Proof.
  intros Hd Hclock.
  destruct (Z.le_gt_cases (max_concurrent self) (active_downloads self))
    as [Hfull|Hroom].
  - by rewrite start_download_at_limit.
  - destruct (start_download_id urlparse_path os_path_basename os_path_join
                self url save_path clk Hroom)
      as (k & entry & Hk & _ & _ & _ & Hdl & _).
    rewrite Hdl, lookup_insert_ne; [done|].
    intros Heq%download_id_inj. by apply (Hclock k).
Qed.

(** One download started, for the examples. *)
Definition un_lance : option string * manager * list effect * Py.clock :=
  start_download url_path path_basename path_join (init [])
    "http://example.org/a.bin" "/tmp" trois_clock.

Lemma start_download_other_second_witness :
  let r := start_download url_path path_basename path_join (after un_lance)
             "http://example.org/b.bin" "/tmp" un_lance.2 in
  returned r = Some "dl_1700000010" /\
  size (downloads (after r)) = 2%nat /\
  downloads (after r) !! ("dl_" +:+ pretty 1700000000%Z)
  = downloads (after un_lance) !! ("dl_" +:+ pretty 1700000000%Z).
Proof.
  split; [vm_compute; reflexivity|]. split; [vm_compute; reflexivity|].
  assert (exists d, downloads (after un_lance)
                      !! ("dl_" +:+ pretty 1700000000%Z) = Some d)
    as [d Hd] by (eexists; vm_compute; reflexivity).
  rewrite Hd.
  apply (start_download_other_second url_path path_basename path_join
           (after un_lance) "http://example.org/b.bin" "/tmp"
           un_lance.2 1700000000%Z d Hd).
  intros k Hk. cbn in Hk.
  assert (k = 2 \/ k = 3)%nat as [-> | ->] by (vm_compute in Hk; lia);
    vm_compute; discriminate.
Defined.

(** ** The thread left alone *)

Lemma download_file_run_finished n : forall self w,
  w_pc w = finished -> download_file_run n self w = (self, w, []).
Proof.
  induction n as [|n IH]; intros self w Hpc; [done|].
  cbn [download_file_run]. unfold download_file_step. rewrite Hpc.
  by rewrite IH.
Qed.

Lemma download_file_run_finally n self w :
  w_pc w = in_finally ->
  downloads (download_file_run (S n) self w).1.1 = downloads self /\
  download_history (download_file_run (S n) self w).1.1
    = download_history self /\
  (download_file_run (S n) self w).2 = [].
Proof.
  intros Hpc. cbn [download_file_run]. unfold download_file_step.
  rewrite Hpc. by rewrite download_file_run_finished.
Qed.

Lemma download_file_run_except n self w e d :
  w_pc w = in_except e ->
  downloads self !! w_download_id w = Some d ->
  (2 <= n)%nat ->
  downloads (download_file_run n self w).1.1 !! w_download_id w
  = Some (with_status d ("Error: " +:+ e)) /\
  download_history (download_file_run n self w).1.1 = download_history self /\
  (download_file_run n self w).2 = [DOWNLOAD_ERROR (w_download_id w) e].
Proof.
  intros Hpc Hd Hn. destruct n as [|n]; [lia|].
  cbn [download_file_run]. unfold download_file_step. rewrite Hpc, Hd.
  destruct n as [|n]; [lia|].
  match goal with
  |- context [download_file_run (S n) ?s ?v] =>
    destruct (download_file_run_finally n s v eq_refl) as (Hdl & Hh & Hp);
    destruct (download_file_run (S n) s v) as [[self2 w2] posted2]
  end.
  cbn in Hdl, Hh, Hp |- *. subst posted2.
  by rewrite Hdl, lookup_insert_eq, Hh.
Qed.

Lemma outcome_after self self1 w clk p self' ups posted :
  download_history self1 = download_history self ->
  Forall (fun e => is_progress e = true) ups ->
  outcome self1 (goto w clk p) self' posted ->
  outcome self w self' (ups ++ posted).
Proof.
  intros Hh Hups [ups' size d' Hups' -> Hd' Hst Hhist Hsave
                 |ups' e d' Hups' -> Hd' Hst Hhist
                 |ups' size e d' Hups' -> Hd' Hst Hhist Hsave]; cbn in *.
  - apply (completes _ _ _ _ (ups ++ ups') size d'); try done.
    + by apply Forall_app.
    + by rewrite app_assoc.
    + by rewrite Hhist, Hh.
  - apply (fails _ _ _ _ (ups ++ ups') e d'); try done.
    + by apply Forall_app.
    + by rewrite app_assoc.
    + by rewrite Hhist, Hh.
  - apply (fails_saving _ _ _ _ (ups ++ ups') size e d'); try done.
    + by apply Forall_app.
    + by rewrite app_assoc.
    + by rewrite Hhist, Hh.
Qed.

(** The step taken, the rest of the run is that of the thread where the
    step has left it. *)
Ltac step_on Hnext :=
  match goal with
  |- context [download_file_run ?n ?s (goto ?w ?clk ?p)] =>
    match goal with
    |- context [(_, _, ?posted ++ _)] =>
      specialize (Hnext s clk p posted);
      destruct (download_file_run n s (goto w clk p)) as [[? ?] ?];
      apply Hnext;
      [done
      |by repeat constructor
      |cbn in *; lia
      |unfold runs_alone; cbn; rewrite ?lookup_insert_eq; by eexists]
    end
  end.

Lemma download_file_run_outcome n : forall self w,
  (steps_left w <= n)%nat -> runs_alone self w ->
  outcome self w (download_file_run n self w).1.1
    (download_file_run n self w).2.
Proof.
  induction n as [|n IH]; intros self w Hleft Halone.
  { unfold steps_left in Hleft. unfold runs_alone in Halone.
    destruct (w_pc w); cbn in Hleft; (done || lia). }
  pose proof (fun self1 clk p posted Hh Hups Hn Ha =>
    outcome_after self self1 w clk p _ posted _ Hh Hups
      (IH self1 (goto w clk p) Hn Ha)) as Hnext.
  cbn [download_file_run]. unfold download_file_step.
  unfold steps_left in Hleft. unfold runs_alone in Halone.
  destruct (w_pc w) as [|total downloaded rest|total|total|e| |] eqn:Hpc;
    [| | | | |done|done].
  - (* at_start *)
    destruct Halone as [d Hd]. rewrite Hd.
    destruct (w_get w) as [e|r] eqn:Hget; step_on Hnext.
  - (* in_loop *)
    destruct Halone as (d & Hd & Hcancel).
    destruct rest as [|[len|e] rest]; [step_on Hnext| |step_on Hnext].
    rewrite Hd, Hcancel.
    destruct (0 <? total)%Z; [|step_on Hnext].
    destruct (negb _); [step_on Hnext|].
    destruct (negb _); [step_on Hnext|].
    cbn [Py.time_time].
    destruct (negb _); [step_on Hnext|].
    destruct (PrimFloat.eqb _ _); step_on Hnext.
  - (* at_completed *)
    destruct Halone as [d Hd]. rewrite Hd. step_on Hnext.
  - (* at_end_time *)
    destruct Halone as (d & Hd & Hst). cbn [Py.time_time]. rewrite Hd.
    destruct (w_save_history w) as [e|] eqn:Hsave.
    + match goal with
      |- context [download_file_run n ?s ?v] =>
        edestruct (download_file_run_except n s v e) as (Hdl & Hh & Hp);
        [reflexivity|cbn; apply lookup_insert_eq|lia|];
        destruct (download_file_run n s v) as [[self2 w2] posted2]
      end.
      cbn in Hdl, Hh, Hp |- *. subst posted2.
      by eapply (fails_saving _ _ _ _ [] total e).
    + destruct n as [|n]; [lia|].
      match goal with
      |- context [download_file_run (S n) ?s ?v] =>
        destruct (download_file_run_finally n s v eq_refl) as (Hdl & Hh & Hp);
        destruct (download_file_run (S n) s v) as [[self2 w2] posted2]
      end.
      cbn in Hdl, Hh, Hp |- *. subst posted2.
      eapply (completes _ _ _ _ [] total);
        [done|done|rewrite Hdl; apply lookup_insert_eq|done|by rewrite Hh
        |done].
  - (* in_except *)
    destruct Halone as [d Hd].
    destruct (download_file_run_except (S n) self w e d Hpc Hd)
      as (Hdl & Hh & Hp); [lia|].
    cbn [download_file_run] in Hdl, Hh, Hp.
    unfold download_file_step in Hdl, Hh, Hp.
    rewrite Hpc, Hd in Hdl, Hh, Hp. rewrite Hd.
    destruct (download_file_run n _ _) as [[self2 w2] posted2].
    cbn in Hdl, Hh, Hp |- *.
    by eapply (fails _ _ _ _ [] e).
Qed.


Lemma download_file_step_no_size self w :
  no_size w ->
  no_size (download_file_step self w).1.2 /\
  Forall (fun e => is_progress e = false) (download_file_step self w).2.
Proof.
  unfold no_size, download_file_step.
  destruct (w_pc w) as [|total downloaded rest|total|total|e| |] eqn:Hpc.
  - destruct (downloads self !! w_download_id w); [|by cbn].
    by destruct (w_get w).
  - intros Htotal. destruct rest as [|[len|e] rest]; [by cbn| |by cbn].
    destruct (downloads self !! w_download_id w); [|by cbn].
    destruct (String.eqb _ _); [by cbn|].
    by rewrite (proj2 (Z.ltb_ge _ _) Htotal).
  - intros _. by destruct (downloads self !! w_download_id w).
  - intros _. cbn [Py.time_time].
    destruct (downloads self !! w_download_id w); cbn; [|done].
    destruct (w_save_history w); cbn; [done|].
    split; [done|]. by repeat constructor.
  - intros _. destruct (downloads self !! w_download_id w); cbn; [|done].
    split; [done|]. by repeat constructor.
  - by cbn.
  - by cbn; rewrite ?Hpc.
Qed.

Lemma download_file_run_no_size n : forall self w,
  no_size w ->
  Forall (fun e => is_progress e = false) (download_file_run n self w).2.
Proof.
  induction n as [|n IH]; intros self w Hw; [by cbn|].
  cbn [download_file_run].
  destruct (download_file_step_no_size self w Hw) as [Hw1 Hposted].
  destruct (download_file_step self w) as [[self1 w1] posted].
  specialize (IH self1 w1 Hw1).
  destruct (download_file_run n self1 w1) as [[self2 w2] posted2].
  cbn in *. by apply Forall_app.
Qed.

Lemma no_progress_nil (ups : list event) :
  Forall (fun e => is_progress e = true) ups ->
  Forall (fun e => is_progress e = false) ups -> ups = [].
Proof.
  destruct ups as [|e ups]; [done|].
  intros Hyes%Forall_cons_1 Hno%Forall_cons_1. destruct Hyes, Hno. congruence.
Qed.

(** What a run leaves as it is in the manager. *)
Lemma download_file_run_footprint n : forall self w,
  max_concurrent (download_file_run n self w).1.1 = max_concurrent self /\
  dom (downloads (download_file_run n self w).1.1) = dom (downloads self) /\
  forall id, id ≠ w_download_id w ->
    downloads (download_file_run n self w).1.1 !! id = downloads self !! id.
Proof.
  induction n as [|n IH]; intros self w; [done|].
  cbn [download_file_run].
  pose proof (download_file_step_footprint self w) as Hfp.
  destruct (download_file_step self w) as [[self1 w1] posted].
  specialize (IH self1 w1).
  destruct (download_file_run n self1 w1) as [[self2 w2] posted2].
  cbn in *. destruct IH as (Hmax & Hdom & Hothers).
  destruct Hfp as [Hmax1 Hdom1 Hothers1 _ _ _ [Hid _]].
  split; [congruence|]. split; [congruence|].
  intros id Hne. rewrite Hothers by congruence. by apply Hothers1.
Qed.

(** A thread started by [start_download] finds its entry. *)
Lemma start_download_thread urlparse_path os_path_basename os_path_join
    self url save_path clk e get wclk strftime save_history w :
  e ∈ effects (start_download urlparse_path os_path_basename os_path_join
                 self url save_path clk) ->
  thread_of e get wclk strftime save_history = Some w ->
  let r := start_download urlparse_path os_path_basename os_path_join
             self url save_path clk in
  w_pc w = at_start /\ w_get w = get /\ w_url w = url /\
  returned r = Some (w_download_id w) /\
  is_Some (downloads (after r) !! w_download_id w) /\
  active_downloads (after r) = (active_downloads self + 1)%Z /\
  max_concurrent (after r) = max_concurrent self /\
  download_history (after r) = download_history self /\
  dom (downloads (after r)) = {[ w_download_id w ]} ∪ dom (downloads self).
Proof.
  intros He Hw.
  destruct (Z.le_gt_cases (max_concurrent self) (active_downloads self))
    as [Hfull|Hroom].
  - rewrite start_download_at_limit in He by done. cbn in He.
    apply list_elem_of_singleton in He as ->. done.
  - destruct (start_download_below_limit urlparse_path os_path_basename
                os_path_join self url save_path clk Hroom)
      as (id & entry & Hret & Hdl & _ & _ & Hact & Hmax & Hh
          & (full_path & Heff & _) & _).
    cbn zeta in *. rewrite Heff in He.
    apply list_elem_of_singleton in He as ->. cbn in Hw.
    injection Hw as <-. cbn.
    rewrite Hdl, lookup_insert_eq, dom_insert_L. eauto 10.
Qed.

(** ** Whole downloads *)

(** X6.  A download from its start to the end of its thread gives back the
    slot it took: once the thread that [start_download] has started is
    through, whatever the network answered and whether [save_history]
    raised or not, [active_downloads] is what it was before the call, the
    limit is the same, and no key other than the id of the download has
    been added. *)
Theorem whole_download_counter urlparse_path os_path_basename os_path_join
    self url save_path clk e get wclk strftime save_history w n :
  e ∈ effects (start_download urlparse_path os_path_basename os_path_join
                 self url save_path clk) ->
  thread_of e get wclk strftime save_history = Some w ->
  (steps_left w <= n)%nat ->
  let r := download_file_run n
             (after (start_download urlparse_path os_path_basename
                       os_path_join self url save_path clk)) w in
  w_pc r.1.2 = finished /\
  active_downloads r.1.1 = active_downloads self /\
  max_concurrent r.1.1 = max_concurrent self /\
  dom (downloads r.1.1) = {[ w_download_id w ]} ∪ dom (downloads self).
Proof.
  intros He Hw Hn.
  destruct (start_download_thread _ _ _ _ _ _ _ _ _ _ _ _ _ He Hw)
    as (Hpc & _ & _ & _ & _ & Hact & Hmax & _ & Hdom).
  cbn zeta in *.
  destruct (download_file_run_finishes n
              (after (start_download urlparse_path os_path_basename
                        os_path_join self url save_path clk)) w Hn)
    as [Hfin Hcount].
  destruct (download_file_run_footprint n
              (after (start_download urlparse_path os_path_basename
                        os_path_join self url save_path clk)) w)
    as (Hmax' & Hdom' & _).
  rewrite Hfin, Hcount, Hmax', Hdom', Hact, Hmax, Hdom.
  unfold owed. rewrite Hpc. repeat split; try done. lia.
Qed.

Lemma whole_download_counter_witness :
  let start := start_download url_path path_basename path_join (init [])
                 "http://example.org/a.bin" "/tmp" exemple_clock in
  let r := download_file_run 9 (after start) (exemple_worker start.2) in
  w_pc r.1.2 = finished /\
  active_downloads r.1.1 = 0%Z /\
  max_concurrent r.1.1 = 3%Z /\
  dom (downloads r.1.1) = {[ "dl_1700000000" ]} ∪ (∅ : gset string).
Proof.
  apply (whole_download_counter url_path path_basename path_join (init [])
           "http://example.org/a.bin" "/tmp" exemple_clock
           (thread_start "http://example.org/a.bin" "/tmp/file.bin"
              "dl_1700000000")
           (inr {| content_length := 12288;
                   body := [data 8192; data 4096] |})
           (start_download url_path path_basename path_join (init [])
              "http://example.org/a.bin" "/tmp" exemple_clock).2
           "2023-11-14 22:13:23" None
           {| w_url := "http://example.org/a.bin";
              w_filename := "/tmp/file.bin";
              w_download_id := "dl_1700000000"; w_pc := at_start;
              w_get := inr {| content_length := 12288;
                              body := [data 8192; data 4096] |};
              w_clock := (start_download url_path path_basename path_join
                            (init []) "http://example.org/a.bin" "/tmp"
                            exemple_clock).2;
              w_strftime := "2023-11-14 22:13:23";
              w_save_history := None |} 9).
  - vm_compute. apply list_elem_of_here.
  - reflexivity.
  - vm_compute. lia.
Defined.



(** X8.  Without an announced size there is no progress event at all: when
    the [content-length] header is missing or not positive, the thread of a
    download that is left alone posts its closing event and nothing else,
    so that the GUI thread never learns a [total_size] for it. *)
Theorem download_without_size self w r n :
  w_pc w = at_start ->
  w_get w = inr r ->
  (content_length r <= 0)%Z ->
  is_Some (downloads self !! w_download_id w) ->
  (steps_left w <= n)%nat ->
  (download_file_run n self w).2 = [DOWNLOAD_COMPLETE (w_download_id w)] \/
  exists e, (download_file_run n self w).2
            = [DOWNLOAD_ERROR (w_download_id w) e].
Proof.
  intros Hpc Hget Hsize Hentry Hn.
  assert (no_size w) as Hquiet by (unfold no_size; by rewrite Hpc, Hget).
  pose proof (download_file_run_no_size n self w Hquiet) as Hno.
  destruct (download_file_run_outcome n self w Hn) as
    [ups size d' Hups Hposted _ _ _ _
    |ups e d' Hups Hposted _ _ _
    |ups size e d' Hups Hposted _ _ _ _];
    [unfold runs_alone; by rewrite Hpc| | |];
    rewrite Hposted in Hno |- *;
    apply Forall_app in Hno as [Hno _];
    rewrite (no_progress_nil ups Hups Hno); eauto.
Qed.

Lemma download_without_size_witness :
  let start := start_download url_path path_basename path_join (init [])
                 "http://example.org/a.bin" "/tmp" exemple_clock in
  let w := {| w_url := "http://example.org/a.bin";
              w_filename := "/tmp/file.bin";
              w_download_id := "dl_1700000000"; w_pc := at_start;
              w_get := inr {| content_length := 0;
                              body := [data 8192; data 4096] |};
              w_clock := start.2;
              w_strftime := "2023-11-14 22:13:23";
              w_save_history := None |} in
  (download_file_run 9 (after start) w).2
    = [DOWNLOAD_COMPLETE "dl_1700000000"] \/
  exists e, (download_file_run 9 (after start) w).2
            = [DOWNLOAD_ERROR "dl_1700000000" e].
Proof.
  intros start w.
  apply (download_without_size (after start) w
           {| content_length := 0; body := [data 8192; data 4096] |} 9).
  - reflexivity.
  - reflexivity.
  - cbn. lia.
  - vm_compute. by eexists.
  - vm_compute. lia.
Defined.

(** ** Clear Completed *)

(** X9.  [Clear Completed] after a download that was left alone, from the
    start of its thread to its end: the entry of a download whose thread
    closed with [DOWNLOAD_COMPLETE] is removed; the entry of a download whose
    thread closed with [DOWNLOAD_ERROR] is kept, whatever failed (the
    request, a chunk, the arithmetic of the progress or [save_history]): its
    status is ['Error: '] followed by the message, which is not the
    ['Error'] the filter looks for. *)
Theorem clear_completed_keeps_failed self w n :
  w_pc w = at_start ->
  is_Some (downloads self !! w_download_id w) ->
  (steps_left w <= n)%nat ->
  let r := download_file_run n self w in
  let cleared := on_clear_completed r.1.1 in
  (last r.2 = Some (DOWNLOAD_COMPLETE (w_download_id w)) /\
   downloads cleared !! w_download_id w = None) \/
  (exists e d,
     last r.2 = Some (DOWNLOAD_ERROR (w_download_id w) e) /\
     downloads cleared !! w_download_id w = Some d /\
     dl_status d = "Error: " +:+ e).
Proof.
  intros Hpc Hentry Hn. cbn zeta.
  destruct (download_file_run_outcome n self w Hn) as
    [ups size d' _ -> Hd' Hst _ _
    |ups e d' _ -> Hd' Hst _
    |ups size e d' _ -> Hd' Hst _ _];
    [unfold runs_alone; by rewrite Hpc|left|right|right];
    rewrite last_snoc.
  - split; [done|]. unfold on_clear_completed. cbn.
    apply map_lookup_filter_None. right. intros d'' Hd''.
    rewrite Hd' in Hd''. injection Hd'' as <-. cbn.
    unfold kept_by_clear. by rewrite Hst.
  - exists e, d'. split; [done|]. split; [|done].
    unfold on_clear_completed. cbn.
    apply map_lookup_filter_Some. split; [done|]. cbn.
    unfold kept_by_clear. by rewrite Hst.
  - exists e, d'. split; [done|]. split; [|done].
    unfold on_clear_completed. cbn.
    apply map_lookup_filter_Some. split; [done|]. cbn.
    unfold kept_by_clear. by rewrite Hst.
Qed.

Lemma clear_completed_keeps_failed_witness :
  let start := start_download url_path path_basename path_join (init [])
                 "http://example.org/a.bin" "/tmp" exemple_clock in
  let w := {| w_url := "http://example.org/a.bin";
              w_filename := "/tmp/file.bin";
              w_download_id := "dl_1700000000";
              w_pc := at_start;
              w_get := inr {| content_length := 12288;
                              body := [data 8192; data 4096] |};
              w_clock := start.2;
              w_strftime := "2023-11-14 22:13:23";
              w_save_history :=
                Some "[Errno 28] No space left on device" |} in
  let r := download_file_run 9 (after start) w in
  let cleared := on_clear_completed r.1.1 in
  (last r.2 = Some (DOWNLOAD_COMPLETE "dl_1700000000") /\
   downloads cleared !! "dl_1700000000" = None) \/
  (exists e d,
     last r.2 = Some (DOWNLOAD_ERROR "dl_1700000000" e) /\
     downloads cleared !! "dl_1700000000" = Some d /\
     dl_status d = "Error: " +:+ e).
Proof.
  intros start w.
  apply (clear_completed_keeps_failed (after start) w 9).
  - reflexivity.
  - vm_compute. by eexists.
  - vm_compute. lia.
Defined.

(** A download whose file is written and whose [save_history] fails: the
    history in memory has the item, the entry says ['Error: ...'], and
    [Clear Completed] keeps it. *)
Example download_history_not_saved :
  let start := start_download url_path path_basename path_join (init [])
                 "http://example.org/a.bin" "/tmp" exemple_clock in
  let w := {| w_url := "http://example.org/a.bin";
              w_filename := "/tmp/file.bin";
              w_download_id := "dl_1700000000";
              w_pc := at_start;
              w_get := inr {| content_length := 12288;
                              body := [data 8192; data 4096] |};
              w_clock := start.2;
              w_strftime := "2023-11-14 22:13:23";
              w_save_history :=
                Some "[Errno 28] No space left on device" |} in
  let r := download_file_run 9 (after start) w in
  last r.2
  = Some (DOWNLOAD_ERROR "dl_1700000000"
            "[Errno 28] No space left on device") /\
  length (download_history r.1.1) = 1%nat /\
  dl_status <$> downloads (on_clear_completed r.1.1) !! "dl_1700000000"
  = Some "Error: [Errno 28] No space left on device" /\
  active_downloads r.1.1 = 0%Z.
Proof. vm_compute. repeat split; reflexivity. Qed.

(** X10.  A progress event changes neither the keys nor any status nor the
    counter: an event that arrives after the entry was cleared does not
    bring it back, and one that arrives after the end of the download
    leaves its final status. *)
Theorem on_update_progress_keeps self dl_id progress total speed :
  let self' := on_update_progress self dl_id progress total speed in
  dom (downloads self') = dom (downloads self) /\
  (forall id, dl_status <$> downloads self' !! id
              = dl_status <$> downloads self !! id) /\
  active_downloads self' = active_downloads self /\
  max_concurrent self' = max_concurrent self /\
  download_history self' = download_history self.
Proof.
  unfold on_update_progress.
  destruct (downloads self !! dl_id) as [d|] eqn:Hd; cbn; [|done].
  split; [apply dom_insert_lookup_L; by eexists|].
  split; [|done]. intros id.
  destruct (decide (id = dl_id)) as [->|Hne].
  - by rewrite lookup_insert_eq, Hd.
  - by rewrite lookup_insert_ne.
Qed.

(** ** The statuses of the entries *)

Lemma download_file_step_status self w id d :
  downloads (download_file_step self w).1.1 !! id = Some d ->
  (exists d0, downloads self !! id = Some d0 /\ dl_status d0 = dl_status d)
  \/ written_status (dl_status d).
Proof.
  unfold download_file_step, written_status.
  destruct (w_pc w) as [|total downloaded rest|total|total|e| |].
  - destruct (downloads self !! w_download_id w) as [d0|]; [|by left; eexists].
    assert (downloads (store self (w_download_id w)
                         (with_status d0 "Downloading")) !! id = Some d ->
            (exists d0, downloads self !! id = Some d0
                        /\ dl_status d0 = dl_status d)
            \/ written_status (dl_status d))
      as Hstore.
    { cbn. intros [[_ <-]|[_ Hd]]%lookup_insert_Some; [|by left; eexists].
      right. unfold written_status. cbn. auto. }
    by destruct (w_get w).
  - destruct rest as [|[len|e] rest]; [by left; eexists| |by left; eexists].
    destruct (downloads self !! w_download_id w) as [d0|];
      [|by left; eexists].
    destruct (String.eqb _ _); [by left; eexists|].
    destruct (0 <? total)%Z; [|by left; eexists].
    destruct (negb _); [by left; eexists|].
    destruct (negb _); [by left; eexists|].
    cbn [Py.time_time].
    destruct (negb _); [by left; eexists|].
    by destruct (PrimFloat.eqb _ _); left; eexists.
  - destruct (downloads self !! w_download_id w) as [d0|];
      [|by left; eexists].
    cbn. intros [[_ <-]|[_ Hd]]%lookup_insert_Some; [|by left; eexists].
    right. cbn. auto.
  - cbn [Py.time_time].
    destruct (downloads self !! w_download_id w) as [d0|] eqn:Hd0;
      [|by left; eexists].
    assert (<[w_download_id w := with_end_time d0
                (Py.readings (w_clock w) (Py.reads (w_clock w)))]>
              (downloads self) !! id = Some d ->
            (exists d0, downloads self !! id = Some d0
                        /\ dl_status d0 = dl_status d)
            \/ written_status (dl_status d))
      as Hstore.
    { intros [[<- <-]|[_ Hd]]%lookup_insert_Some; left; by eexists. }
    by destruct (w_save_history w).
  - destruct (downloads self !! w_download_id w) as [d0|];
      [|by left; eexists].
    cbn. intros [[_ <-]|[_ Hd]]%lookup_insert_Some; [|by left; eexists].
    right. cbn. eauto.
  - by left; eexists.
  - by left; eexists.
Qed.

Lemma on_update_progress_status self dl_id progress total speed id :
  dl_status <$> downloads (on_update_progress self dl_id progress total speed)
                  !! id
  = dl_status <$> downloads self !! id.
Proof.
  unfold on_update_progress.
  destruct (downloads self !! dl_id) as [d|] eqn:Hd; cbn; [|done].
  destruct (decide (id = dl_id)) as [->|Hne].
  - by rewrite lookup_insert_eq, Hd.
  - by rewrite lookup_insert_ne.
Qed.

Lemma written_status_not_tested st :
  written_status st -> st ≠ "Cancelled" /\ st ≠ "Error".
Proof. intros [->|[->|[->|[e ->]]]]; by split. Qed.

(** X11.  In every state the program can reach, the status of an entry is
    one of ['Starting'], ['Downloading'], ['Completed'] and ['Error: ...']:
    never the ['Cancelled'] that [download_file] tests to stop a download,
    and never the ['Error'] that [Clear Completed] tests. *)
Theorem reachable_status self id d :
  reachable self ->
  downloads self !! id = Some d ->
  written_status (dl_status d)
  /\ dl_status d ≠ "Cancelled" /\ dl_status d ≠ "Error".
Proof.
  intros Hreach Hd.
  assert (written_status (dl_status d)) as Hst;
    [|split; [done|by apply written_status_not_tested]].
  revert id d Hd.
  induction Hreach as
    [history
    |urlparse_path os_path_basename os_path_join self url save_path clk _ IH
    |self w _ IH
    |self dl_id progress total speed _ IH
    |self _ IH
    |self value _ IH
    |self answer _ IH]; intros id d Hd.
  - unfold init in Hd. cbn [downloads] in Hd. by rewrite lookup_empty in Hd.
  - destruct (Z.le_gt_cases (max_concurrent self) (active_downloads self))
      as [Hfull|Hroom].
    + rewrite start_download_at_limit in Hd by done. by apply (IH id).
    + destruct (start_download_below_limit urlparse_path os_path_basename
                  os_path_join self url save_path clk Hroom)
        as (id' & entry & _ & Hdl & _ & Hstatus & _).
      cbn zeta in Hdl. rewrite Hdl in Hd.
      apply lookup_insert_Some in Hd as [[_ <-]|[_ Hd]]; [|by apply (IH id)].
      by left.
  - apply download_file_step_status in Hd as [(d0 & Hd0 & <-)|Hd];
      [by apply (IH id)|done].
  - pose proof (on_update_progress_status self dl_id progress total speed id)
      as Hsame.
    rewrite Hd in Hsame. cbn in Hsame.
    destruct (downloads self !! id) as [d0|] eqn:Hd0; [|done].
    injection Hsame as ->. by apply (IH id).
  - cbn in Hd. apply map_lookup_filter_Some in Hd as [Hd _]. by apply (IH id).
  - by apply (IH id).
  - unfold on_clear_history in Hd. destruct (String.eqb _ _); by apply (IH id).
Qed.

Lemma reachable_status_witness :
  let self := after (start_download url_path path_basename path_join
                       (init []) "http://example.org/a.bin" "/tmp"
                       exemple_clock) in
  exists d,
    downloads self !! "dl_1700000000" = Some d /\
    written_status (dl_status d) /\
    dl_status d ≠ "Cancelled" /\ dl_status d ≠ "Error".
Proof.
  intros self. eexists. split; [vm_compute; reflexivity|].
  apply (reachable_status self "dl_1700000000").
  - apply reach_start, reach_init.
  - vm_compute. reflexivity.
Defined.

(** ** The counter and the threads *)

Lemma running_cons t ts : running (t :: ts) = (owes t + running ts)%Z.
Proof. done. Qed.

Lemma running_app ts1 ts2 :
  running (ts1 ++ ts2) = (running ts1 + running ts2)%Z.
Proof.
  unfold running. induction ts1 as [|t ts1 IH]; cbn; [done|].
  rewrite IH. lia.
Qed.

Lemma running_insert ts : forall i t t',
  ts !! i = Some t ->
  running (<[i := t']> ts) = (running ts - owes t + owes t')%Z.
Proof.
  induction ts as [|t0 ts IH]; intros [|i] t t' Ht; try done.
  - injection Ht as ->.
    change (running (t' :: ts) = (running (t :: ts) - owes t + owes t')%Z).
    rewrite !running_cons. lia.
  - change (running (t0 :: <[i := t']> ts)
            = (running (t0 :: ts) - owes t + owes t')%Z).
    rewrite !running_cons, (IH i t t' Ht). lia.
Qed.

Lemma on_update_progress_counter self dl_id progress total speed :
  active_downloads (on_update_progress self dl_id progress total speed)
  = active_downloads self.
Proof. unfold on_update_progress. by destruct (downloads self !! dl_id). Qed.

(** The thread the GUI thread is about to start owes one decrement. *)
Definition about_to_start (gui : option (Z * list worker)) : Prop :=
  match gui with
  | Some (_, started) => running (stepping <$> started) = 1%Z
  | None => True
  end.

Lemma reachable_system_counter self threads gui :
  reachable_system indivisible self threads gui ->
  active_downloads self = running threads /\ about_to_start gui.
Proof.
  induction 1 as
    [history
    |urlparse_path os_path_basename os_path_join self threads url
       save_path clk _ [IH _] Hfull
    |urlparse_path os_path_basename os_path_join self threads url
       save_path clk get wclk strftime save_history _ [IH _] Hroom
    |self threads loaded started _ [IH Hstarted] Hloaded
    |self threads gui i w _ [IH Hgui] Hw Hpc
    |self threads gui i w _ [IH Hgui] Hw Hpc
    |self threads gui i w loaded _ [IH Hgui] Hw Hloaded
    |self threads dl_id progress total speed _ [IH _]
    |self threads _ [IH _]
    |self threads value _ [IH _]
    |self threads answer _ [IH _]].
  - done.
  - by rewrite start_download_at_limit.
  - split; [done|].
    destruct (start_download_below_limit urlparse_path os_path_basename
                os_path_join self url save_path clk Hroom)
      as (id & entry & _ & _ & _ & _ & _ & _ & _ & (full_path & -> & _) & _).
    done.
  - cbn in Hloaded, Hstarted |- *. subst loaded.
    rewrite running_app. split; [lia|done].
  - split; [|done].
    rewrite (running_insert threads i _ _ Hw), <- IH.
    pose proof (fp_counter _ _ _ _ _ (download_file_step_footprint self w)).
    cbn [owes]. lia.
  - split; [|done].
    rewrite (running_insert threads i _ _ Hw), <- IH.
    cbn [owes]. unfold owed. rewrite Hpc. lia.
  - cbn in Hloaded |- *. subst loaded. split; [|done].
    rewrite (running_insert threads i _ _ Hw), <- IH. cbn. lia.
  - split; [|done]. by rewrite on_update_progress_counter.
  - done.
  - done.
  - split; [|done]. unfold on_clear_history. by destruct (String.eqb _ _).
Qed.

(** X12.  The counter counts the threads as long as its updates are not
    interrupted.  [self.active_downloads += 1] and [-= 1] are each a load
    followed by a store, and the code takes no lock.  In every state the
    manager, the GUI thread and the download threads can reach by steps
    taken in any order, provided no other thread writes the counter between
    the load and the store of an update, [active_downloads] is the number
    of threads started that have not yet stored the result of the [-= 1] of
    their [finally]; so a call of [start_download] starts a thread exactly
    when fewer than [max_concurrent] threads are in that case. *)
Theorem counter_counts_threads self threads gui :
  reachable_system indivisible self threads gui ->
  active_downloads self = running threads /\
  forall urlparse_path os_path_basename os_path_join url save_path clk,
    spawned (start_download urlparse_path os_path_basename os_path_join
               self url save_path clk)
    = (if (running threads <? max_concurrent self)%Z then 1 else 0)%nat.
Proof.
  intros [Hcount _]%reachable_system_counter.
  split; [done|]. intros. rewrite <- Hcount.
  apply start_download_spawned.
Qed.

Lemma counter_counts_threads_witness :
  let start := start_download url_path path_basename path_join (init [])
                 "http://example.org/a.bin" "/tmp" exemple_clock in
  let self := with_counter (with_counter (after start) 0) (0 + 1) in
  let threads :=
    [] ++ (stepping
           <$> omap (fun e => thread_of e (inl "timed out") start.2
                                "2023-11-14 22:13:23" None)
                    (effects start)) in
  active_downloads self = running threads /\
  forall urlparse_path os_path_basename os_path_join url save_path clk,
    spawned (start_download urlparse_path os_path_basename os_path_join
               self url save_path clk)
    = (if (running threads <? max_concurrent self)%Z then 1 else 0)%nat.
Proof.
  intros start self threads.
  apply (counter_counts_threads self threads None).
  apply (sys_start_store indivisible (with_counter (after start) 0) [] 0).
  - apply (sys_start_load indivisible url_path path_basename path_join
             (init []) [] "http://example.org/a.bin" "/tmp" exemple_clock
             (inl "timed out") start.2 "2023-11-14 22:13:23" None).
    + apply sys_init.
    + cbn. lia.
  - reflexivity.
Defined.

(** X28.  Without that proviso the counter can lose an update, and nothing
    in the code excludes it.  Two downloads are started and both requests
    time out; in the schedule where the two threads reach their [finally]
    together, both load 2 and both store 1.  No thread is left and
    [active_downloads] is 1: nothing lowers it again, and the manager
    accepts one download less than [max_concurrent] from then on.  (Whether
    an interpreter switches threads between the load and the store depends
    on its version.) *)
Theorem counter_lost_update :
  exists self threads,
    reachable_system any_order self threads None /\
    running threads = 0%Z /\
    active_downloads self = 1%Z /\
    max_concurrent self = 3%Z.
Proof.
  pose proof (sys_init any_order []) as H.
  apply (sys_start_load any_order url_path path_basename path_join _ _
           "http://example.org/a.bin" "/tmp" trois_clock
           (inl "timed out") trois_clock "2023-11-14 22:13:23" None) in H;
    [|cbn; lia].
  apply sys_start_store in H; [|exact I].
  apply (sys_start_load any_order url_path path_basename path_join _ _
           "http://example.org/b.bin" "/tmp" un_lance.2
           (inl "timed out") trois_clock "2023-11-14 22:13:33" None) in H;
    [|cbn; lia].
  apply sys_start_store in H; [|exact I].
  eapply (sys_thread _ _ _ _ 0) in H; [|reflexivity|by vm_compute].
  eapply (sys_thread _ _ _ _ 0) in H; [|reflexivity|by vm_compute].
  eapply (sys_thread _ _ _ _ 1) in H; [|reflexivity|by vm_compute].
  eapply (sys_thread _ _ _ _ 1) in H; [|reflexivity|by vm_compute].
  eapply (sys_finally_load _ _ _ _ 0) in H;
    [|reflexivity|vm_compute; reflexivity].
  eapply (sys_finally_load _ _ _ _ 1) in H;
    [|reflexivity|vm_compute; reflexivity].
  eapply (sys_finally_store _ _ _ _ 0) in H; [|reflexivity|exact I].
  eapply (sys_finally_store _ _ _ _ 1) in H; [|reflexivity|exact I].
  eexists _, _. split; [exact H|].
  repeat split; vm_compute; reflexivity.
Qed.

End DownloadManager.

(* ===================================================================== *)
(** * The SQLite store of the accounting demo (demos/Accounting.py)       *)
(* ===================================================================== *)

Module Sqlite.

(** A value bound to a [?] placeholder or stored in a column. *)
Inductive value :=
| Null
| Integer (n : Z)
| Real (x : float)
| Text (s : string).

(** [sqlite3.Error], with the text [str(e)] shows. *)
Inductive error :=
| IntegrityError (msg : string)
| OperationalError (msg : string)
| ProgrammingError (msg : string).

Definition message (e : error) : string :=
  match e with
  | IntegrityError msg | OperationalError msg | ProgrammingError msg => msg
  end.

(** A table declared with [id INTEGER PRIMARY KEY AUTOINCREMENT]: its rows
    in rowid order and the largest rowid ever handed out, which SQLite keeps
    in its internal [sqlite_sequence] table. *)
Record table (row : Type) := { rows : list row; seq : Z }.
Arguments rows {row} _.
Arguments seq {row} _.

(** The rowid an [INSERT] receives: one more than the largest rowid that is
    or ever was in the table. *)
Definition next_rowid {row} (id : row -> Z) (t : table row) : Z :=
  (foldr Z.max (seq t) (map id (rows t)) + 1)%Z.

Definition insert_row {row} (id : row -> Z) (mk : Z -> row) (t : table row)
  : table row * Z :=
  let n := next_rowid id t in
  ({| rows := rows t ++ [mk n]; seq := n |}, n).

(** What is sent to [cursor.execute]: the SQL text and the tuple of values
    bound to its placeholders. *)
Record statement := { text : string; params : list value }.

(** The number of [?] placeholders of an SQL text. *)
Fixpoint placeholders (sql : string) : nat :=
  match sql with
  | EmptyString => 0
  | String c rest =>
      (if Ascii.eqb c "?"%char then 1 else 0) + placeholders rest
  end.

(** What the [sqlite3] module binds for a Python [float]: SQLite has no NaN,
    and a NaN is bound as NULL. *)
Definition bind_float (x : float) : value :=
  if PrimFloat.is_nan x then Null else Real x.

(** What a column declared REAL stores of a number bound to it: NULL ([None])
    stays NULL, an integer is stored as a float.  A text is outside this
    model. *)
Definition as_real (v : value) : option (option float) :=
  match v with
  | Null => Some None
  | Real x => Some (Some x)
  | Integer n => Some (Some (Py.float_of_int n))
  | Text _ => None
  end.

(** What a column of NUMERIC affinity stores of a text bound to it; the
    declared type DATE gives that affinity.  A text that is a well-formed
    integer or real literal is stored as INTEGER or REAL, any other text as
    it is; [literal] is SQLite's reading of such literals. *)
Definition numeric_affinity (literal : string -> option (Z + float))
    (s : string) : value :=
  match literal s with
  | Some (inl n) => Integer n
  | Some (inr x) => Real x
  | None => Text s
  end.

(** ** Transactions as the [sqlite3] module opens them *)

Definition is_space (c : ascii) : bool :=
  Ascii.eqb c " " || Ascii.eqb c "009" || Ascii.eqb c "010"
  || Ascii.eqb c "013".

Fixpoint lstrip (s : string) : string :=
  match s with
  | String c rest => if is_space c then lstrip rest else s
  | EmptyString => EmptyString
  end.

Definition lower (c : ascii) : ascii :=
  let n := nat_of_ascii c in
  if (65 <=? n)%nat && (n <=? 90)%nat then ascii_of_nat (n + 32) else c.

(** [PyOS_strnicmp(p, keyword, len(keyword)) == 0]. *)
Fixpoint istartswith (keyword s : string) : bool :=
  match keyword, s with
  | EmptyString, _ => true
  | String k keyword, String c s =>
      Ascii.eqb (lower c) k && istartswith keyword s
  | String _ _, EmptyString => false
  end.

(** The statements before which the module begins a transaction, with the
    default [isolation_level]: those whose text, after the leading
    whitespace, starts with INSERT, UPDATE, DELETE or REPLACE, in any
    case. *)
Definition is_dml (sql : string) : bool :=
  let p := lstrip sql in
  istartswith "insert" p || istartswith "update" p
  || istartswith "delete" p || istartswith "replace" p.

End Sqlite.

Module Accounting.
Import Sqlite.

(** ** Rows of the three tables of the journal *)

Record compte := {
  c_id : Z;
  c_numero : string;
  c_nom : string;
  c_type : string;
  c_parent_id : option Z;
  c_solde : float;
  c_actif : bool;
  c_date_creation : string;
  c_date_modification : string
}.

Record ecriture := {
  e_id : Z;
  e_numero : string;
  e_date_ecriture : value;
  e_libelle : string;
  e_montant_total : float;
  e_statut : string;
  e_piece_jointe : option string;
  e_utilisateur : option string;
  e_date_creation : string;
  e_date_modification : string
}.

Record ligne_ecriture := {
  l_id : Z;
  l_ecriture_id : Z;
  l_compte_id : Z;
  l_libelle : string;
  l_debit : option float;
  l_credit : option float
}.

(** The database file.  The tables the journal does not touch (clients,
    fournisseurs, factures, ...) are kept as untyped rows under their
    names. *)
Record database := {
  comptes : table compte;
  ecritures : table ecriture;
  lignes_ecriture : table ligne_ecriture;
  other_tables : gmap string (list (list value))
}.

(** ** The statements [save_ecriture] sends *)

Definition UPDATE_ECRITURE : string := "
                    UPDATE ecritures 
                    SET numero = ?, date_ecriture = ?, libelle = ?, montant_total = ?,
                        date_modification = CURRENT_TIMESTAMP
                    WHERE id = ?
                ".

Definition DELETE_LIGNES : string :=
  "DELETE FROM lignes_ecriture WHERE ecriture_id = ?".

Definition INSERT_ECRITURE : string := "
                    INSERT INTO ecritures (numero, date_ecriture, libelle, montant_total, utilisateur)
                    VALUES (?, ?, ?, ?, ?)
                ".

Definition INSERT_LIGNE : string := "
                    INSERT INTO lignes_ecriture (ecriture_id, compte_id, libelle, debit, credit)
                    VALUES (?, ?, ?, ?, ?)
                ".

(** The messages of the two constraints of [ecritures] a statement of
    [save_ecriture] can violate. *)
Definition NOT_NULL_MONTANT : string :=
  "NOT NULL constraint failed: ecritures.montant_total".

Definition UNIQUE_NUMERO : string :=
  "UNIQUE constraint failed: ecritures.numero".

(** [UPDATE ecritures SET ... WHERE id = ?].  The constraints are checked on
    the row the statement changes, if there is one: [montant_total] is
    [NOT NULL] ([None] is NULL), which SQLite checks first, and [numero] is
    [UNIQUE]: the statement fails when it would give the row the number of
    another row. *)
Definition update_ecriture (now numero : string) (date : value)
    (libelle : string) (montant_total : option float) (id : Z) (db : database)
  : error + database :=
  let hit := filter (fun r => e_id r = id) (rows (ecritures db)) in
  let clash :=
    filter (fun r => e_id r ≠ id /\ e_numero r = numero)
           (rows (ecritures db)) in
  match hit, montant_total, clash with
  | [], None, _ => inr db
  | _ :: _, None, _ => inl (IntegrityError NOT_NULL_MONTANT)
  | _ :: _, Some _, _ :: _ => inl (IntegrityError UNIQUE_NUMERO)
  | _, Some montant_total, _ =>
      let upd r :=
        if bool_decide (e_id r = id) then
          {| e_id := e_id r; e_numero := numero; e_date_ecriture := date;
             e_libelle := libelle; e_montant_total := montant_total;
             e_statut := e_statut r; e_piece_jointe := e_piece_jointe r;
             e_utilisateur := e_utilisateur r;
             e_date_creation := e_date_creation r;
             e_date_modification := now |}
        else r in
      inr {| comptes := comptes db;
             ecritures := {| rows := map upd (rows (ecritures db));
                             seq := seq (ecritures db) |};
             lignes_ecriture := lignes_ecriture db;
             other_tables := other_tables db |}
  end.

(** [DELETE FROM lignes_ecriture WHERE ecriture_id = ?]. *)
Definition delete_lignes (ecriture_id : Z) (db : database) : database :=
  {| comptes := comptes db;
     ecritures := ecritures db;
     lignes_ecriture :=
       {| rows := filter (fun l => l_ecriture_id l ≠ ecriture_id)
                         (rows (lignes_ecriture db));
          seq := seq (lignes_ecriture db) |};
     other_tables := other_tables db |}.

(** [INSERT INTO ecritures (numero, date_ecriture, libelle, montant_total,
    utilisateur)]: the other columns take their defaults.  [NOT NULL] on
    [montant_total] is checked before [UNIQUE] on [numero]. *)
Definition insert_ecriture (now numero : string) (date : value)
    (libelle : string) (montant_total : option float) (utilisateur : string)
    (db : database) : error + (database * Z) :=
  match montant_total,
        filter (fun r => e_numero r = numero) (rows (ecritures db)) with
  | None, _ => inl (IntegrityError NOT_NULL_MONTANT)
  | Some _, _ :: _ => inl (IntegrityError UNIQUE_NUMERO)
  | Some montant_total, [] =>
      let '(t, id) :=
        insert_row e_id
          (fun id =>
             {| e_id := id; e_numero := numero; e_date_ecriture := date;
                e_libelle := libelle; e_montant_total := montant_total;
                e_statut := "brouillon"; e_piece_jointe := None;
                e_utilisateur := Some utilisateur;
                e_date_creation := now; e_date_modification := now |})
          (ecritures db) in
      inr ({| comptes := comptes db; ecritures := t;
              lignes_ecriture := lignes_ecriture db;
              other_tables := other_tables db |}, id)
  end.

(** [INSERT INTO lignes_ecriture (ecriture_id, compte_id, libelle, debit,
    credit)].  The connection never turns [PRAGMA foreign_keys] on, so the
    two foreign keys of the table are not checked; [debit] and [credit] have
    no [NOT NULL] and take a NULL ([None]). *)
Definition insert_ligne (ecriture_id compte_id : Z) (libelle : string)
    (debit credit : option float) (db : database) : database * Z :=
  let '(t, id) :=
    insert_row l_id
      (fun id =>
         {| l_id := id; l_ecriture_id := ecriture_id;
            l_compte_id := compte_id; l_libelle := libelle;
            l_debit := debit; l_credit := credit |})
      (lignes_ecriture db) in
  ({| comptes := comptes db; ecritures := ecritures db;
      lignes_ecriture := t; other_tables := other_tables db |}, id).

(** What SQLite does with a statement of [save_ecriture]: the database
    afterwards and, for an [INSERT], the new rowid.  [now] is the value of
    [CURRENT_TIMESTAMP] and [literal] SQLite's reading of numeric
    literals. *)
Definition outside_model : error :=
  OperationalError "statement outside the model".

Definition run (now : string) (literal : string -> option (Z + float))
    (q : statement) (db : database) : error + (database * option Z) :=
  if String.eqb (text q) UPDATE_ECRITURE then
    match params q with
    | [Text numero; Text date; Text libelle; montant; Integer id] =>
        match as_real montant with
        | Some montant =>
            match update_ecriture now numero (numeric_affinity literal date)
                    libelle montant id db with
            | inl e => inl e
            | inr db => inr (db, None)
            end
        | None => inl outside_model
        end
    | _ => inl (ProgrammingError "Incorrect number of bindings supplied.")
    end
  else if String.eqb (text q) DELETE_LIGNES then
    match params q with
    | [Integer id] => inr (delete_lignes id db, None)
    | _ => inl (ProgrammingError "Incorrect number of bindings supplied.")
    end
  else if String.eqb (text q) INSERT_ECRITURE then
    match params q with
    | [Text numero; Text date; Text libelle; montant; Text user] =>
        match as_real montant with
        | Some montant =>
            match insert_ecriture now numero (numeric_affinity literal date)
                    libelle montant user db with
            | inl e => inl e
            | inr (db, id) => inr (db, Some id)
            end
        | None => inl outside_model
        end
    | _ => inl (ProgrammingError "Incorrect number of bindings supplied.")
    end
  else if String.eqb (text q) INSERT_LIGNE then
    match params q with
    | [Integer eid; Integer cid; Text libelle; debit; credit] =>
        match as_real debit, as_real credit with
        | Some debit, Some credit =>
            let '(db, id) := insert_ligne eid cid libelle debit credit db in
            inr (db, Some id)
        | _, _ => inl outside_model
        end
    | _ => inl (ProgrammingError "Incorrect number of bindings supplied.")
    end
  else inl outside_model.

(** ** Connections *)

(** What the demo cannot control: the clock of [CURRENT_TIMESTAMP]; the
    failures SQLite reports for reasons outside the statement (a locked
    database, a full disk), where [fault k] is the message of the error
    raised by the [k]-th [execute] of a connection and [commit_fault] that
    of [commit]; the way the interpreter computes [sum]; and SQLite's
    reading of numeric literals. *)
Record env := {
  current_timestamp : string;
  fault : nat -> option string;
  commit_fault : option string;
  summation : Py.summation;
  literal : string -> option (Z + float)
}.

(** A connection opened by [sqlite3.connect] with the default isolation
    level, and its cursor.  [file] is the database as every other
    connection sees it.  [pending] is the database as this connection sees
    it inside the transaction it has open, if any: the module begins one
    before an INSERT, UPDATE, DELETE or REPLACE, [commit] writes it to the
    file, and closing the connection drops it.  From its first write on,
    an open transaction holds the write lock of the file. *)
Record connection := {
  file : database;
  pending : option database;
  lastrowid : option Z;
  executed : nat;
  closed : bool
}.

(** The database as the connection sees it. *)
Definition work (c : connection) : database := default (file c) (pending c).

Definition connect (db : database) : connection :=
  {| file := db; pending := None; lastrowid := None; executed := 0;
     closed := false |}.

(** [BEGIN], when no transaction is open. *)
Definition begin (c : connection) : connection :=
  {| file := file c; pending := Some (work c); lastrowid := lastrowid c;
     executed := executed c; closed := closed c |}.

(** The connection after a statement that went through: inside a
    transaction the new database is pending, outside (autocommit) it is
    written to the file. *)
Definition write (c : connection) (db : database) (rowid : option Z)
  : connection :=
  {| file := match pending c with Some _ => file c | None => db end;
     pending := match pending c with Some _ => Some db | None => None end;
     lastrowid := match rowid with
                  | Some id => Some id
                  | None => lastrowid c
                  end;
     executed := S (executed c);
     closed := closed c |}.

(** [cursor.execute(sql, params)]: the connection afterwards, or the
    exception raised and the connection as it is then.  A statement that
    fails is undone by SQLite on its own; the transaction stays open with
    the work of the statements before it. *)
Definition execute (E : env) (q : statement) (c : connection)
  : error * connection + connection :=
  let c := if is_dml (text q) then begin c else c in
  match fault E (executed c) with
  | Some msg => inl (OperationalError msg, c)
  | None =>
      match run (current_timestamp E) (literal E) q (work c) with
      | inl e => inl (e, c)
      | inr (db, rowid) => inr (write c db rowid)
      end
  end.

(** [conn.commit()]: when it fails the transaction stays open. *)
Definition commit (E : env) (c : connection)
  : error * connection + connection :=
  match commit_fault E with
  | Some msg => inl (OperationalError msg, c)
  | None =>
      inr {| file := work c; pending := None; lastrowid := lastrowid c;
             executed := executed c; closed := closed c |}
  end.

(** [conn.close()], which the interpreter also does to a connection it
    frees: a transaction still open is rolled back. *)
Definition close (c : connection) : connection :=
  {| file := file c; pending := None; lastrowid := lastrowid c;
     executed := executed c; closed := true |}.

(** Sequencing of calls that may raise. *)
Definition bind {X A B} (m : X + A) (k : A -> X + B) : X + B :=
  match m with inl e => inl e | inr a => k a end.

Notation "'try' x ← m ; k" := (bind m (fun x => k))
  (at level 10, x name, m at level 100, k at level 200).

(** ** Python values of the entry form *)

(** [sum(...)] over floats, as the interpreter that runs the demo computes
    it. *)
Definition py_sum (E : env) (xs : list float) : float :=
  Py.sum (summation E) xs.

(** A line of the entry being edited: the dictionary built by
    [show_ligne_ecriture_form]. *)
Record ligne := {
  compte_id : Z;
  compte_nom : string;
  libelle : string;
  debit : float;
  credit : float
}.

(** The fields of the form read by the 'Enregistrer' action. *)
Record form_values := {
  numero : string;
  date_ecriture : string;
  v_libelle : string
}.

(** Truth value of [ecriture_id]: [None] and 0 are falsy. *)
Definition id_truthy (ecriture_id : option Z) : option Z :=
  match ecriture_id with
  | Some id => if (id =? 0)%Z then None else Some id
  | None => None
  end.

(** What the user sees, and the call of [save_ecriture] by the form. *)
Inductive effect :=
| popup_error (msg : string)
| popup (msg : string)
| call_save_ecriture (ecriture_id : option Z) (values : form_values)
    (lignes_ecriture : list ligne).

(** ** ComptabiliteApp.save_ecriture *)

(** The statements of [save_ecriture] with the values bound to them. *)
Definition update_ecriture_statement (values : form_values)
    (montant_total : float) (ecriture_id : Z) : statement :=
  {| text := UPDATE_ECRITURE;
     params := [Text (numero values); Text (date_ecriture values);
                Text (v_libelle values); bind_float montant_total;
                Integer ecriture_id] |}.

Definition delete_lignes_statement (ecriture_id : Z) : statement :=
  {| text := DELETE_LIGNES; params := [Integer ecriture_id] |}.

Definition insert_ecriture_statement (values : form_values)
    (montant_total : float) (utilisateur : string) : statement :=
  {| text := INSERT_ECRITURE;
     params := [Text (numero values); Text (date_ecriture values);
                Text (v_libelle values); bind_float montant_total;
                Text utilisateur] |}.

(** The statement of the loop body for one line. *)
Definition insert_ligne_statement (current_ecriture_id : Z) (l : ligne)
  : statement :=
  {| text := INSERT_LIGNE;
     params := [Integer current_ecriture_id; Integer (compte_id l);
                Text (libelle l); bind_float (debit l);
                bind_float (credit l)] |}.

(** [for ligne in lignes_ecriture: cursor.execute(INSERT ...)]. *)
Fixpoint insert_lignes (E : env) (current_ecriture_id : Z)
    (lignes_ecriture : list ligne) (c : connection)
  : error * connection + connection :=
  match lignes_ecriture with
  | [] => inr c
  | l :: rest =>
      try c ← execute E (insert_ligne_statement current_ecriture_id l) c;
      insert_lignes E current_ecriture_id rest c
  end.

(** The body of the [try] block up to, and without, [conn.commit()].
    [utilisateur] is [self.auth_manager.current_user['nom_utilisateur']]. *)
Definition save_ecriture_statements (E : env) (utilisateur : string)
    (ecriture_id : option Z) (values : form_values)
    (lignes_ecriture : list ligne) (c : connection)
  : error * connection + connection :=
  let montant_total := py_sum E (map debit lignes_ecriture) in
  match id_truthy ecriture_id with
  | Some id =>
      (* Modification *)
      try c ← execute E (update_ecriture_statement values montant_total id) c;
      (* Supprimer les anciennes lignes *)
      try c ← execute E (delete_lignes_statement id) c;
      insert_lignes E id lignes_ecriture c
  | None =>
      (* Ajout *)
      try c ← execute E
        (insert_ecriture_statement values montant_total utilisateur) c;
      match lastrowid c with
      | Some current_ecriture_id =>
          insert_lignes E current_ecriture_id lignes_ecriture c
      | None => inl (ProgrammingError "no lastrowid", c)
      end
  end.

(** The [try] block of [save_ecriture]: the connection once committed and
    closed, or the exception raised and the connection as it is when the
    [except] branch is entered. *)
Definition save_ecriture_try (E : env) (utilisateur : string) (db : database)
    (ecriture_id : option Z) (values : form_values)
    (lignes_ecriture : list ligne) : error * connection + connection :=
  let conn := connect db in
  try c ← save_ecriture_statements E utilisateur ecriture_id values
             lignes_ecriture conn;
  try c ← commit E c;
  inr (close c).

(** The connection the [except] branch leaves open while its popup is
    shown: the branch neither rolls back nor closes. *)
Definition left_open (E : env) (utilisateur : string) (db : database)
    (ecriture_id : option Z) (values : form_values)
    (lignes_ecriture : list ligne) : option connection :=
  match save_ecriture_try E utilisateur db ecriture_id values
          lignes_ecriture with
  | inl (_, conn) => Some conn
  | inr _ => None
  end.

(** [save_ecriture]: the value returned, the database file once the call
    has returned and the popups shown.  After [return False] nothing refers
    to the connection any more: the interpreter frees it, which closes
    it. *)
Definition save_ecriture (E : env) (utilisateur : string) (db : database)
    (ecriture_id : option Z) (values : form_values)
    (lignes_ecriture : list ligne) : bool * database * list effect :=
  match save_ecriture_try E utilisateur db ecriture_id values
          lignes_ecriture with
  | inr conn => (true, file conn, [])
  | inl (e, conn) =>
      (false, file (close conn),
       [popup_error ("Erreur lors de la sauvegarde: " +:+ message e)])
  end.

(** ** The 'Enregistrer' action of show_ecriture_form_window *)

(** The test [abs(total_debits - total_credits) > 0.01]; the literal denotes
    the binary64 number nearest to one hundredth, as it does in Python. *)
#[local] Set Warnings "-inexact-float".
Definition unbalanced (E : env) (lignes_ecriture : list ligne) : bool :=
  let total_debits := py_sum E (map debit lignes_ecriture) in
  let total_credits := py_sum E (map credit lignes_ecriture) in
  PrimFloat.ltb 0.01%float (PrimFloat.abs (total_debits - total_credits)%float).

(** One pass through the branch [elif event == 'Enregistrer']: the effects
    in order, the database afterwards, and whether the loop ends ([break],
    with [result = True]) or goes on ([continue]). *)
Definition on_enregistrer (E : env) (utilisateur : string) (db : database)
    (ecriture_id : option Z) (values : form_values)
    (lignes_ecriture : list ligne) : list effect * database * bool :=
  if negb (Py.truthy (numero values))
     || negb (Py.truthy (date_ecriture values))
     || negb (Py.truthy (v_libelle values)) then
    ([popup_error "Veuillez remplir tous les champs obligatoires."], db, false)
  else if (match lignes_ecriture with [] => true | _ => false end) then
    ([popup_error "Veuillez ajouter au moins une ligne d'écriture."], db, false)
  else if unbalanced E lignes_ecriture then
    ([popup_error "L'écriture n'est pas équilibrée.
Les débits doivent égaler les crédits."], db, false)
  else
    let '(ok, db', shown) :=
      save_ecriture E utilisateur db ecriture_id values lignes_ecriture in
    let call := call_save_ecriture ecriture_id values lignes_ecriture in
    if ok then
      (call :: shown ++ [popup "Écriture enregistrée avec succès."], db', true)
    else (call :: shown, db', false).

(** ** ComptabiliteApp.filter_ecritures: the query it builds *)

Definition SELECT_ECRITURES : string := "
            SELECT id, numero, date_ecriture, libelle, montant_total, statut
            FROM ecritures
            WHERE 1=1
        ".

Definition filter_ecritures_query (date_debut date_fin statut : string)
  : statement :=
  let query := SELECT_ECRITURES in
  let params := [] in
  let '(query, params) :=
    if Py.truthy date_debut
    then (query +:+ " AND date_ecriture >= ?", params ++ [Text date_debut])
    else (query, params) in
  let '(query, params) :=
    if Py.truthy date_fin
    then (query +:+ " AND date_ecriture <= ?", params ++ [Text date_fin])
    else (query, params) in
  let '(query, params) :=
    if Py.truthy statut && negb (String.eqb statut "Tous")
    then (query +:+ " AND statut = ?", params ++ [Text statut])
    else (query, params) in
  let query :=
    query +:+ " ORDER BY date_ecriture DESC, numero DESC LIMIT 200" in
  {| text := query; params := params |}.

(** Which of the three criteria [filter_ecritures] applies. *)
Definition criteria (date_debut date_fin statut : string)
  : bool * bool * bool :=
  (Py.truthy date_debut, Py.truthy date_fin,
   Py.truthy statut && negb (String.eqb statut "Tous")).

(** The eight texts [filter_ecritures] can send, by criteria applied. *)
Definition filter_ecritures_text (applied : bool * bool * bool) : string :=
  let '(debut, fin, statut) := applied in
  SELECT_ECRITURES
  +:+ (if debut then " AND date_ecriture >= ?" else "")
  +:+ (if fin then " AND date_ecriture <= ?" else "")
  +:+ (if statut then " AND statut = ?" else "")
  +:+ " ORDER BY date_ecriture DESC, numero DESC LIMIT 200".

(** The values it binds, in the order of the placeholders. *)
Definition filter_ecritures_params (date_debut date_fin statut : string)
  : list value :=
  let '(debut, fin, st) := criteria date_debut date_fin statut in
  (if debut then [Text date_debut] else [])
  ++ (if fin then [Text date_fin] else [])
  ++ (if st then [Text statut] else []).

(** The result of [save_ecriture] and of [on_enregistrer], by component. *)
Definition returned (r : bool * database * list effect) : bool := r.1.1.
Definition stored (r : bool * database * list effect) : database := r.1.2.

Definition is_call_save (e : effect) : bool :=
  match e with call_save_ecriture _ _ _ => true | _ => false end.

(** Whether a pass through 'Enregistrer' has called [save_ecriture]. *)
Definition calls_save (r : list effect * database * bool) : bool :=
  existsb is_call_save r.1.1.

(** The tables of a database other than [ecritures] and
    [lignes_ecriture]. *)
Definition outside_journal (db : database)
  : table compte * gmap string (list (list value)) :=
  (comptes db, other_tables db).

(** The three guards of the action, in one test. *)
Definition accepted (E : env) (values : form_values)
    (lignes_ecriture : list ligne) : bool :=
  Py.truthy (numero values) && Py.truthy (date_ecriture values)
  && Py.truthy (v_libelle values)
  && (match lignes_ecriture with [] => false | _ => true end)
  && negb (unbalanced E lignes_ecriture).

(** ** An example journal *)

Definition exemple_db : database :=
  {| comptes :=
       {| rows :=
            [ {| c_id := 1; c_numero := "512000"; c_nom := "Banque";
                 c_type := "actif"; c_parent_id := None; c_solde := 0;
                 c_actif := true; c_date_creation := "2024-01-01 08:00:00";
                 c_date_modification := "2024-01-01 08:00:00" |};
              {| c_id := 2; c_numero := "706000"; c_nom := "Prestations";
                 c_type := "produit"; c_parent_id := None; c_solde := 0;
                 c_actif := true; c_date_creation := "2024-01-01 08:00:00";
                 c_date_modification := "2024-01-01 08:00:00" |} ];
          seq := 2 |};
     ecritures :=
       {| rows :=
            [ {| e_id := 1; e_numero := "1";
                 e_date_ecriture := Text "2024-01-15"; e_libelle := "Vente";
                 e_montant_total := 100; e_statut := "brouillon";
                 e_piece_jointe := None; e_utilisateur := Some "admin";
                 e_date_creation := "2024-01-15 09:00:00";
                 e_date_modification := "2024-01-15 09:00:00" |} ];
          seq := 1 |};
     lignes_ecriture :=
       {| rows :=
            [ {| l_id := 1; l_ecriture_id := 1; l_compte_id := 1;
                 l_libelle := "Vente"; l_debit := Some 100%float;
                 l_credit := Some 0%float |};
              {| l_id := 2; l_ecriture_id := 1; l_compte_id := 2;
                 l_libelle := "Vente"; l_debit := Some 0%float;
                 l_credit := Some 100%float |} ];
          seq := 2 |};
     other_tables := ∅ |}.

Definition exemple_values : form_values :=
  {| numero := "1"; date_ecriture := "2024-01-16"; v_libelle := "Vente" |}.

Definition exemple_lignes : list ligne :=
  [ {| compte_id := 1; compte_nom := "512000 - Banque"; libelle := "Vente";
       debit := 120; credit := 0 |};
    {| compte_id := 2; compte_nom := "706000 - Prestations";
       libelle := "Vente"; debit := 0; credit := 120 |} ].

(** A reading of literals for the examples: it knows the texts made of
    digits, which SQLite reads as integers when they fit in 64 bits. *)
Definition digit (c : ascii) : option Z :=
  let n := nat_of_ascii c in
  if (48 <=? n)%nat && (n <=? 57)%nat then Some (Z.of_nat n - 48)%Z else None.

Fixpoint digits (s : string) (acc : Z) : option Z :=
  match s with
  | EmptyString => Some acc
  | String c rest =>
      match digit c with
      | Some d => digits rest (10 * acc + d)%Z
      | None => None
      end
  end.

Definition integer_literal (s : string) : option (Z + float) :=
  match s with
  | EmptyString => None
  | _ =>
      match digits s 0 with
      | Some n => if (n <? 2 ^ 63)%Z then Some (inl n) else None
      | None => None
      end
  end.

(** No failure from outside. *)
Definition calme : env :=
  {| current_timestamp := "2024-01-16 10:00:00";
     fault := fun _ => None; commit_fault := None;
     summation := Py.compensated; literal := integer_literal |}.

(** The database is locked when the second line is inserted (the fourth
    [execute] of a modification). *)
Definition verrou : env :=
  {| current_timestamp := "2024-01-16 10:00:00";
     fault := fun k => if Nat.eqb k 3 then Some "database is locked" else None;
     commit_fault := None;
     summation := Py.compensated; literal := integer_literal |}.

(** An entry of one line: one cent at the debit, nothing at the credit. *)
Definition un_centime : list ligne :=
  [ {| compte_id := 1; compte_nom := "512000 - Banque"; libelle := "Ecart";
       debit := 0.01; credit := 0 |} ].

Definition values_2 : form_values :=
  {| numero := "2"; date_ecriture := "2024-01-16"; v_libelle := "Ecart" |}.

(** ** Frame: what the statements leave alone *)

Lemma update_ecriture_outside now numero date libelle montant id db db' :
  update_ecriture now numero date libelle montant id db = inr db' ->
  outside_journal db' = outside_journal db.
Proof.
  unfold update_ecriture. intros Hupd.
  repeat case_match; by simplify_eq.
Qed.

Lemma insert_ecriture_outside now numero date libelle montant user db db' id :
  insert_ecriture now numero date libelle montant user db = inr (db', id) ->
  outside_journal db' = outside_journal db.
Proof.
  unfold insert_ecriture. intros Hins.
  repeat case_match; by simplify_eq.
Qed.

Lemma insert_ligne_outside eid cid libelle debit credit db db' id :
  insert_ligne eid cid libelle debit credit db = (db', id) ->
  outside_journal db' = outside_journal db.
Proof. unfold insert_ligne. cbn. intros Hins. by simplify_eq. Qed.

Lemma run_outside_journal now lit q db db' rowid :
  run now lit q db = inr (db', rowid) ->
  outside_journal db' = outside_journal db.
Proof.
  unfold run. intros Hrun.
  repeat (case_match; simplify_eq);
    eauto using update_ecriture_outside, insert_ecriture_outside,
      insert_ligne_outside.
Qed.

(** ** What a statement does to the connection *)

Lemma work_write c db rowid : work (write c db rowid) = db.
Proof. unfold work, write. by destruct (pending c). Qed.

(** A statement before which the module begins a transaction. *)
Lemma execute_dml E q c :
  is_dml (text q) = true ->
  execute E q c
  = match fault E (executed c) with
    | Some msg => inl (OperationalError msg, begin c)
    | None =>
        match run (current_timestamp E) (literal E) q (work c) with
        | inl e => inl (e, begin c)
        | inr (db, rowid) => inr (write (begin c) db rowid)
        end
    end.
Proof. unfold execute. by intros ->. Qed.

Lemma execute_inr E q c c' :
  execute E q c = inr c' ->
  fault E (executed c) = None /\
  exists db rowid,
    run (current_timestamp E) (literal E) q (work c) = inr (db, rowid) /\
    work c' = db /\
    lastrowid c' = match rowid with
                   | Some id => Some id
                   | None => lastrowid c
                   end.
Proof.
  unfold execute.
  assert (work (if is_dml (text q) then begin c else c) = work c /\
          executed (if is_dml (text q) then begin c else c) = executed c /\
          lastrowid (if is_dml (text q) then begin c else c) = lastrowid c)
    as (Hwork & Hexecuted & Hrowid) by (by destruct (is_dml (text q))).
  rewrite Hwork, Hexecuted. intros Hexec.
  destruct (fault E (executed c)); [done|].
  destruct (run _ _ q (work c)) as [e|[db rowid]]; [done|].
  injection Hexec as <-. split; [done|]. exists db, rowid.
  rewrite work_write. split; [done|]. split; [done|].
  cbn. rewrite Hrowid. by destruct rowid.
Qed.

Lemma execute_outside_journal E q c c' :
  execute E q c = inr c' ->
  outside_journal (work c') = outside_journal (work c).
Proof.
  intros (_ & db & rowid & Hrun & -> & _)%execute_inr.
  eauto using run_outside_journal.
Qed.

Lemma insert_lignes_outside_journal E id lignes : forall c c',
  insert_lignes E id lignes c = inr c' ->
  outside_journal (work c') = outside_journal (work c).
Proof.
  induction lignes as [|l lignes IH]; intros c c' Hins; cbn in Hins.
  - by simplify_eq.
  - destruct (execute E _ c) as [e|c1] eqn:Hexec; [done|]. cbn in Hins.
    rewrite (IH _ _ Hins). eauto using execute_outside_journal.
Qed.

Lemma save_ecriture_statements_outside E user id values lignes c c' :
  save_ecriture_statements E user id values lignes c = inr c' ->
  outside_journal (work c') = outside_journal (work c).
Proof.
  unfold save_ecriture_statements. intros Hrun.
  destruct (id_truthy id) as [n|].
  - destruct (execute E _ c) as [|c1] eqn:H1; [done|]. cbn in Hrun.
    destruct (execute E _ c1) as [|c2] eqn:H2; [done|]. cbn in Hrun.
    rewrite (insert_lignes_outside_journal _ _ _ _ _ Hrun).
    rewrite (execute_outside_journal _ _ _ _ H2).
    eauto using execute_outside_journal.
  - destruct (execute E _ c) as [|c1] eqn:H1; [done|]. cbn in Hrun.
    destruct (lastrowid c1); [|done].
    rewrite (insert_lignes_outside_journal _ _ _ _ _ Hrun).
    eauto using execute_outside_journal.
Qed.

(** ** The transaction of [save_ecriture] *)

(** The connection a call ends with, whether it raises or not. *)
Definition ends_with (r : error * connection + connection) : connection :=
  match r with
  | inl (_, c) => c
  | inr c => c
  end.

(** The connection is inside a transaction and the file is the one of
    [c]. *)
Definition in_transaction (c c' : connection) : Prop :=
  file c' = file c /\ is_Some (pending c') /\ closed c' = closed c.

(** A statement the module takes for a write changes the file in no case:
    it runs in a transaction, which it leaves open. *)
Lemma execute_in_transaction E q c :
  is_dml (text q) = true -> in_transaction c (ends_with (execute E q c)).
Proof.
  intros Hdml. rewrite execute_dml by done. unfold in_transaction.
  destruct (fault E (executed c)); [by cbn; eauto|].
  destruct (run _ _ q (work c)) as [e|[db rowid]]; cbn; eauto.
Qed.

Lemma in_transaction_trans c1 c2 c3 :
  in_transaction c1 c2 -> in_transaction c2 c3 -> in_transaction c1 c3.
Proof. unfold in_transaction. intros (-> & _ & ->) (-> & ? & ->). done. Qed.

Lemma insert_lignes_in_transaction E id lignes : forall c,
  is_Some (pending c) ->
  in_transaction c (ends_with (insert_lignes E id lignes c)).
Proof.
  induction lignes as [|l lignes IH]; intros c Hopen; cbn; [done|].
  pose proof (execute_in_transaction E (insert_ligne_statement id l) c
                eq_refl) as Hfirst.
  destruct (execute E _ c) as [[e c1]|c1]; cbn in *; [done|].
  apply (in_transaction_trans c c1); [done|].
  apply IH. by destruct Hfirst as (_ & ? & _).
Qed.

(** The statements of [save_ecriture], down to the failure of one of them,
    are those of one transaction: the file is not written. *)
Lemma save_ecriture_statements_in_transaction E user id values lignes c :
  in_transaction c
    (ends_with (save_ecriture_statements E user id values lignes c)).
Proof.
  unfold save_ecriture_statements.
  destruct (id_truthy id) as [n|].
  - pose proof (execute_in_transaction E
                  (update_ecriture_statement values
                     (py_sum E (map debit lignes)) n) c eq_refl) as H1.
    destruct (execute E _ c) as [[e c1]|c1]; cbn in *; [done|].
    pose proof (execute_in_transaction E (delete_lignes_statement n) c1
                  eq_refl) as H2.
    destruct (execute E _ c1) as [[e c2]|c2]; cbn in *.
    + by apply (in_transaction_trans c c1).
    + apply (in_transaction_trans c c2).
      * by apply (in_transaction_trans c c1).
      * apply insert_lignes_in_transaction. by destruct H2 as (_ & ? & _).
  - pose proof (execute_in_transaction E
                  (insert_ecriture_statement values
                     (py_sum E (map debit lignes)) user) c eq_refl) as H1.
    destruct (execute E _ c) as [[e c1]|c1]; cbn in *; [done|].
    destruct (lastrowid c1); cbn; [|done].
    apply (in_transaction_trans c c1); [done|].
    apply insert_lignes_in_transaction. by destruct H1 as (_ & ? & _).
Qed.

(** [save_ecriture] either commits what its statements did, or leaves the
    file as it was, with the connection open on its transaction until the
    call has returned. *)
Lemma save_ecriture_cases E user db id values lignes :
  (exists c,
     save_ecriture_statements E user id values lignes (connect db) = inr c /\
     commit_fault E = None /\
     save_ecriture E user db id values lignes = (true, work c, [])) \/
  (exists e conn,
     save_ecriture_try E user db id values lignes = inl (e, conn) /\
     in_transaction (connect db) conn /\
     save_ecriture E user db id values lignes =
       (false, db,
        [popup_error ("Erreur lors de la sauvegarde: " +:+ message e)])).
Proof.
  unfold save_ecriture, save_ecriture_try.
  pose proof (save_ecriture_statements_in_transaction E user id values lignes
                (connect db)) as Hin.
  destruct (save_ecriture_statements _ _ _ _ _ _) as [[e conn]|c] eqn:Hrun;
    cbn in Hin |- *.
  - right. exists e, conn. pose proof Hin as (Hfile & _). cbn in Hfile.
    by rewrite Hfile.
  - unfold commit. destruct (commit_fault E) as [msg|] eqn:Hc; cbn.
    + right. exists (OperationalError msg), c.
      pose proof Hin as (Hfile & _). cbn in Hfile. by rewrite Hfile.
    + left. by exists c.
Qed.

(** C4.  Whatever the call (addition or modification, success or failure),
    [save_ecriture] leaves the table [comptes] as it was, the column [solde]
    of every account included, and every table other than [ecritures] and
    [lignes_ecriture] too. *)
Theorem save_ecriture_frame E user db id values lignes :
  let db' := stored (save_ecriture E user db id values lignes) in
  comptes db' = comptes db /\
  map c_solde (rows (comptes db')) = map c_solde (rows (comptes db)) /\
  other_tables db' = other_tables db.
Proof.
  destruct (save_ecriture_cases E user db id values lignes)
    as [(c & Hrun & _ & ->)|(e & conn & _ & _ & ->)]; cbn; [|done].
  apply save_ecriture_statements_outside in Hrun.
  injection Hrun as Hc Ho. cbn in Hc, Ho. by rewrite Hc, Ho.
Qed.


(** A modification that goes through replaces the lines of the entry. *)
Example save_ecriture_modifies :
  let r := save_ecriture calme "admin" exemple_db (Some 1%Z) exemple_values
             exemple_lignes in
  returned r = true /\
  map (fun l => (l_id l, l_ecriture_id l, l_compte_id l))
      (rows (lignes_ecriture (stored r)))
    = [(3, 1, 1); (4, 1, 2)]%Z /\
  map e_date_ecriture (rows (ecritures (stored r))) = [Text "2024-01-16"].
Proof. vm_compute. repeat split; reflexivity. Qed.

(** The failing run on the example: the database is locked at the fourth
    statement of a modification.  In the transaction left open the old
    lines are deleted and one new line is inserted; the file has the two
    old lines. *)
Example save_ecriture_interrupted :
  match left_open verrou "admin" exemple_db (Some 1%Z) exemple_values
          exemple_lignes with
  | Some conn =>
      (map l_id <$> (rows <$> (lignes_ecriture <$> pending conn)))
      = Some [3%Z] /\
      map l_id (rows (lignes_ecriture (file conn))) = [1%Z; 2%Z] /\
      closed conn = false
  | None => False
  end.
Proof. vm_compute. repeat split; reflexivity. Qed.


(** ** The balance check *)

Example un_centime_saved :
  let r := on_enregistrer calme "admin" exemple_db None values_2 un_centime in
  calls_save r = true /\ r.2 = true /\
  map e_montant_total (rows (ecritures r.1.2)) = [100; 0.01]%float /\
  map (fun l => (l_debit l, l_credit l)) (rows (lignes_ecriture r.1.2))
    = [(Some 100, Some 0); (Some 0, Some 100); (Some 0.01, Some 0)]%float.
Proof. vm_compute. repeat split; reflexivity. Qed.

(** C1 as stated fails: the action accepts, and saves, an entry whose debits
    and credits differ (by one cent here). *)
Lemma enregistrer_accepts_unbalanced :
  ~ (forall E user db id values lignes,
       calls_save (on_enregistrer E user db id values lignes) = true ->
       PrimFloat.eqb (py_sum E (map debit lignes))
         (py_sum E (map credit lignes))
       = true).
Proof.
  intros Hclaim.
  specialize (Hclaim calme "admin" exemple_db None values_2 un_centime).
  vm_compute in Hclaim. by specialize (Hclaim eq_refl).
Qed.

Lemma on_enregistrer_rejected E user db id values lignes :
  accepted E values lignes = false ->
  exists msg,
    on_enregistrer E user db id values lignes = ([popup_error msg], db, false).
Proof.
  unfold accepted, on_enregistrer. intros Hrej.
  destruct (Py.truthy (numero values)); [|by eexists].
  destruct (Py.truthy (date_ecriture values)); [|by eexists].
  destruct (Py.truthy (v_libelle values)); [|by eexists].
  destruct lignes as [|l lignes]; [by eexists|].
  destruct (unbalanced E (l :: lignes)); [by eexists|done].
Qed.

Lemma on_enregistrer_accepted E user db id values lignes :
  accepted E values lignes = true ->
  let saved := save_ecriture E user db id values lignes in
  on_enregistrer E user db id values lignes =
    (call_save_ecriture id values lignes
       :: saved.2 ++ (if returned saved
                      then [popup "Écriture enregistrée avec succès."]
                      else []),
     stored saved, returned saved).
Proof.
  unfold accepted. intros Hacc.
  apply andb_prop in Hacc as [Hacc Hbal].
  apply andb_prop in Hacc as [Hacc Hlignes].
  apply andb_prop in Hacc as [Hacc Hlibelle].
  apply andb_prop in Hacc as [Hnumero Hdate].
  apply negb_true_iff in Hbal.
  unfold on_enregistrer. rewrite Hnumero, Hdate, Hlibelle, Hbal.
  cbn [negb orb].
  destruct lignes as [|l lignes]; [done|].
  destruct (save_ecriture E user db id values (l :: lignes))
    as [[ok db'] shown].
  destruct ok; cbn; by rewrite ?app_nil_r.
Qed.

Lemma calls_save_accepted E user db id values lignes :
  calls_save (on_enregistrer E user db id values lignes)
  = accepted E values lignes.
Proof.
  destruct (accepted E values lignes) eqn:Hacc.
  - by rewrite on_enregistrer_accepted.
  - by destruct (on_enregistrer_rejected E user db id _ _ Hacc) as [msg ->].
Qed.

(** C1, amended.  The 'Enregistrer' action calls [save_ecriture] exactly
    when the three fields are filled, there is at least one line, and the
    test [abs(total_debits - total_credits) > 0.01] is false: the sums may
    differ by up to one hundredth.  In every other case, a difference above
    0.01 included, it shows one error popup, calls nothing and leaves the
    database as it was. *)
Theorem enregistrer_saves_within_tolerance E user db id values lignes :
  let r := on_enregistrer E user db id values lignes in
  (calls_save r = true <->
     Py.truthy (numero values) = true /\
     Py.truthy (date_ecriture values) = true /\
     Py.truthy (v_libelle values) = true /\
     lignes ≠ [] /\
     PrimFloat.ltb 0.01%float
       (PrimFloat.abs (py_sum E (map debit lignes)
                       - py_sum E (map credit lignes))%float) = false) /\
  (calls_save r = false -> exists msg, r = ([popup_error msg], db, false)).
Proof.
  intros r. subst r. rewrite calls_save_accepted. split.
  - unfold accepted. fold (unbalanced E lignes).
    rewrite !andb_true_iff, negb_true_iff.
    destruct lignes; intuition congruence.
  - apply on_enregistrer_rejected.
Qed.

(** ** The calls of the demo that run SQL *)

(** How a call reaches [cursor.execute]: directly, or through one of the two
    helpers of [DatabaseManager]. *)
Inductive route := by_cursor | by_execute_query | by_execute_update.

(** A call whose first argument is a string literal: the line of the call
    in [Accounting.py], the literal, and the source text of each element of
    the tuple given as second argument (none when the call has no second
    argument). *)
Record call_site := {
  line : nat;
  route_of : route;
  sql : string;
  args : list string
}.

(** [DatabaseManager.execute_query] and [execute_update]: what they give to
    [cursor.execute] for the [query] and the [params] they receive; with an
    empty [params] they call [cursor.execute(query)]. *)
Definition execute_query (query : string) (bound : list value) : statement :=
  {| text := query; params := bound |}.

Definition execute_update (query : string) (bound : list value) : statement :=
  {| text := query; params := bound |}.

(** What a call gives to [cursor.execute], when [inputs] is the value of
    each of its argument expressions. *)
Definition sent (s : call_site) (inputs : string -> value) : statement :=
  let bound := map inputs (args s) in
  match route_of s with
  | by_cursor => {| text := sql s; params := bound |}
  | by_execute_query => execute_query (sql s) bound
  | by_execute_update => execute_update (sql s) bound
  end.

(** The calls of the demo that name a variable instead of a literal are the
    four [cursor.execute(query, ...)] of the two helpers above (lines 447,
    449, 466 and 468) and the call of [execute_query] by [filter_ecritures]
    (line 1807), whose query is [filter_ecritures_query].  The others, all
    with a literal, are these. *)
Definition call_sites : list call_site := [
  {| line := 50; route_of := by_cursor;
     sql := "
                CREATE TABLE IF NOT EXISTS comptes (
                    id INTEGER PRIMARY KEY AUTOINCREMENT,
                    numero TEXT UNIQUE NOT NULL,
                    nom TEXT NOT NULL,
                    type TEXT NOT NULL,
                    parent_id INTEGER,
                    solde REAL DEFAULT 0,
                    actif BOOLEAN DEFAULT 1,
                    date_creation TIMESTAMP DEFAULT CURRENT_TIMESTAMP,
                    date_modification TIMESTAMP DEFAULT CURRENT_TIMESTAMP,
                    FOREIGN KEY (parent_id) REFERENCES comptes (id)
                )
            ";
     args :=
         [] |};
  {| line := 66; route_of := by_cursor;
     sql := "
                CREATE TABLE IF NOT EXISTS ecritures (
                    id INTEGER PRIMARY KEY AUTOINCREMENT,
                    numero TEXT UNIQUE NOT NULL,
                    date_ecriture DATE NOT NULL,
                    libelle TEXT NOT NULL,
                    montant_total REAL NOT NULL,
                    statut TEXT DEFAULT 'brouillon',
                    piece_jointe TEXT,
                    utilisateur TEXT,
                    date_creation TIMESTAMP DEFAULT CURRENT_TIMESTAMP,
                    date_modification TIMESTAMP DEFAULT CURRENT_TIMESTAMP
                )
            ";
     args :=
         [] |};
  {| line := 82; route_of := by_cursor;
     sql := "
                CREATE TABLE IF NOT EXISTS lignes_ecriture (
                    id INTEGER PRIMARY KEY AUTOINCREMENT,
                    ecriture_id INTEGER NOT NULL,
                    compte_id INTEGER NOT NULL,
                    libelle TEXT NOT NULL,
                    debit REAL DEFAULT 0,
                    credit REAL DEFAULT 0,
                    FOREIGN KEY (ecriture_id) REFERENCES ecritures (id) ON DELETE CASCADE,
                    FOREIGN KEY (compte_id) REFERENCES comptes (id)
                )
            ";
     args :=
         [] |};
  {| line := 96; route_of := by_cursor;
     sql := "
                CREATE TABLE IF NOT EXISTS clients (
                    id INTEGER PRIMARY KEY AUTOINCREMENT,
                    code TEXT UNIQUE NOT NULL,
                    nom TEXT NOT NULL,
                    prenom TEXT,
                    raison_sociale TEXT,
                    adresse TEXT,
                    ville TEXT,
                    code_postal TEXT,
                    pays TEXT DEFAULT 'France',
                    telephone TEXT,
                    email TEXT,
                    siret TEXT,
                    tva TEXT,
                    conditions_paiement INTEGER DEFAULT 30,
                    limite_credit REAL DEFAULT 0,
                    actif BOOLEAN DEFAULT 1,
                    date_creation TIMESTAMP DEFAULT CURRENT_TIMESTAMP
                )
            ";
     args :=
         [] |};
  {| line := 119; route_of := by_cursor;
     sql := "
                CREATE TABLE IF NOT EXISTS fournisseurs (
                    id INTEGER PRIMARY KEY AUTOINCREMENT,
                    code TEXT UNIQUE NOT NULL,
                    nom TEXT NOT NULL,
                    raison_sociale TEXT,
                    adresse TEXT,
                    ville TEXT,
                    code_postal TEXT,
                    pays TEXT DEFAULT 'France',
                    telephone TEXT,
                    email TEXT,
                    siret TEXT,
                    tva TEXT,
                    conditions_paiement INTEGER DEFAULT 30,
                    actif BOOLEAN DEFAULT 1,
                    date_creation TIMESTAMP DEFAULT CURRENT_TIMESTAMP
                )
            ";
     args :=
         [] |};
  {| line := 140; route_of := by_cursor;
     sql := "
                CREATE TABLE IF NOT EXISTS factures (
                    id INTEGER PRIMARY KEY AUTOINCREMENT,
                    numero TEXT UNIQUE NOT NULL,
                    client_id INTEGER NOT NULL,
                    date_facture DATE NOT NULL,
                    date_echeance DATE NOT NULL,
                    montant_ht REAL NOT NULL,
                    montant_tva REAL NOT NULL,
                    montant_ttc REAL NOT NULL,
                    statut TEXT DEFAULT 'en_cours',
                    libelle TEXT,
                    notes TEXT,
                    ecriture_id INTEGER,
                    date_creation TIMESTAMP DEFAULT CURRENT_TIMESTAMP,
                    FOREIGN KEY (client_id) REFERENCES clients (id),
                    FOREIGN KEY (ecriture_id) REFERENCES ecritures (id)
                )
            ";
     args :=
         [] |};
  {| line := 161; route_of := by_cursor;
     sql := "
                CREATE TABLE IF NOT EXISTS lignes_facture (
                    id INTEGER PRIMARY KEY AUTOINCREMENT,
                    facture_id INTEGER NOT NULL,
                    description TEXT NOT NULL,
                    quantite REAL NOT NULL,
                    prix_unitaire REAL NOT NULL,
                    taux_tva REAL DEFAULT 20.0,
                    montant_ht REAL NOT NULL,
                    montant_tva REAL NOT NULL,
                    FOREIGN KEY (facture_id) REFERENCES factures (id) ON DELETE CASCADE
                )
            ";
     args :=
         [] |};
  {| line := 176; route_of := by_cursor;
     sql := "
                CREATE TABLE IF NOT EXISTS reglements (
                    id INTEGER PRIMARY KEY AUTOINCREMENT,
                    facture_id INTEGER NOT NULL,
                    montant REAL NOT NULL,
                    date_reglement DATE NOT NULL,
                    mode_reglement TEXT NOT NULL,
                    reference TEXT,
                    notes TEXT,
                    ecriture_id INTEGER,
                    date_creation TIMESTAMP DEFAULT CURRENT_TIMESTAMP,
                    FOREIGN KEY (facture_id) REFERENCES factures (id),
                    FOREIGN KEY (ecriture_id) REFERENCES ecritures (id)
                )
            ";
     args :=
         [] |};
  {| line := 193; route_of := by_cursor;
     sql := "
                CREATE TABLE IF NOT EXISTS budgets (
                    id INTEGER PRIMARY KEY AUTOINCREMENT,
                    nom TEXT NOT NULL,
                    annee INTEGER NOT NULL,
                    compte_id INTEGER NOT NULL,
                    montant_previsionnel REAL NOT NULL,
                    montant_realise REAL DEFAULT 0,
                    statut TEXT DEFAULT 'actif',
                    notes TEXT,
                    date_creation TIMESTAMP DEFAULT CURRENT_TIMESTAMP,
                    FOREIGN KEY (compte_id) REFERENCES comptes (id)
                )
            ";
     args :=
         [] |};
  {| line := 209; route_of := by_cursor;
     sql := "
                CREATE TABLE IF NOT EXISTS rapprochements (
                    id INTEGER PRIMARY KEY AUTOINCREMENT,
                    compte_id INTEGER NOT NULL,
                    date_rapprochement DATE NOT NULL,
                    solde_comptable REAL NOT NULL,
                    solde_bancaire REAL NOT NULL,
                    ecart REAL NOT NULL,
                    statut TEXT DEFAULT 'en_cours',
                    notes TEXT,
                    date_creation TIMESTAMP DEFAULT CURRENT_TIMESTAMP,
                    FOREIGN KEY (compte_id) REFERENCES comptes (id)
                )
            ";
     args :=
         [] |};
  {| line := 225; route_of := by_cursor;
     sql := "
                CREATE TABLE IF NOT EXISTS immobilisations (
                    id INTEGER PRIMARY KEY AUTOINCREMENT,
                    nom TEXT NOT NULL,
                    compte_id INTEGER NOT NULL,
                    valeur_acquisition REAL NOT NULL,
                    date_acquisition DATE NOT NULL,
                    duree_amortissement INTEGER NOT NULL,
                    methode_amortissement TEXT DEFAULT 'lineaire',
                    valeur_residuelle REAL DEFAULT 0,
                    amortissement_cumule REAL DEFAULT 0,
                    statut TEXT DEFAULT 'actif',
                    notes TEXT,
                    date_creation TIMESTAMP DEFAULT CURRENT_TIMESTAMP,
                    FOREIGN KEY (compte_id) REFERENCES comptes (id)
                )
            ";
     args :=
         [] |};
  {| line := 244; route_of := by_cursor;
     sql := "
                CREATE TABLE IF NOT EXISTS utilisateurs (
                    id INTEGER PRIMARY KEY AUTOINCREMENT,
                    nom_utilisateur TEXT UNIQUE NOT NULL,
                    mot_de_passe TEXT NOT NULL,
                    nom TEXT NOT NULL,
                    prenom TEXT NOT NULL,
                    email TEXT,
                    role TEXT DEFAULT 'comptable',
                    actif BOOLEAN DEFAULT 1,
                    derniere_connexion TIMESTAMP,
                    date_creation TIMESTAMP DEFAULT CURRENT_TIMESTAMP
                )
            ";
     args :=
         [] |};
  {| line := 260; route_of := by_cursor;
     sql := "
                CREATE TABLE IF NOT EXISTS parametres (
                    cle TEXT PRIMARY KEY,
                    valeur TEXT NOT NULL,
                    description TEXT,
                    date_modification TIMESTAMP DEFAULT CURRENT_TIMESTAMP
                )
            ";
     args :=
         [] |};
  {| line := 400; route_of := by_cursor;
     sql := "
                    INSERT OR IGNORE INTO comptes (numero, nom, type) 
                    VALUES (?, ?, ?)
                ";
     args :=
         ["numero";
          "nom";
          "type_compte"] |};
  {| line := 424; route_of := by_cursor;
     sql := "
                INSERT OR REPLACE INTO parametres (cle, valeur, description) 
                VALUES (?, ?, ?)
            ";
     args :=
         ["cle";
          "valeur";
          "description"] |};
  {| line := 434; route_of := by_cursor;
     sql := "
            INSERT OR IGNORE INTO utilisateurs 
            (nom_utilisateur, mot_de_passe, nom, prenom, role) 
            VALUES (?, ?, ?, ?, ?)
        ";
     args :=
         ["'admin'";
          "mot_de_passe_hash";
          "'Administrateur'";
          "'Système'";
          "'admin'"] |};
  {| line := 523; route_of := by_execute_query;
     sql := "
            SELECT id, nom_utilisateur, nom, prenom, role, actif 
            FROM utilisateurs 
            WHERE nom_utilisateur = ? AND mot_de_passe = ? AND actif = 1
        ";
     args :=
         ["username";
          "hashed_password"] |};
  {| line := 540; route_of := by_execute_update;
     sql := "
                UPDATE utilisateurs 
                SET derniere_connexion = CURRENT_TIMESTAMP 
                WHERE id = ?
            ";
     args :=
         ["user_data[0]"] |};
  {| line := 559; route_of := by_execute_update;
     sql := "
            INSERT INTO utilisateurs 
            (nom_utilisateur, mot_de_passe, nom, prenom, email, role) 
            VALUES (?, ?, ?, ?, ?, ?)
        ";
     args :=
         ["username";
          "hashed_password";
          "nom";
          "prenom";
          "email";
          "role"] |};
  {| line := 577; route_of := by_execute_query;
     sql := "
            SELECT c.nom, SUM(CASE WHEN le.debit > 0 THEN le.debit ELSE -le.credit END) as solde
            FROM comptes c
            LEFT JOIN lignes_ecriture le ON c.id = le.compte_id
            LEFT JOIN ecritures e ON le.ecriture_id = e.id
            WHERE c.numero LIKE '2%' AND (e.date_ecriture <= ? OR e.date_ecriture IS NULL)
            GROUP BY c.id, c.nom
            HAVING solde != 0
        ";
     args :=
         ["date_fin"] |};
  {| line := 590; route_of := by_execute_query;
     sql := "
            SELECT c.nom, SUM(CASE WHEN le.debit > 0 THEN le.debit ELSE -le.credit END) as solde
            FROM comptes c
            LEFT JOIN lignes_ecriture le ON c.id = le.compte_id
            LEFT JOIN ecritures e ON le.ecriture_id = e.id
            WHERE c.numero LIKE '3%' AND (e.date_ecriture <= ? OR e.date_ecriture IS NULL)
            GROUP BY c.id, c.nom
            HAVING solde != 0
        ";
     args :=
         ["date_fin"] |};
  {| line := 603; route_of := by_execute_query;
     sql := "
            SELECT c.nom, SUM(CASE WHEN le.debit > 0 THEN le.debit ELSE -le.credit END) as solde
            FROM comptes c
            LEFT JOIN lignes_ecriture le ON c.id = le.compte_id
            LEFT JOIN ecritures e ON le.ecriture_id = e.id
            WHERE c.numero LIKE '41%' AND (e.date_ecriture <= ? OR e.date_ecriture IS NULL)
            GROUP BY c.id, c.nom
            HAVING solde > 0
        ";
     args :=
         ["date_fin"] |};
  {| line := 616; route_of := by_execute_query;
     sql := "
            SELECT c.nom, SUM(CASE WHEN le.debit > 0 THEN le.debit ELSE -le.credit END) as solde
            FROM comptes c
            LEFT JOIN lignes_ecriture le ON c.id = le.compte_id
            LEFT JOIN ecritures e ON le.ecriture_id = e.id
            WHERE (c.numero LIKE '51%' OR c.numero LIKE '53%') 
            AND (e.date_ecriture <= ? OR e.date_ecriture IS NULL)
            GROUP BY c.id, c.nom
            HAVING solde != 0
        ";
     args :=
         ["date_fin"] |};
  {| line := 633; route_of := by_execute_query;
     sql := "
            SELECT c.nom, SUM(CASE WHEN le.credit > 0 THEN le.credit ELSE -le.debit END) as solde
            FROM comptes c
            LEFT JOIN lignes_ecriture le ON c.id = le.compte_id
            LEFT JOIN ecritures e ON le.ecriture_id = e.id
            WHERE c.numero LIKE '1%' AND (e.date_ecriture <= ? OR e.date_ecriture IS NULL)
            GROUP BY c.id, c.nom
            HAVING solde != 0
        ";
     args :=
         ["date_fin"] |};
  {| line := 646; route_of := by_execute_query;
     sql := "
            SELECT c.nom, SUM(CASE WHEN le.credit > 0 THEN le.credit ELSE -le.debit END) as solde
            FROM comptes c
            LEFT JOIN lignes_ecriture le ON c.id = le.compte_id
            LEFT JOIN ecritures e ON le.ecriture_id = e.id
            WHERE (c.numero LIKE '40%' OR c.numero LIKE '42%' OR c.numero LIKE '43%' OR c.numero LIKE '44%') 
            AND (e.date_ecriture <= ? OR e.date_ecriture IS NULL)
            GROUP BY c.id, c.nom
            HAVING solde > 0
        ";
     args :=
         ["date_fin"] |};
  {| line := 668; route_of := by_execute_query;
     sql := "
            SELECT c.nom, SUM(le.debit - le.credit) as montant
            FROM comptes c
            LEFT JOIN lignes_ecriture le ON c.id = le.compte_id
            LEFT JOIN ecritures e ON le.ecriture_id = e.id
            WHERE c.numero LIKE '6%' 
            AND e.date_ecriture BETWEEN ? AND ?
            GROUP BY c.id, c.nom
            HAVING montant > 0
            ORDER BY c.numero
        ";
     args :=
         ["date_debut";
          "date_fin"] |};
  {| line := 681; route_of := by_execute_query;
     sql := "
            SELECT c.nom, SUM(le.credit - le.debit) as montant
            FROM comptes c
            LEFT JOIN lignes_ecriture le ON c.id = le.compte_id
            LEFT JOIN ecritures e ON le.ecriture_id = e.id
            WHERE c.numero LIKE '7%' 
            AND e.date_ecriture BETWEEN ? AND ?
            GROUP BY c.id, c.nom
            HAVING montant > 0
            ORDER BY c.numero
        ";
     args :=
         ["date_debut";
          "date_fin"] |};
  {| line := 710; route_of := by_execute_query;
     sql := "
            SELECT numero, nom FROM comptes WHERE id = ?
        ";
     args :=
         ["compte_id"] |};
  {| line := 718; route_of := by_execute_query;
     sql := "
            SELECT COALESCE(SUM(le.debit - le.credit), 0) as solde
            FROM lignes_ecriture le
            JOIN ecritures e ON le.ecriture_id = e.id
            WHERE le.compte_id = ? AND e.date_ecriture < ?
        ";
     args :=
         ["compte_id";
          "date_debut"] |};
  {| line := 726; route_of := by_execute_query;
     sql := "
            SELECT e.date_ecriture, e.numero, le.libelle, le.debit, le.credit
            FROM lignes_ecriture le
            JOIN ecritures e ON le.ecriture_id = e.id
            WHERE le.compte_id = ? 
            AND e.date_ecriture BETWEEN ? AND ?
            ORDER BY e.date_ecriture, e.numero
        ";
     args :=
         ["compte_id";
          "date_debut";
          "date_fin"] |};
  {| line := 1315; route_of := by_execute_query;
     sql := "
                SELECT COALESCE(SUM(le.credit - le.debit), 0)
                FROM lignes_ecriture le
                JOIN ecritures e ON le.ecriture_id = e.id
                JOIN comptes c ON le.compte_id = c.id
                WHERE c.numero LIKE '70%' 
                AND strftime('%Y-%m', e.date_ecriture) = ?
            ";
     args :=
         ["current_month"] |};
  {| line := 1328; route_of := by_execute_query;
     sql := "
                SELECT COALESCE(SUM(le.debit - le.credit), 0)
                FROM lignes_ecriture le
                JOIN comptes c ON le.compte_id = c.id
                WHERE c.numero LIKE '51%' OR c.numero LIKE '53%'
            ";
     args :=
         [] |};
  {| line := 1339; route_of := by_execute_query;
     sql := "
                SELECT COALESCE(SUM(le.debit - le.credit), 0)
                FROM lignes_ecriture le
                JOIN comptes c ON le.compte_id = c.id
                WHERE c.numero LIKE '411%'
            ";
     args :=
         [] |};
  {| line := 1350; route_of := by_execute_query;
     sql := "
                SELECT COALESCE(SUM(le.credit - le.debit), 0)
                FROM lignes_ecriture le
                JOIN comptes c ON le.compte_id = c.id
                WHERE c.numero LIKE '401%'
            ";
     args :=
         [] |};
  {| line := 1368; route_of := by_execute_query;
     sql := "
                SELECT COUNT(*) FROM factures 
                WHERE date_echeance < date('now') AND statut = 'en_cours'
            ";
     args :=
         [] |};
  {| line := 1391; route_of := by_execute_query;
     sql := "
                SELECT c.numero, c.nom, c.type,
                       COALESCE(SUM(le.debit - le.credit), 0) as solde
                FROM comptes c
                LEFT JOIN lignes_ecriture le ON c.id = le.compte_id
                WHERE c.actif = 1
                GROUP BY c.id, c.numero, c.nom, c.type
                ORDER BY c.numero
            ";
     args :=
         [] |};
  {| line := 1415; route_of := by_execute_query;
     sql := "
                SELECT numero, date_ecriture, libelle, montant_total, statut
                FROM ecritures
                ORDER BY date_ecriture DESC, numero DESC
                LIMIT 100
            ";
     args :=
         [] |};
  {| line := 1436; route_of := by_execute_query;
     sql := "
                SELECT code, nom, ville, telephone, email
                FROM clients
                WHERE actif = 1
                ORDER BY nom
            ";
     args :=
         [] |};
  {| line := 1505; route_of := by_execute_update;
     sql := "UPDATE comptes SET actif = 0 WHERE id = ?";
     args :=
         ["compte_id"] |};
  {| line := 1531; route_of := by_execute_query;
     sql := "
            SELECT c.id, c.numero, c.nom, c.type,
                   COALESCE(SUM(le.debit - le.credit), 0) as solde,
                   CASE WHEN c.actif = 1 THEN 'Oui' ELSE 'Non' END as actif
            FROM comptes c
            LEFT JOIN lignes_ecriture le ON c.id = le.compte_id
            GROUP BY c.id, c.numero, c.nom, c.type, c.actif
            ORDER BY c.numero
        ";
     args :=
         [] |};
  {| line := 1550; route_of := by_execute_query;
     sql := "
            SELECT c.id, c.numero, c.nom, c.type,
                   COALESCE(SUM(le.debit - le.credit), 0) as solde,
                   CASE WHEN c.actif = 1 THEN 'Oui' ELSE 'Non' END as actif
            FROM comptes c
            LEFT JOIN lignes_ecriture le ON c.id = le.compte_id
            WHERE c.numero LIKE ? OR c.nom LIKE ?
            GROUP BY c.id, c.numero, c.nom, c.type, c.actif
            ORDER BY c.numero
        ";
     args :=
         ["f'%{search_term}%'";
          "f'%{search_term}%'"] |};
  {| line := 1591; route_of := by_execute_query;
     sql := "
            SELECT CONCAT(numero, ' - ', nom) FROM comptes 
            WHERE actif = 1 ORDER BY numero
        ";
     args :=
         [] |};
  {| line := 1600; route_of := by_execute_query;
     sql := "
                SELECT numero, nom, type, actif FROM comptes WHERE id = ?
            ";
     args :=
         ["compte_id"] |};
  {| line := 1627; route_of := by_execute_query;
     sql := "
                        SELECT id FROM comptes WHERE numero = ? AND id != ?
                    ";
     args :=
         ["values['numero']";
          "compte_id"] |};
  {| line := 1631; route_of := by_execute_query;
     sql := "
                        SELECT id FROM comptes WHERE numero = ?
                    ";
     args :=
         ["values['numero']"] |};
  {| line := 1642; route_of := by_execute_update;
     sql := "
                        UPDATE comptes 
                        SET numero = ?, nom = ?, type = ?, actif = ?, 
                            date_modification = CURRENT_TIMESTAMP
                        WHERE id = ?
                    ";
     args :=
         ["values['numero']";
          "values['nom']";
          "values['type']";
          "values['actif']";
          "compte_id"] |};
  {| line := 1651; route_of := by_execute_update;
     sql := "
                        INSERT INTO comptes (numero, nom, type, actif) 
                        VALUES (?, ?, ?, ?)
                    ";
     args :=
         ["values['numero']";
          "values['nom']";
          "values['type']";
          "values['actif']"] |};
  {| line := 1736; route_of := by_execute_update;
     sql := "
                            UPDATE ecritures SET statut = 'validé' WHERE id = ?
                        ";
     args :=
         ["ecriture_id"] |};
  {| line := 1752; route_of := by_execute_query;
     sql := "
            SELECT id, numero, date_ecriture, libelle, montant_total, statut
            FROM ecritures
            ORDER BY date_ecriture DESC, numero DESC
            LIMIT 200
        ";
     args :=
         [] |};
  {| line := 1769; route_of := by_execute_query;
     sql := "
            SELECT c.numero || ' - ' || c.nom, le.libelle, le.debit, le.credit
            FROM lignes_ecriture le
            JOIN comptes c ON le.compte_id = c.id
            WHERE le.ecriture_id = ?
            ORDER BY le.id
        ";
     args :=
         ["ecriture_id"] |};
  {| line := 1823; route_of := by_execute_query;
     sql := "
                SELECT MAX(CAST(numero AS INTEGER)) FROM ecritures 
                WHERE numero REGEXP '^[0-9]+$'
            ";
     args :=
         [] |};
  {| line := 1861; route_of := by_execute_query;
     sql := "
                SELECT numero, date_ecriture, libelle FROM ecritures WHERE id = ?
            ";
     args :=
         ["ecriture_id"] |};
  {| line := 1872; route_of := by_execute_query;
     sql := "
                SELECT le.compte_id, c.numero || ' - ' || c.nom, le.libelle, le.debit, le.credit
                FROM lignes_ecriture le
                JOIN comptes c ON le.compte_id = c.id
                WHERE le.ecriture_id = ?
            ";
     args :=
         ["ecriture_id"] |};
  {| line := 1995; route_of := by_execute_query;
     sql := "
            SELECT id, numero || ' - ' || nom FROM comptes 
            WHERE actif = 1 ORDER BY numero
        ";
     args :=
         [] |};
  {| line := 2073; route_of := by_cursor;
     sql := "
                    UPDATE ecritures 
                    SET numero = ?, date_ecriture = ?, libelle = ?, montant_total = ?,
                        date_modification = CURRENT_TIMESTAMP
                    WHERE id = ?
                ";
     args :=
         ["values['numero']";
          "values['date_ecriture']";
          "values['libelle']";
          "montant_total";
          "ecriture_id"] |};
  {| line := 2082; route_of := by_cursor;
     sql := "DELETE FROM lignes_ecriture WHERE ecriture_id = ?";
     args :=
         ["ecriture_id"] |};
  {| line := 2087; route_of := by_cursor;
     sql := "
                    INSERT INTO ecritures (numero, date_ecriture, libelle, montant_total, utilisateur)
                    VALUES (?, ?, ?, ?, ?)
                ";
     args :=
         ["values['numero']";
          "values['date_ecriture']";
          "values['libelle']";
          "montant_total";
          "self.auth_manager.current_user['nom_utilisateur']"] |};
  {| line := 2097; route_of := by_cursor;
     sql := "
                    INSERT INTO lignes_ecriture (ecriture_id, compte_id, libelle, debit, credit)
                    VALUES (?, ?, ?, ?, ?)
                ";
     args :=
         ["current_ecriture_id";
          "ligne['compte_id']";
          "ligne['libelle']";
          "ligne['debit']";
          "ligne['credit']"] |};
  {| line := 2158; route_of := by_execute_query;
     sql := "
            SELECT id, code, nom, prenom, ville, telephone, email
            FROM clients
            WHERE actif = 1
            ORDER BY nom, prenom
        ";
     args :=
         [] |};
  {| line := 2205; route_of := by_execute_query;
     sql := "
                SELECT code, nom, prenom, raison_sociale, adresse, ville, code_postal, pays,
                       telephone, email, siret, tva, conditions_paiement, limite_credit, actif
                FROM clients WHERE id = ?
            ";
     args :=
         ["client_id"] |};
  {| line := 2232; route_of := by_execute_query;
     sql := "
                SELECT MAX(CAST(SUBSTR(code, 2) AS INTEGER)) 
                FROM clients 
                WHERE code LIKE 'C%' AND LENGTH(code) <= 10
            ";
     args :=
         [] |};
  {| line := 2274; route_of := by_execute_query;
     sql := "
                        SELECT id FROM clients WHERE code = ? AND id != ?
                    ";
     args :=
         ["values['code']";
          "client_id"] |};
  {| line := 2278; route_of := by_execute_query;
     sql := "
                        SELECT id FROM clients WHERE code = ?
                    ";
     args :=
         ["values['code']"] |};
  {| line := 2288; route_of := by_execute_update;
     sql := "
                        UPDATE clients SET
                        code = ?, nom = ?, prenom = ?, raison_sociale = ?, adresse = ?,
                        ville = ?, code_postal = ?, pays = ?, telephone = ?, email = ?,
                        siret = ?, tva = ?, conditions_paiement = ?, limite_credit = ?, actif = ?
                        WHERE id = ?
                    ";
     args :=
         ["values['code']";
          "values['nom']";
          "values['prenom']";
          "values['raison_sociale']";
          "values['adresse']";
          "values['ville']";
          "values['code_postal']";
          "values['pays']";
          "values['telephone']";
          "values['email']";
          "values['siret']";
          "values['tva']";
          "conditions_paiement";
          "limite_credit";
          "values['actif']";
          "client_id"] |};
  {| line := 2299; route_of := by_execute_update;
     sql := "
                        INSERT INTO clients 
                        (code, nom, prenom, raison_sociale, adresse, ville, code_postal, pays,
                         telephone, email, siret, tva, conditions_paiement, limite_credit, actif)
                        VALUES (?, ?, ?, ?, ?, ?, ?, ?, ?, ?, ?, ?, ?, ?, ?)
                    ";
     args :=
         ["values['code']";
          "values['nom']";
          "values['prenom']";
          "values['raison_sociale']";
          "values['adresse']";
          "values['ville']";
          "values['code_postal']";
          "values['pays']";
          "values['telephone']";
          "values['email']";
          "values['siret']";
          "values['tva']";
          "conditions_paiement";
          "limite_credit";
          "values['actif']"] |};
  {| line := 2354; route_of := by_execute_query;
     sql := "
            SELECT id, code, nom, ville, telephone, email
            FROM fournisseurs
            WHERE actif = 1
            ORDER BY nom
        ";
     args :=
         [] |};
  {| line := 2390; route_of := by_execute_query;
     sql := "
                SELECT MAX(CAST(SUBSTR(code, 2) AS INTEGER)) 
                FROM fournisseurs 
                WHERE code LIKE 'F%' AND LENGTH(code) <= 10
            ";
     args :=
         [] |};
  {| line := 2417; route_of := by_execute_update;
     sql := "
                    INSERT INTO fournisseurs 
                    (code, nom, raison_sociale, adresse, ville, telephone, email, actif)
                    VALUES (?, ?, ?, ?, ?, ?, ?, ?)
                ";
     args :=
         ["values['code']";
          "values['nom']";
          "values['raison_sociale']";
          "values['adresse']";
          "values['ville']";
          "values['telephone']";
          "values['email']";
          "values['actif']"] |};
  {| line := 2472; route_of := by_execute_query;
     sql := "
            SELECT f.id, f.numero, c.nom, f.date_facture, f.date_echeance, 
                   f.montant_ttc, f.statut
            FROM factures f
            JOIN clients c ON f.client_id = c.id
            ORDER BY f.date_facture DESC
            LIMIT 200
        ";
     args :=
         [] |};
  {| line := 2519; route_of := by_execute_query;
     sql := "
            SELECT id, code || ' - ' || nom FROM clients WHERE actif = 1 ORDER BY nom
        ";
     args :=
         [] |};
  {| line := 2532; route_of := by_execute_query;
     sql := "
                SELECT MAX(CAST(SUBSTR(numero, 3) AS INTEGER)) 
                FROM factures 
                WHERE numero LIKE 'FA%'
            ";
     args :=
         [] |};
  {| line := 2576; route_of := by_execute_query;
     sql := "
                        SELECT conditions_paiement FROM clients WHERE id = ?
                    ";
     args :=
         ["client_id"] |};
  {| line := 2683; route_of := by_cursor;
     sql := "
                    UPDATE factures SET
                    numero = ?, client_id = ?, date_facture = ?, date_echeance = ?,
                    montant_ht = ?, montant_tva = ?, montant_ttc = ?, libelle = ?
                    WHERE id = ?
                ";
     args :=
         ["values['numero']";
          "client_id";
          "values['date_facture']";
          "values['date_echeance']";
          "total_ht";
          "total_tva";
          "total_ttc";
          "values['libelle']";
          "facture_id"] |};
  {| line := 2691; route_of := by_cursor;
     sql := "DELETE FROM lignes_facture WHERE facture_id = ?";
     args :=
         ["facture_id"] |};
  {| line := 2695; route_of := by_cursor;
     sql := "
                    INSERT INTO factures 
                    (numero, client_id, date_facture, date_echeance, montant_ht, montant_tva, montant_ttc, libelle)
                    VALUES (?, ?, ?, ?, ?, ?, ?, ?)
                ";
     args :=
         ["values['numero']";
          "client_id";
          "values['date_facture']";
          "values['date_echeance']";
          "total_ht";
          "total_tva";
          "total_ttc";
          "values['libelle']"] |};
  {| line := 2706; route_of := by_cursor;
     sql := "
                    INSERT INTO lignes_facture 
                    (facture_id, description, quantite, prix_unitaire, taux_tva, montant_ht, montant_tva)
                    VALUES (?, ?, ?, ?, ?, ?, ?)
                ";
     args :=
         ["current_facture_id";
          "ligne['description']";
          "ligne['quantite']";
          "ligne['prix_unitaire']";
          "ligne['taux_tva']";
          "ligne['montant_ht']";
          "ligne['montant_tva']"] |};
  {| line := 2907; route_of := by_execute_query;
     sql := "
            SELECT c.numero, c.nom,
                   COALESCE(SUM(le.debit), 0) as total_debit,
                   COALESCE(SUM(le.credit), 0) as total_credit
            FROM comptes c
            LEFT JOIN lignes_ecriture le ON c.id = le.compte_id
            LEFT JOIN ecritures e ON le.ecriture_id = e.id
            WHERE (e.date_ecriture <= ? OR e.date_ecriture IS NULL)
            AND c.actif = 1
            GROUP BY c.id, c.numero, c.nom
            HAVING total_debit != 0 OR total_credit != 0
            ORDER BY c.numero
        ";
     args :=
         ["date_balance"] |};
  {| line := 2968; route_of := by_execute_query;
     sql := "
            SELECT id, numero || ' - ' || nom FROM comptes 
            WHERE actif = 1 ORDER BY numero
        ";
     args :=
         [] |};
  {| line := 3067; route_of := by_execute_query;
     sql := "SELECT cle, valeur FROM parametres";
     args :=
         [] |};
  {| line := 3083; route_of := by_execute_update;
     sql := "
                        INSERT OR REPLACE INTO parametres (cle, valeur) VALUES (?, ?)
                    ";
     args :=
         ["cle";
          "valeur"] |};
  {| line := 3128; route_of := by_execute_query;
     sql := "
            SELECT id, nom_utilisateur, nom, prenom, role, 
                   CASE WHEN actif = 1 THEN 'Oui' ELSE 'Non' END,
                   COALESCE(derniere_connexion, 'Jamais')
            FROM utilisateurs
            ORDER BY nom, prenom
        ";
     args :=
         [] |};
  {| line := 3168; route_of := by_execute_update;
     sql := "
                        INSERT OR REPLACE INTO parametres (cle, valeur) VALUES ('theme', ?)
                    ";
     args :=
         ["values['new_theme']"] |};
  {| line := 3460; route_of := by_execute_query;
     sql := "
            SELECT i.id, i.nom, i.valeur_acquisition, i.date_acquisition,
                   i.duree_amortissement, i.amortissement_cumule,
                   (i.valeur_acquisition - i.amortissement_cumule) as vnc,
                   i.statut
            FROM immobilisations i
            ORDER BY i.date_acquisition DESC
        ";
     args :=
         [] |};
  {| line := 3501; route_of := by_execute_query;
     sql := "
            SELECT id, numero || ' - ' || nom FROM comptes 
            WHERE numero LIKE '2%' AND actif = 1 ORDER BY numero
        ";
     args :=
         [] |};
  {| line := 3535; route_of := by_execute_update;
     sql := "
                        INSERT INTO immobilisations 
                        (nom, compte_id, valeur_acquisition, date_acquisition, 
                         duree_amortissement, methode_amortissement, valeur_residuelle)
                        VALUES (?, ?, ?, ?, ?, ?, ?)
                    ";
     args :=
         ["values['nom']";
          "compte_id";
          "valeur_acquisition";
          "values['date_acquisition']";
          "duree_amortissement";
          "values['methode_amortissement']";
          "valeur_residuelle"] |};
  {| line := 3556; route_of := by_execute_query;
     sql := "
            SELECT id, valeur_acquisition, date_acquisition, duree_amortissement, 
                   methode_amortissement, valeur_residuelle, amortissement_cumule
            FROM immobilisations
            WHERE statut = 'actif'
        ";
     args :=
         [] |};
  {| line := 3588; route_of := by_execute_update;
     sql := "
                        UPDATE immobilisations 
                        SET amortissement_cumule = ? 
                        WHERE id = ?
                    ";
     args :=
         ["nouvel_amort_cumule";
          "id_immo"] |};
  {| line := 3643; route_of := by_execute_query;
     sql := "
            SELECT b.id, b.nom, c.numero || ' - ' || c.nom,
                   b.montant_previsionnel, b.montant_realise,
                   (b.montant_realise - b.montant_previsionnel) as ecart,
                   CASE WHEN b.montant_previsionnel != 0 
                        THEN (b.montant_realise * 100.0 / b.montant_previsionnel)
                        ELSE 0 END as pourcentage
            FROM budgets b
            JOIN comptes c ON b.compte_id = c.id
            WHERE b.annee = ?
            ORDER BY b.nom
        ";
     args :=
         ["annee"] |};
  {| line := 3688; route_of := by_execute_query;
     sql := "
            SELECT id, numero || ' - ' || nom FROM comptes 
            WHERE actif = 1 ORDER BY numero
        ";
     args :=
         [] |};
  {| line := 3718; route_of := by_execute_update;
     sql := "
                        INSERT INTO budgets (nom, annee, compte_id, montant_previsionnel, notes)
                        VALUES (?, ?, ?, ?, ?)
                    ";
     args :=
         ["values['nom']";
          "int(values['annee'])";
          "compte_id";
          "montant";
          "values['notes']"] |};
  {| line := 3736; route_of := by_execute_query;
     sql := "
            SELECT id, compte_id FROM budgets WHERE annee = ?
        ";
     args :=
         ["annee"] |};
  {| line := 3742; route_of := by_execute_query;
     sql := "
                SELECT COALESCE(SUM(
                    CASE WHEN c.numero LIKE '6%' THEN le.debit - le.credit
                         WHEN c.numero LIKE '7%' THEN le.credit - le.debit
                         ELSE le.debit - le.credit END
                ), 0)
                FROM lignes_ecriture le
                JOIN ecritures e ON le.ecriture_id = e.id
                JOIN comptes c ON le.compte_id = c.id
                WHERE le.compte_id = ? 
                AND strftime('%Y', e.date_ecriture) = ?
            ";
     args :=
         ["compte_id";
          "str(annee)"] |};
  {| line := 3757; route_of := by_execute_update;
     sql := "
                UPDATE budgets SET montant_realise = ? WHERE id = ?
            ";
     args :=
         ["montant_realise";
          "budget_id"] |}
].

(** The call at a line of [Accounting.py]. *)
Definition site (l : nat) : option call_site :=
  List.find (fun s => Nat.eqb (line s) l) call_sites.

(** The values of the expressions [save_ecriture] gives to its statements:
    the fields of the form, the sum of the debits, the ids, the name of the
    user and the fields of the line of the loop. *)
Definition save_ecriture_bindings (utilisateur : string)
    (values : form_values) (montant_total : float)
    (ecriture_id current_ecriture_id : Z) (ligne : ligne)
  : list (string * value) :=
  [("values['numero']", Text (numero values));
   ("values['date_ecriture']", Text (date_ecriture values));
   ("values['libelle']", Text (v_libelle values));
   ("montant_total", bind_float montant_total);
   ("ecriture_id", Integer ecriture_id);
   ("self.auth_manager.current_user['nom_utilisateur']", Text utilisateur);
   ("current_ecriture_id", Integer current_ecriture_id);
   ("ligne['compte_id']", Integer (compte_id ligne));
   ("ligne['libelle']", Text (libelle ligne));
   ("ligne['debit']", bind_float (debit ligne));
   ("ligne['credit']", bind_float (credit ligne))].

Definition value_of (bindings : list (string * value)) (expr : string)
  : value :=
  match List.find (fun b => String.eqb b.1 expr) bindings with
  | Some b => b.2
  | None => Null
  end.

(** ** The SQL texts *)

Lemma filter_ecritures_query_text date_debut date_fin statut :
  text (filter_ecritures_query date_debut date_fin statut)
  = filter_ecritures_text (criteria date_debut date_fin statut).
Proof.
  unfold filter_ecritures_query, criteria, filter_ecritures_text.
  destruct (Py.truthy date_debut), (Py.truthy date_fin),
    (Py.truthy statut && negb (String.eqb statut "Tous")); reflexivity.
Qed.

Lemma filter_ecritures_query_params date_debut date_fin statut :
  params (filter_ecritures_query date_debut date_fin statut)
  = filter_ecritures_params date_debut date_fin statut.
Proof.
  unfold filter_ecritures_query, filter_ecritures_params, criteria.
  destruct (Py.truthy date_debut), (Py.truthy date_fin),
    (Py.truthy statut && negb (String.eqb statut "Tous")); reflexivity.
Qed.

Lemma filter_ecritures_text_placeholders applied :
  placeholders (filter_ecritures_text applied)
  = let '(debut, fin, statut) := applied in
    ((if debut then 1 else 0) + (if fin then 1 else 0)
     + (if statut then 1 else 0))%nat.
Proof. destruct applied as [[[] []] []]; vm_compute; reflexivity. Qed.

(** Every literal has as many placeholders as its call has arguments. *)
Lemma call_sites_placeholders s :
  s ∈ call_sites -> placeholders (sql s) = length (args s).
Proof.
  intros Hs%list_elem_of_In.
  assert (forallb (fun s => Nat.eqb (placeholders (sql s)) (length (args s)))
            call_sites = true) as Hall by (vm_compute; reflexivity).
  apply (proj1 (forallb_forall _ _) Hall) in Hs. by apply Nat.eqb_eq.
Qed.

(** C5.  Every call of the demo that runs SQL gives [cursor.execute] a text
    that no input can change, and its values apart.  A call with a string
    literal, direct or through [execute_query] and [execute_update], sends
    that literal as it is, with the values of its argument expressions
    bound, in order, to the placeholders of the literal, of which there are
    as many as arguments; the two helpers send the query they receive,
    unchanged.  The one query built at run time, that of
    [filter_ecritures], is one of eight fixed texts, chosen by which
    criteria are given and by nothing else of what the user typed, with the
    values typed bound in order to its placeholders.  The four statements
    of [save_ecriture] are the calls of lines 2073, 2082, 2087 and 2097,
    with the fields of the form, the sum of the debits, the ids, the user
    and the fields of the line bound to them. *)
Theorem sql_parameterized :
  (forall s inputs,
     s ∈ call_sites ->
     text (sent s inputs) = sql s /\
     params (sent s inputs) = map inputs (args s) /\
     placeholders (sql s) = length (args s)) /\
  (forall query bound,
     execute_query query bound = {| text := query; params := bound |} /\
     execute_update query bound = {| text := query; params := bound |}) /\
  (forall date_debut date_fin statut,
     let q := filter_ecritures_query date_debut date_fin statut in
     text q = filter_ecritures_text (criteria date_debut date_fin statut) /\
     params q = filter_ecritures_params date_debut date_fin statut /\
     placeholders (text q) = length (params q)) /\
  (forall d1 f1 s1 d2 f2 s2,
     criteria d1 f1 s1 = criteria d2 f2 s2 ->
     text (filter_ecritures_query d1 f1 s1)
     = text (filter_ecritures_query d2 f2 s2)) /\
  (forall utilisateur values montant_total ecriture_id current_ecriture_id
          ligne,
     let inputs :=
       value_of (save_ecriture_bindings utilisateur values montant_total
                   ecriture_id current_ecriture_id ligne) in
     (fun s => sent s inputs) <$> site 2073
     = Some (update_ecriture_statement values montant_total ecriture_id) /\
     (fun s => sent s inputs) <$> site 2082
     = Some (delete_lignes_statement ecriture_id) /\
     (fun s => sent s inputs) <$> site 2087
     = Some (insert_ecriture_statement values montant_total utilisateur) /\
     (fun s => sent s inputs) <$> site 2097
     = Some (insert_ligne_statement current_ecriture_id ligne)).
Proof.
  split; [|split; [|split; [|split]]].
  - intros s inputs Hs. split; [|split].
    + unfold sent. by destruct (route_of s).
    + unfold sent. by destruct (route_of s).
    + by apply call_sites_placeholders.
  - done.
  - intros date_debut date_fin statut q. subst q.
    rewrite filter_ecritures_query_text, filter_ecritures_query_params.
    split; [done|split; [done|]].
    rewrite filter_ecritures_text_placeholders.
    unfold filter_ecritures_params.
    destruct (criteria date_debut date_fin statut) as [[[] []] []];
      reflexivity.
  - intros d1 f1 s1 d2 f2 s2 Hsame.
    by rewrite !filter_ecritures_query_text, Hsame.
  - intros utilisateur values montant_total ecriture_id current_ecriture_id
      ligne inputs.
    repeat split; reflexivity.
Qed.

(* ===================================================================== *)
(** * More of the journal: what save_ecriture stores                      *)
(* ===================================================================== *)

(** What a column declared REAL stores of a Python [float]: a NaN, bound
    as NULL, is stored as NULL ([None]). *)
Definition stored_real (x : float) : option float :=
  if PrimFloat.is_nan x then None else Some x.

(** What the column [date_ecriture], declared DATE, stores of the text of
    the form. *)
Definition stored_date (E : env) (values : form_values) : value :=
  numeric_affinity (literal E) (date_ecriture values).

(** The row of [ecritures] an addition inserts. *)
Definition added_ecriture (E : env) (utilisateur : string)
    (values : form_values) (lignes_ecriture : list ligne) (id : Z)
  : ecriture :=
  {| e_id := id; e_numero := numero values;
     e_date_ecriture := stored_date E values; e_libelle := v_libelle values;
     e_montant_total := py_sum E (map debit lignes_ecriture);
     e_statut := "brouillon"; e_piece_jointe := None;
     e_utilisateur := Some utilisateur;
     e_date_creation := current_timestamp E;
     e_date_modification := current_timestamp E |}.

(** What a modification makes of a row of [ecritures]. *)
Definition modified_ecriture (E : env) (values : form_values)
    (lignes_ecriture : list ligne) (id : Z) (r : ecriture) : ecriture :=
  if bool_decide (e_id r = id) then
    {| e_id := e_id r; e_numero := numero values;
       e_date_ecriture := stored_date E values; e_libelle := v_libelle values;
       e_montant_total := py_sum E (map debit lignes_ecriture);
       e_statut := e_statut r; e_piece_jointe := e_piece_jointe r;
       e_utilisateur := e_utilisateur r;
       e_date_creation := e_date_creation r;
       e_date_modification := current_timestamp E |}
  else r.

(** The rows of [lignes_ecriture] the loop inserts for the lines of the
    form, the first of them with the rowid [first]. *)
Definition stored_lignes (ecriture_id first : Z)
    (lignes_ecriture : list ligne) : list ligne_ecriture :=
  imap (fun k l =>
          {| l_id := first + Z.of_nat k; l_ecriture_id := ecriture_id;
             l_compte_id := compte_id l; l_libelle := libelle l;
             l_debit := stored_real (debit l);
             l_credit := stored_real (credit l) |})
       lignes_ecriture.

(** ** update_lignes_display: the totals and the colour of the difference *)

(** The two totals, accumulated line after line from the integer 0. *)
Definition display_totals (lignes_ecriture : list ligne) : float * float :=
  fold_left
    (fun totals ligne =>
       (totals.1 + debit ligne, totals.2 + credit ligne)%float)
    lignes_ecriture (0, 0)%float.

(** ['green' if abs(difference) < 0.01 else 'red']. *)
Definition difference_color (lignes_ecriture : list ligne) : string :=
  let '(total_debits, total_credits) := display_totals lignes_ecriture in
  let difference := (total_debits - total_credits)%float in
  if PrimFloat.ltb (PrimFloat.abs difference) 0.01%float
  then "green" else "red".

(** ** show_ligne_ecriture_form: the 'Enregistrer' action *)

Section LigneForm.

(** Python's [float] on a [str]: [None] when it raises [ValueError]. *)
Variable float_of_string : string -> option float.

(** [x or '0'] on strings. *)
Definition or_zero (s : string) : string := if Py.truthy s then s else "0".

(** One pass through the branch: the line returned ([break]) or the error
    shown ([continue]).  [compte_map] is the dictionary from the names of
    the combo to the ids of the accounts. *)
Definition on_ligne_enregistrer (compte_map : gmap string Z)
    (v_compte v_libelle v_debit v_credit : string) : string + ligne :=
  if negb (Py.truthy v_compte) || negb (Py.truthy v_libelle) then
    inl "Veuillez sélectionner un compte et saisir un libellé."
  else
    (* Validation des montants *)
    let '(debit_valid, debit_lu) :=
      ValidationManager.validate_amount float_of_string (or_zero v_debit) in
    let '(credit_valid, credit_lu) :=
      ValidationManager.validate_amount float_of_string (or_zero v_credit) in
    if negb debit_valid || negb credit_valid then inl "Montants invalides."
    else if PrimFloat.ltb 0 debit_lu && PrimFloat.ltb 0 credit_lu then
      inl "Une ligne ne peut pas avoir à la fois un débit et un crédit."
    else if PrimFloat.eqb debit_lu 0 && PrimFloat.eqb credit_lu 0 then
      inl "Veuillez saisir un montant en débit ou en crédit."
    else
      match compte_map !! v_compte with
      | Some id =>
          if (id =? 0)%Z then inl "Compte invalide."
          else inr {| compte_id := id; compte_nom := v_compte;
                      libelle := v_libelle; debit := debit_lu;
                      credit := credit_lu |}
      | None => inl "Compte invalide."
      end.

End LigneForm.

(** A reader of amounts for the examples: it knows three texts. *)
Definition lecteur (s : string) : option float :=
  if String.eqb s "nan" then Some PrimFloat.nan
  else if String.eqb s "0" then Some 0%float
  else if String.eqb s "12.5" then Some 12.5%float
  else None.

Definition comptes_du_combo : gmap string Z :=
  {[ "512000 - Banque" := 1%Z; "706000 - Prestations" := 2%Z ]}.

(** ** Rowids *)

Lemma foldr_max_snoc (a x : Z) (l : list Z) :
  foldr Z.max a (l ++ [x]) = Z.max x (foldr Z.max a l).
Proof. induction l as [|y l IH]; cbn; [done|]. rewrite IH. lia. Qed.

Lemma foldr_max_ge (a : Z) (l : list Z) : (a <= foldr Z.max a l)%Z.
Proof. induction l as [|y l IH]; cbn; lia. Qed.

Lemma foldr_max_base (a b : Z) (l : list Z) :
  (a <= b)%Z -> foldr Z.max b l = Z.max b (foldr Z.max a l).
Proof. intros Hab. induction l as [|y l IH]; cbn; [lia|]. rewrite IH. lia. Qed.

Lemma next_rowid_insert_row {row} (id : row -> Z) (mk : Z -> row)
    (t : table row) :
  (forall n, id (mk n) = n) ->
  next_rowid id (insert_row id mk t).1 = (next_rowid id t + 1)%Z.
Proof.
  intros Hid. unfold insert_row, next_rowid. cbn.
  rewrite map_app. cbn [map]. rewrite foldr_max_snoc, Hid.
  pose proof (foldr_max_ge (seq t) (map id (rows t))) as Hge.
  rewrite (foldr_max_base (seq t)
             (foldr Z.max (seq t) (map id (rows t)) + 1)) by lia.
  lia.
Qed.

Lemma foldr_max_le (a : Z) (l : list Z) x :
  x ∈ l -> (x <= foldr Z.max a l)%Z.
Proof.
  induction l as [|y l IH]; cbn; [by intros ?%elem_of_nil|].
  intros [->|Hx]%elem_of_cons; [lia|]. specialize (IH Hx). lia.
Qed.

(** The rowid of an insertion is above every rowid of the table. *)
Lemma next_rowid_fresh {row} (id : row -> Z) (t : table row) r :
  r ∈ rows t -> (id r < next_rowid id t)%Z.
Proof.
  intros Hr. unfold next_rowid.
  assert (id r ∈ map id (rows t)) as Hin
    by (apply list_elem_of_fmap; by exists r).
  pose proof (foldr_max_le (seq t) (map id (rows t)) (id r) Hin). lia.
Qed.

(** ** The statements, one by one *)

Lemma run_update_ecriture E values montant id db :
  run (current_timestamp E) (literal E)
    (update_ecriture_statement values montant id) db
  = match update_ecriture (current_timestamp E) (numero values)
            (stored_date E values) (v_libelle values) (stored_real montant)
            id db with
    | inl e => inl e
    | inr db => inr (db, None)
    end.
Proof.
  unfold update_ecriture_statement, bind_float, stored_real.
  destruct (PrimFloat.is_nan montant); reflexivity.
Qed.

Lemma run_delete_lignes now lit id db :
  run now lit (delete_lignes_statement id) db
  = inr (delete_lignes id db, None).
Proof. reflexivity. Qed.

Lemma run_insert_ecriture E values montant user db :
  run (current_timestamp E) (literal E)
    (insert_ecriture_statement values montant user) db
  = match insert_ecriture (current_timestamp E) (numero values)
            (stored_date E values) (v_libelle values) (stored_real montant)
            user db with
    | inl e => inl e
    | inr (db, id) => inr (db, Some id)
    end.
Proof.
  unfold insert_ecriture_statement, bind_float, stored_real.
  destruct (PrimFloat.is_nan montant); reflexivity.
Qed.

Lemma run_insert_ligne now lit eid l db :
  run now lit (insert_ligne_statement eid l) db
  = inr ((insert_ligne eid (compte_id l) (libelle l) (stored_real (debit l))
            (stored_real (credit l)) db).1,
         Some (next_rowid l_id (lignes_ecriture db))).
Proof.
  unfold insert_ligne_statement, bind_float, stored_real.
  destruct (PrimFloat.is_nan (debit l)), (PrimFloat.is_nan (credit l));
    reflexivity.
Qed.

Lemma execute_ok E q c db rowid :
  fault E (executed c) = None ->
  run (current_timestamp E) (literal E) q (work c) = inr (db, rowid) ->
  exists c', execute E q c = inr c' /\ work c' = db.
Proof.
  unfold execute.
  assert (work (if is_dml (text q) then begin c else c) = work c /\
          executed (if is_dml (text q) then begin c else c) = executed c)
    as (-> & ->) by (by destruct (is_dml (text q))).
  intros -> ->. eexists. split; [done|]. apply work_write.
Qed.

Lemma stored_lignes_cons eid first l lignes :
  stored_lignes eid first (l :: lignes)
  = {| l_id := first; l_ecriture_id := eid; l_compte_id := compte_id l;
       l_libelle := libelle l; l_debit := stored_real (debit l);
       l_credit := stored_real (credit l) |}
    :: stored_lignes eid (first + 1) lignes.
Proof.
  unfold stored_lignes. rewrite imap_cons. f_equal.
  - f_equal. cbn. lia.
  - apply imap_ext. intros k x _. cbn. f_equal. lia.
Qed.

Lemma work_insert_ligne eid l db :
  let db' := (insert_ligne eid (compte_id l) (libelle l)
                (stored_real (debit l)) (stored_real (credit l)) db).1 in
  comptes db' = comptes db /\ ecritures db' = ecritures db /\
  other_tables db' = other_tables db /\
  rows (lignes_ecriture db')
  = rows (lignes_ecriture db)
    ++ [{| l_id := next_rowid l_id (lignes_ecriture db);
           l_ecriture_id := eid; l_compte_id := compte_id l;
           l_libelle := libelle l; l_debit := stored_real (debit l);
           l_credit := stored_real (credit l) |}] /\
  next_rowid l_id (lignes_ecriture db')
  = (next_rowid l_id (lignes_ecriture db) + 1)%Z.
Proof.
  cbn zeta. unfold insert_ligne.
  set (mk := fun id => {| l_id := id; l_ecriture_id := eid;
                          l_compte_id := compte_id l; l_libelle := libelle l;
                          l_debit := stored_real (debit l);
                          l_credit := stored_real (credit l) |}).
  pose proof (next_rowid_insert_row l_id mk (lignes_ecriture db)
                (fun n => eq_refl)) as Hnext.
  destruct (insert_row l_id mk (lignes_ecriture db)) as [t id] eqn:Hins.
  unfold insert_row in Hins. injection Hins as <- <-. cbn in *. done.
Qed.

(** The loop over the lines, when it goes through. *)
Lemma insert_lignes_inr E eid lignes : forall c c',
  insert_lignes E eid lignes c = inr c' ->
  comptes (work c') = comptes (work c) /\
  ecritures (work c') = ecritures (work c) /\
  other_tables (work c') = other_tables (work c) /\
  rows (lignes_ecriture (work c'))
  = rows (lignes_ecriture (work c))
    ++ stored_lignes eid (next_rowid l_id (lignes_ecriture (work c))) lignes.
Proof.
  induction lignes as [|l lignes IH]; intros c c' Hins; cbn in Hins.
  - injection Hins as <-. unfold stored_lignes. cbn. by rewrite app_nil_r.
  - destruct (execute E _ c) as [e|c1] eqn:Hexec; [done|]. cbn in Hins.
    apply execute_inr in Hexec as (_ & db1 & rowid & Hrun & Hwork & _).
    rewrite run_insert_ligne in Hrun.
    assert (work c1 = (insert_ligne eid (compte_id l) (libelle l)
                         (stored_real (debit l)) (stored_real (credit l))
                         (work c)).1) as Hw by congruence.
    destruct (work_insert_ligne eid l (work c))
      as (Hc & He & Ho & Hrows & Hnext).
    rewrite <- Hw in Hc, He, Ho, Hrows, Hnext.
    destruct (IH c1 c' Hins) as (Hc' & He' & Ho' & Hrows').
    rewrite Hc', He', Ho', Hrows', Hrows, Hnext, stored_lignes_cons.
    by rewrite <- app_assoc.
Qed.

Lemma insert_lignes_ok E eid lignes : forall c,
  (forall k, fault E k = None) ->
  exists c', insert_lignes E eid lignes c = inr c'.
Proof.
  induction lignes as [|l lignes IH]; intros c Hcalm; cbn; [eauto|].
  destruct (execute_ok E (insert_ligne_statement eid l) c _ _
              (Hcalm _) (run_insert_ligne _ _ eid l (work c)))
    as (c1 & -> & _).
  cbn. by apply IH.
Qed.

Lemma filter_nil_not {A} (P : A -> Prop) `{!forall x, Decision (P x)}
    (l : list A) :
  filter P l = [] <-> forall x, x ∈ l -> ~ P x.
Proof.
  split.
  - intros Hnil x Hx HP.
    assert (x ∈ filter P l) as Hin by (by apply list_elem_of_filter).
    rewrite Hnil in Hin. by apply elem_of_nil in Hin.
  - intros Hnone. destruct (filter P l) as [|y l'] eqn:Hf; [done|].
    assert (y ∈ filter P l) as Hin by (rewrite Hf; apply list_elem_of_here).
    apply list_elem_of_filter in Hin as [HP Hy]. by destruct (Hnone y).
Qed.

Lemma insert_ecriture_ok E values lignes user db :
  PrimFloat.is_nan (py_sum E (map debit lignes)) = false ->
  (forall r, r ∈ rows (ecritures db) -> e_numero r ≠ numero values) ->
  insert_ecriture (current_timestamp E) (numero values)
    (stored_date E values) (v_libelle values)
    (stored_real (py_sum E (map debit lignes))) user db
  = inr ({| comptes := comptes db;
            ecritures :=
              {| rows := rows (ecritures db)
                         ++ [added_ecriture E user values lignes
                               (next_rowid e_id (ecritures db))];
                 seq := next_rowid e_id (ecritures db) |};
            lignes_ecriture := lignes_ecriture db;
            other_tables := other_tables db |},
         next_rowid e_id (ecritures db)).
Proof.
  intros Hnan Hfresh. unfold insert_ecriture, stored_real.
  rewrite Hnan, (proj2 (filter_nil_not _ _) Hfresh). reflexivity.
Qed.

Lemma insert_ecriture_duplicate now numero date libelle montant user db r :
  r ∈ rows (ecritures db) -> e_numero r = numero ->
  insert_ecriture now numero date libelle (Some montant) user db
  = inl (IntegrityError UNIQUE_NUMERO).
Proof.
  intros Hr Hnumero. unfold insert_ecriture.
  destruct (filter _ _) as [|y l'] eqn:Hf; [|done].
  by destruct (proj1 (filter_nil_not _ _) Hf r Hr).
Qed.

Lemma update_ecriture_ok E values lignes id db :
  PrimFloat.is_nan (py_sum E (map debit lignes)) = false ->
  (forall r, r ∈ rows (ecritures db) -> e_id r ≠ id ->
             e_numero r ≠ numero values) ->
  update_ecriture (current_timestamp E) (numero values)
    (stored_date E values) (v_libelle values)
    (stored_real (py_sum E (map debit lignes))) id db
  = inr {| comptes := comptes db;
           ecritures :=
             {| rows := map (modified_ecriture E values lignes id)
                            (rows (ecritures db));
                seq := seq (ecritures db) |};
           lignes_ecriture := lignes_ecriture db;
           other_tables := other_tables db |}.
Proof.
  intros Hnan Hfree. unfold update_ecriture, stored_real. rewrite Hnan.
  rewrite (proj2 (filter_nil_not
                    (fun r => e_id r ≠ id /\ e_numero r = numero values) _)).
  - by destruct (filter _ _).
  - intros r Hr [Hid Hnum]. by apply (Hfree r).
Qed.

(** ** Additions *)

(** X13.  An addition that meets no failure, with a sum of debits that is
    not NaN, stores the entry of the form and its lines, in the order of
    the form, after the rows that were there: the entry under the next
    rowid, a draft of the current user whose [montant_total] is the sum of
    the debits and whose date is what the column, declared DATE, makes of
    the text of the form (an integer for a text of digits); each line with
    the id of the entry and the next rowids in turn, a NaN amount stored as
    NULL. *)
Theorem save_ecriture_addition E utilisateur db ecriture_id values lignes :
  id_truthy ecriture_id = None ->
  (forall k, fault E k = None) ->
  commit_fault E = None ->
  PrimFloat.is_nan (py_sum E (map debit lignes)) = false ->
  (forall r, r ∈ rows (ecritures db) -> e_numero r ≠ numero values) ->
  let r := save_ecriture E utilisateur db ecriture_id values lignes in
  let id := next_rowid e_id (ecritures db) in
  returned r = true /\
  rows (ecritures (stored r))
  = rows (ecritures db) ++ [added_ecriture E utilisateur values lignes id] /\
  rows (lignes_ecriture (stored r))
  = rows (lignes_ecriture db)
    ++ stored_lignes id (next_rowid l_id (lignes_ecriture db)) lignes.
Proof.
  intros Hid Hcalm Hcommit Hnan Hfresh. cbn zeta.
  assert (exists c',
            save_ecriture E utilisateur db ecriture_id values lignes
            = (true, work c', []) /\
            rows (ecritures (work c'))
            = rows (ecritures db)
              ++ [added_ecriture E utilisateur values lignes
                    (next_rowid e_id (ecritures db))] /\
            rows (lignes_ecriture (work c'))
            = rows (lignes_ecriture db)
              ++ stored_lignes (next_rowid e_id (ecritures db))
                   (next_rowid l_id (lignes_ecriture db)) lignes)
    as (c' & -> & Hecr & Hlig); [|done].
  unfold save_ecriture, save_ecriture_try, save_ecriture_statements.
  rewrite Hid, execute_dml by reflexivity.
  rewrite Hcalm, run_insert_ecriture.
  change (work (connect db)) with db.
  rewrite insert_ecriture_ok by done.
  cbn [bind lastrowid write].
  match goal with
  |- context [insert_lignes E ?eid lignes ?c1] =>
    destruct (insert_lignes_ok E eid lignes c1 Hcalm) as [c' Hc'];
    rewrite Hc';
    destruct (insert_lignes_inr E eid lignes c1 c' Hc')
      as (_ & Hecr & _ & Hlig)
  end.
  rewrite work_write in Hecr, Hlig.
  cbn [bind]. unfold commit. rewrite Hcommit.
  exists c'. by rewrite Hecr, Hlig.
Qed.

Lemma save_ecriture_addition_witness :
  let r := save_ecriture calme "admin" exemple_db None values_2 un_centime in
  returned r = true /\
  rows (ecritures (stored r))
  = rows (ecritures exemple_db)
    ++ [added_ecriture calme "admin" values_2 un_centime 2] /\
  rows (lignes_ecriture (stored r))
  = rows (lignes_ecriture exemple_db) ++ stored_lignes 2 3 un_centime.
Proof.
  apply (save_ecriture_addition calme "admin" exemple_db None values_2
           un_centime); try reflexivity.
  intros r Hr. cbn in Hr.
  apply list_elem_of_singleton in Hr as ->. discriminate.
Defined.

(** A date typed as digits is stored as an integer, and an amount read as
    NaN in the credit of a line is stored as NULL. *)
Example save_ecriture_stores_other_values :
  let values := {| numero := "2"; date_ecriture := "20240116";
                   v_libelle := "Ecart" |} in
  let lignes := [ {| compte_id := 1; compte_nom := "512000 - Banque";
                     libelle := "Ecart"; debit := 12.5;
                     credit := PrimFloat.nan |} ] in
  let r := save_ecriture calme "admin" exemple_db None values lignes in
  returned r = true /\
  map e_date_ecriture (rows (ecritures (stored r)))
  = [Text "2024-01-15"; Integer 20240116] /\
  map (fun l => (l_debit l, l_credit l)) (rows (lignes_ecriture (stored r)))
  = [(Some 100, Some 0); (Some 0, Some 100); (Some 12.5, None)]%float.
Proof. vm_compute. repeat split; reflexivity. Qed.

(** X14.  The number of an entry is taken once: an addition under a number
    that an entry of the journal has already returns [False], shows the
    error and stores nothing, whatever the lines.  The error shown, when
    the statement reaches SQLite, is that of the [UNIQUE] constraint,
    unless the sum of the debits is NaN: bound as NULL, it fails the
    [NOT NULL] constraint of [montant_total], which SQLite checks first. *)
Theorem save_ecriture_duplicate_numero E utilisateur db ecriture_id values
    lignes r0 :
  id_truthy ecriture_id = None ->
  r0 ∈ rows (ecritures db) ->
  e_numero r0 = numero values ->
  let r := save_ecriture E utilisateur db ecriture_id values lignes in
  returned r = false /\
  stored r = db /\
  exists msg,
    r.2 = [popup_error ("Erreur lors de la sauvegarde: " +:+ msg)] /\
    (fault E 0 = None ->
     msg = if PrimFloat.is_nan (py_sum E (map debit lignes))
           then NOT_NULL_MONTANT else UNIQUE_NUMERO).
Proof.
  intros Hid Hr0 Hnumero. cbn zeta.
  assert (exists msg,
            save_ecriture E utilisateur db ecriture_id values lignes
            = (false, db,
               [popup_error ("Erreur lors de la sauvegarde: " +:+ msg)]) /\
            (fault E 0 = None ->
             msg = if PrimFloat.is_nan (py_sum E (map debit lignes))
                   then NOT_NULL_MONTANT else UNIQUE_NUMERO))
    as (msg & -> & Hmsg); [|by repeat split; eauto].
  unfold save_ecriture, save_ecriture_try, save_ecriture_statements.
  rewrite Hid, execute_dml by reflexivity.
  change (executed (connect db)) with 0%nat.
  change (work (connect db)) with db.
  destruct (fault E 0) as [msg|]; cbn [bind].
  - by exists msg.
  - rewrite run_insert_ecriture. unfold stored_real.
    destruct (PrimFloat.is_nan (py_sum E (map debit lignes))).
    + by eexists.
    + rewrite (insert_ecriture_duplicate _ _ _ _ _ _ _ r0 Hr0 Hnumero).
      by eexists.
Qed.

Lemma save_ecriture_duplicate_numero_witness :
  let r := save_ecriture calme "admin" exemple_db None exemple_values
             exemple_lignes in
  returned r = false /\
  stored r = exemple_db /\
  exists msg,
    r.2 = [popup_error ("Erreur lors de la sauvegarde: " +:+ msg)] /\
    (fault calme 0 = None ->
     msg = if PrimFloat.is_nan (py_sum calme (map debit exemple_lignes))
           then NOT_NULL_MONTANT else UNIQUE_NUMERO).
Proof.
  apply (save_ecriture_duplicate_numero calme "admin" exemple_db None
           exemple_values exemple_lignes
           {| e_id := 1; e_numero := "1";
              e_date_ecriture := Text "2024-01-15"; e_libelle := "Vente";
              e_montant_total := 100; e_statut := "brouillon";
              e_piece_jointe := None; e_utilisateur := Some "admin";
              e_date_creation := "2024-01-15 09:00:00";
              e_date_modification := "2024-01-15 09:00:00" |}).
  - reflexivity.
  - apply list_elem_of_here.
  - reflexivity.
Defined.

(** A NaN in the debit of a line: the balance check lets the entry through
    and [save_ecriture] returns [False], on [NOT NULL], also under a number
    that is taken. *)
Example save_ecriture_nan_debit :
  let lignes := [ {| compte_id := 1; compte_nom := "512000 - Banque";
                     libelle := "Vente"; debit := PrimFloat.nan;
                     credit := 0 |} ] in
  (save_ecriture calme "admin" exemple_db None values_2 lignes).2
  = [popup_error ("Erreur lors de la sauvegarde: " +:+ NOT_NULL_MONTANT)] /\
  (save_ecriture calme "admin" exemple_db None exemple_values lignes).2
  = [popup_error ("Erreur lors de la sauvegarde: " +:+ NOT_NULL_MONTANT)] /\
  (save_ecriture calme "admin" exemple_db (Some 1%Z) exemple_values lignes).2
  = [popup_error ("Erreur lors de la sauvegarde: " +:+ NOT_NULL_MONTANT)].
Proof. vm_compute. repeat split; reflexivity. Qed.

(** ** Modifications *)

Lemma filter_all {A} (P : A -> Prop) `{!forall x, Decision (P x)}
    (l : list A) :
  Forall P l -> filter P l = l.
Proof.
  induction 1 as [|x l HP _ IH]; [done|].
  by rewrite filter_cons_True, IH.
Qed.

Lemma stored_lignes_ecriture_id eid lignes : forall first,
  Forall (fun l => l_ecriture_id l = eid) (stored_lignes eid first lignes).
Proof.
  induction lignes as [|l lignes IH]; intros first; [constructor|].
  rewrite stored_lignes_cons. by constructor.
Qed.

(** The rows a modification leaves in [lignes_ecriture], sorted out by
    entry. *)
Lemma replaced_lignes id (old : list ligne_ecriture) first lignes :
  let rows' := filter (fun l => l_ecriture_id l ≠ id) old
               ++ stored_lignes id first lignes in
  filter (fun l => l_ecriture_id l = id) rows' = stored_lignes id first lignes
  /\ filter (fun l => l_ecriture_id l ≠ id) rows'
     = filter (fun l => l_ecriture_id l ≠ id) old.
Proof.
  cbn zeta. rewrite !filter_app. split.
  - rewrite (proj2 (filter_nil_not _ (filter _ old))).
    + cbn. apply filter_all, stored_lignes_ecriture_id.
    + by intros l [Hne _]%list_elem_of_filter.
  - rewrite (proj2 (filter_nil_not _ (stored_lignes id first lignes))).
    + rewrite app_nil_r. apply filter_all, Forall_forall.
      by intros l [Hne _]%list_elem_of_filter.
    + intros l Hl Hne. apply Hne.
      by apply (proj1 (Forall_forall _ _)
                  (stored_lignes_ecriture_id id lignes first)).
Qed.

(** X15.  A modification that meets no failure, with a sum of debits that
    is not NaN, replaces the entry and its lines: the row of the entry
    takes the number, the label and the sum of the debits of the form, and
    for its date what the column makes of the text of the form, and keeps
    its status, its author and its date of creation; afterwards the lines
    of the entry are those of the form, in order, a NaN amount stored as
    NULL, and the lines of the other entries are the ones that were
    there. *)
Theorem save_ecriture_modification E utilisateur db id values lignes :
  id ≠ 0%Z ->
  (forall k, fault E k = None) ->
  commit_fault E = None ->
  PrimFloat.is_nan (py_sum E (map debit lignes)) = false ->
  (forall r, r ∈ rows (ecritures db) -> e_id r ≠ id ->
             e_numero r ≠ numero values) ->
  let r := save_ecriture E utilisateur db (Some id) values lignes in
  let first := next_rowid l_id (lignes_ecriture (delete_lignes id db)) in
  returned r = true /\
  rows (ecritures (stored r))
  = map (modified_ecriture E values lignes id) (rows (ecritures db)) /\
  filter (fun l => l_ecriture_id l = id) (rows (lignes_ecriture (stored r)))
  = stored_lignes id first lignes /\
  filter (fun l => l_ecriture_id l ≠ id) (rows (lignes_ecriture (stored r)))
  = filter (fun l => l_ecriture_id l ≠ id) (rows (lignes_ecriture db)).
Proof.
  intros Hid Hcalm Hcommit Hnan Hfree. cbn zeta.
  assert (exists c',
            save_ecriture E utilisateur db (Some id) values lignes
            = (true, work c', []) /\
            rows (ecritures (work c'))
            = map (modified_ecriture E values lignes id)
                  (rows (ecritures db)) /\
            rows (lignes_ecriture (work c'))
            = filter (fun l => l_ecriture_id l ≠ id)
                     (rows (lignes_ecriture db))
              ++ stored_lignes id
                   (next_rowid l_id (lignes_ecriture (delete_lignes id db)))
                   lignes)
    as (c' & -> & Hecr & Hlig).
  { unfold save_ecriture, save_ecriture_try, save_ecriture_statements,
      id_truthy.
    rewrite (proj2 (Z.eqb_neq _ _) Hid).
    rewrite execute_dml by reflexivity.
    rewrite Hcalm, run_update_ecriture.
    change (work (connect db)) with db.
    rewrite update_ecriture_ok by done.
    cbn [bind].
    rewrite execute_dml by reflexivity.
    rewrite Hcalm, run_delete_lignes, work_write. cbn [bind].
    match goal with
    |- context [insert_lignes E id lignes ?c1] =>
      destruct (insert_lignes_ok E id lignes c1 Hcalm) as [c' Hc'];
      rewrite Hc';
      destruct (insert_lignes_inr E id lignes c1 c' Hc')
        as (_ & Hecr & _ & Hlig)
    end.
    rewrite work_write in Hecr, Hlig.
    cbn [bind]. unfold commit. rewrite Hcommit.
    exists c'. by rewrite Hecr, Hlig. }
  unfold returned, stored. cbn [fst snd]. rewrite Hecr, Hlig.
  split; [done|]. split; [done|]. apply replaced_lignes.
Qed.

Lemma save_ecriture_modification_witness :
  let r := save_ecriture calme "admin" exemple_db (Some 1%Z) exemple_values
             exemple_lignes in
  returned r = true /\
  rows (ecritures (stored r))
  = map (modified_ecriture calme exemple_values exemple_lignes 1)
        (rows (ecritures exemple_db)) /\
  filter (fun l => l_ecriture_id l = 1%Z) (rows (lignes_ecriture (stored r)))
  = stored_lignes 1 3 exemple_lignes /\
  filter (fun l => l_ecriture_id l ≠ 1%Z) (rows (lignes_ecriture (stored r)))
  = filter (fun l => l_ecriture_id l ≠ 1%Z)
           (rows (lignes_ecriture exemple_db)).
Proof.
  apply (save_ecriture_modification calme "admin" exemple_db 1 exemple_values
           exemple_lignes); try done.
  intros r Hr. cbn in Hr.
  apply list_elem_of_singleton in Hr as ->. done.
Defined.

(** ** Floats: comparisons and NaN *)

Lemma SFcompare_antisym x y :
  SpecFloat.SFcompare y x = CompOpp <$> SpecFloat.SFcompare x y.
Proof.
  destruct x as [sx|sx| |sx mx ex], y as [sy|sy| |sy my ey]; cbn;
    try destruct sx; try destruct sy; try done.
  - rewrite (Z.compare_antisym ey ex).
    destruct (ey ?= ex)%Z; cbn; try done.
    f_equal. rewrite CompOpp_involutive.
    by rewrite (Pos.compare_cont_antisym my mx Eq).
  - rewrite (Z.compare_antisym ey ex).
    destruct (ey ?= ex)%Z; cbn; try done.
    f_equal. by rewrite (Pos.compare_cont_antisym mx my Eq).
Qed.

Lemma ltb_asym (x y : float) :
  PrimFloat.ltb x y = true -> PrimFloat.ltb y x = false.
Proof.
  rewrite !FloatAxioms.ltb_spec. unfold SpecFloat.SFltb.
  rewrite (SFcompare_antisym (FloatOps.Prim2SF x) (FloatOps.Prim2SF y)).
  by destruct (SpecFloat.SFcompare _ _) as [[]|].
Qed.

Lemma is_nan_spec (x : float) :
  PrimFloat.is_nan x = true -> FloatOps.Prim2SF x = SpecFloat.S754_nan.
Proof.
  unfold PrimFloat.is_nan. rewrite FloatAxioms.eqb_spec.
  unfold SpecFloat.SFeqb.
  destruct (FloatOps.Prim2SF x) as [s|s| |s m e]; cbn; try done.
  - by destruct s.
  - rewrite Z.compare_refl.
    assert (Pos.compare_cont Eq m m = Eq) as Hm by apply Pos.compare_refl.
    destruct s; cbn; rewrite ?Hm; done.
Qed.

Lemma is_nan_of_spec (x : float) :
  FloatOps.Prim2SF x = SpecFloat.S754_nan -> PrimFloat.is_nan x = true.
Proof.
  intros Hx. unfold PrimFloat.is_nan. by rewrite FloatAxioms.eqb_spec, Hx.
Qed.

Lemma add_nan (x y : float) :
  FloatOps.Prim2SF x = SpecFloat.S754_nan
  \/ FloatOps.Prim2SF y = SpecFloat.S754_nan ->
  FloatOps.Prim2SF (x + y) = SpecFloat.S754_nan.
Proof.
  rewrite FloatAxioms.add_spec. unfold FloatAxioms.SF64add.
  intros [-> | ->]; [done|]. by destruct (FloatOps.Prim2SF x).
Qed.

Lemma sub_nan (x y : float) :
  FloatOps.Prim2SF x = SpecFloat.S754_nan
  \/ FloatOps.Prim2SF y = SpecFloat.S754_nan ->
  FloatOps.Prim2SF (x - y) = SpecFloat.S754_nan.
Proof.
  rewrite FloatAxioms.sub_spec. unfold FloatAxioms.SF64sub.
  intros [-> | ->]; [done|]. by destruct (FloatOps.Prim2SF x).
Qed.

Lemma ltb_nan_l (x y : float) :
  FloatOps.Prim2SF x = SpecFloat.S754_nan -> PrimFloat.ltb x y = false.
Proof. intros Hx. by rewrite FloatAxioms.ltb_spec, Hx. Qed.

Lemma ltb_nan_r (x y : float) :
  FloatOps.Prim2SF y = SpecFloat.S754_nan -> PrimFloat.ltb x y = false.
Proof.
  intros Hy. rewrite FloatAxioms.ltb_spec, Hy.
  unfold SpecFloat.SFltb. by destruct (FloatOps.Prim2SF x).
Qed.

Lemma eqb_nan_l (x y : float) :
  FloatOps.Prim2SF x = SpecFloat.S754_nan -> PrimFloat.eqb x y = false.
Proof. intros Hx. by rewrite FloatAxioms.eqb_spec, Hx. Qed.

Lemma abs_nan (x : float) :
  FloatOps.Prim2SF x = SpecFloat.S754_nan ->
  FloatOps.Prim2SF (PrimFloat.abs x) = SpecFloat.S754_nan.
Proof. intros Hx. by rewrite FloatAxioms.abs_spec, Hx. Qed.

Lemma fold_left_add_nan (xs : list float) : forall acc,
  FloatOps.Prim2SF acc = SpecFloat.S754_nan
  \/ Exists (fun x => FloatOps.Prim2SF x = SpecFloat.S754_nan) xs ->
  FloatOps.Prim2SF (fold_left PrimFloat.add xs acc) = SpecFloat.S754_nan.
Proof.
  induction xs as [|x xs IH]; intros acc [Hacc|Hxs]; cbn.
  - done.
  - by apply Exists_nil in Hxs.
  - apply IH. left. apply add_nan. by left.
  - apply IH. apply Exists_cons in Hxs as [Hx|Hxs]; [|by right].
    left. apply add_nan. by right.
Qed.

(** The compensated loop: once the running sum is NaN it stays NaN. *)
Lemma fold_left_neumaier_nan (xs : list float) : forall acc,
  FloatOps.Prim2SF acc.1 = SpecFloat.S754_nan
  \/ Exists (fun x => FloatOps.Prim2SF x = SpecFloat.S754_nan) xs ->
  FloatOps.Prim2SF (fold_left Py.neumaier xs acc).1 = SpecFloat.S754_nan.
Proof.
  induction xs as [|x xs IH]; intros [f c] [Hacc|Hxs]; cbn [fold_left].
  - done.
  - by apply Exists_nil in Hxs.
  - apply IH. left. cbn. apply add_nan. by left.
  - apply IH. apply Exists_cons in Hxs as [Hx|Hxs]; [|by right].
    left. cbn. apply add_nan. by right.
Qed.

Lemma compensate_nan (acc : float * float) :
  FloatOps.Prim2SF acc.1 = SpecFloat.S754_nan ->
  FloatOps.Prim2SF (Py.compensate acc) = SpecFloat.S754_nan.
Proof.
  destruct acc as [f c]. cbn. intros Hf.
  destruct (_ && _); [|done]. apply add_nan. by left.
Qed.

(** [sum] of a list with a NaN is NaN, however it is computed. *)
Lemma sum_nan how (xs : list float) :
  Exists (fun x => FloatOps.Prim2SF x = SpecFloat.S754_nan) xs ->
  FloatOps.Prim2SF (Py.sum how xs) = SpecFloat.S754_nan.
Proof.
  destruct xs as [|x xs]; [by intros ?%Exists_nil|].
  intros Hxs.
  assert (FloatOps.Prim2SF (0 + x)%float = SpecFloat.S754_nan
          \/ Exists (fun x => FloatOps.Prim2SF x = SpecFloat.S754_nan) xs)
    as Hstart.
  { apply Exists_cons in Hxs as [Hx|Hxs]; [|by right].
    left. apply add_nan. by right. }
  destruct how; cbn [Py.sum].
  - by apply fold_left_add_nan.
  - by apply compensate_nan, fold_left_neumaier_nan.
Qed.

Lemma py_sum_nan E {A} (f : A -> float) (l : list A) x :
  x ∈ l -> PrimFloat.is_nan (f x) = true ->
  FloatOps.Prim2SF (py_sum E (map f l)) = SpecFloat.S754_nan.
Proof.
  intros Hx Hnan. apply sum_nan.
  apply Exists_exists. exists (f x). split; [|by apply is_nan_spec].
  apply list_elem_of_fmap. by exists x.
Qed.

Lemma py_sum_not_nan E {A} (f : A -> float) (l : list A) x :
  PrimFloat.is_nan (py_sum E (map f l)) = false ->
  x ∈ l -> PrimFloat.is_nan (f x) = false.
Proof.
  intros Hsum Hx. destruct (PrimFloat.is_nan (f x)) eqn:Hnan; [|done].
  by rewrite (is_nan_of_spec _ (py_sum_nan E f l x Hx Hnan)) in Hsum.
Qed.

(** ** What a modification has stored when it returns [True] *)

Lemma modified_ecriture_others E values lignes id (l : list ecriture) :
  filter (fun r => e_id r = id) l = [] ->
  map (modified_ecriture E values lignes id) l = l.
Proof.
  intros Hnone. induction l as [|r l IH]; [done|].
  rewrite filter_cons in Hnone.
  destruct (decide (e_id r = id)) as [|Hne]; [done|].
  cbn. rewrite IH by done. unfold modified_ecriture.
  by rewrite bool_decide_eq_false_2.
Qed.

Lemma update_ecriture_inr E values lignes id db db' :
  update_ecriture (current_timestamp E) (numero values)
    (stored_date E values) (v_libelle values)
    (stored_real (py_sum E (map debit lignes))) id db = inr db' ->
  rows (ecritures db')
  = map (modified_ecriture E values lignes id) (rows (ecritures db)) /\
  lignes_ecriture db' = lignes_ecriture db /\
  (forall r, r ∈ rows (ecritures db) -> e_id r = id ->
             PrimFloat.is_nan (py_sum E (map debit lignes)) = false).
Proof.
  unfold update_ecriture, stored_real.
  destruct (filter (fun r => e_id r = id) (rows (ecritures db)))
    as [|r0 hit] eqn:Hhit.
  - assert (forall r, r ∈ rows (ecritures db) -> e_id r = id -> False)
      as Hnone
      by (intros r Hr Hr'; by apply (proj1 (filter_nil_not _ _) Hhit r)).
    destruct (PrimFloat.is_nan _).
    + intros [= <-]. rewrite modified_ecriture_others by done.
      split; [done|]. split; [done|]. intros r Hr Hr'. by destruct (Hnone r).
    + intros [= <-]. cbn. by repeat split.
  - destruct (PrimFloat.is_nan _); [done|].
    destruct (filter (fun r => e_id r ≠ id /\ _) _); [|done].
    intros [= <-]. cbn. by repeat split.
Qed.

Lemma stored_lignes_amounts eid lignes : forall first,
  map l_debit (stored_lignes eid first lignes)
  = map (fun l => stored_real (debit l)) lignes /\
  map l_credit (stored_lignes eid first lignes)
  = map (fun l => stored_real (credit l)) lignes.
Proof.
  induction lignes as [|l lignes IH]; intros first; [done|].
  rewrite stored_lignes_cons. cbn. destruct (IH (first + 1)%Z) as [-> ->].
  done.
Qed.

Lemma save_ecriture_modification_true E utilisateur db id values lignes :
  id ≠ 0%Z ->
  returned (save_ecriture E utilisateur db (Some id) values lignes) = true ->
  let db' := stored (save_ecriture E utilisateur db (Some id) values lignes) in
  rows (ecritures db')
  = map (modified_ecriture E values lignes id) (rows (ecritures db)) /\
  rows (lignes_ecriture db')
  = filter (fun l => l_ecriture_id l ≠ id) (rows (lignes_ecriture db))
    ++ stored_lignes id
         (next_rowid l_id (lignes_ecriture (delete_lignes id db))) lignes /\
  (forall r, r ∈ rows (ecritures db) -> e_id r = id ->
             PrimFloat.is_nan (py_sum E (map debit lignes)) = false).
Proof.
  intros Hid Htrue. cbn zeta.
  destruct (save_ecriture_cases E utilisateur db (Some id) values lignes)
    as [(c & Hrun & _ & Heq)|(e & conn & _ & _ & Heq)];
    rewrite Heq in Htrue |- *; [|done].
  unfold stored. cbn [fst snd]. clear Heq Htrue.
  unfold save_ecriture_statements, id_truthy in Hrun.
  rewrite (proj2 (Z.eqb_neq _ _) Hid) in Hrun.
  destruct (execute E _ (connect db)) as [|c1] eqn:H1; [done|].
  cbn [bind] in Hrun.
  destruct (execute E _ c1) as [|c2] eqn:H2; [done|]. cbn [bind] in Hrun.
  apply execute_inr in H1 as (_ & db1 & rowid1 & Hrun1 & Hw1 & _).
  apply execute_inr in H2 as (_ & db2 & rowid2 & Hrun2 & Hw2 & _).
  rewrite run_update_ecriture in Hrun1.
  change (work (connect db)) with db in Hrun1.
  destruct (update_ecriture _ _ _ _ _ _ db) as [|db1'] eqn:Hupd; [done|].
  apply update_ecriture_inr in Hupd as (Hecr1 & Hlig1 & Hnan).
  assert (db1' = db1) as -> by congruence.
  rewrite run_delete_lignes in Hrun2.
  assert (db2 = delete_lignes id (work c1)) as -> by congruence.
  destruct (insert_lignes_inr E id lignes c2 c Hrun) as (_ & Hecr & _ & Hlig).
  rewrite Hecr, Hlig, Hw2, Hw1.
  cbn [delete_lignes ecritures lignes_ecriture rows].
  unfold next_rowid. cbn [rows seq]. by rewrite Hecr1, Hlig1.
Qed.

(** X16.  Whenever a modification returns [True], whatever it met on the
    way, the lines stored for the entry carry the debits and the credits of
    the lines of the form, in order, a NaN being stored as NULL.  When the
    journal has the entry, none of the debits is NaN, the debits stored are
    those of the form, and the [montant_total] of the entry is their
    sum. *)
Theorem save_ecriture_montant_total E utilisateur db id values lignes :
  id ≠ 0%Z ->
  returned (save_ecriture E utilisateur db (Some id) values lignes) = true ->
  let db' := stored (save_ecriture E utilisateur db (Some id) values lignes) in
  let stored_for_id :=
    filter (fun l => l_ecriture_id l = id) (rows (lignes_ecriture db')) in
  map l_debit stored_for_id = map (fun l => stored_real (debit l)) lignes /\
  map l_credit stored_for_id = map (fun l => stored_real (credit l)) lignes /\
  forall r, r ∈ rows (ecritures db') -> e_id r = id ->
            map l_debit stored_for_id = map (fun l => Some (debit l)) lignes /\
            e_montant_total r = py_sum E (map debit lignes).
Proof.
  intros Hid Htrue. cbn zeta.
  destruct (save_ecriture_modification_true E utilisateur db id values lignes
              Hid Htrue) as (Hecr & Hlig & Hnan).
  cbn zeta in Hecr, Hlig. rewrite Hecr, Hlig.
  rewrite (proj1 (replaced_lignes id _ _ lignes)).
  destruct (stored_lignes_amounts id lignes
              (next_rowid l_id (lignes_ecriture (delete_lignes id db))))
    as [-> ->].
  split; [done|]. split; [done|].
  intros r [r0 [-> Hr0]]%list_elem_of_fmap Hr. split.
  - assert (e_id r0 = id) as Hr0id.
    { revert Hr. unfold modified_ecriture. by case_bool_decide. }
    specialize (Hnan r0 Hr0 Hr0id).
    apply map_ext_in. intros l Hl%list_elem_of_In. unfold stored_real.
    by rewrite (py_sum_not_nan E debit lignes l Hnan Hl).
  - revert Hr. unfold modified_ecriture. case_bool_decide; [done|].
    by intros ?.
Qed.

Lemma save_ecriture_montant_total_witness :
  let db' := stored (save_ecriture calme "admin" exemple_db (Some 1%Z)
                       exemple_values exemple_lignes) in
  let stored_for_id :=
    filter (fun l => l_ecriture_id l = 1%Z) (rows (lignes_ecriture db')) in
  map l_debit stored_for_id
  = map (fun l => stored_real (debit l)) exemple_lignes /\
  map l_credit stored_for_id
  = map (fun l => stored_real (credit l)) exemple_lignes /\
  forall r, r ∈ rows (ecritures db') -> e_id r = 1%Z ->
            map l_debit stored_for_id
            = map (fun l => Some (debit l)) exemple_lignes /\
            e_montant_total r = py_sum calme (map debit exemple_lignes).
Proof.
  apply (save_ecriture_montant_total calme "admin" exemple_db 1
           exemple_values exemple_lignes); [done|].
  vm_compute. reflexivity.
Defined.

(** A NaN in the credit of a line of a modification: the call returns
    [True] and the credit stored is NULL. *)
Example save_ecriture_nan_credit :
  let lignes := [ {| compte_id := 1; compte_nom := "512000 - Banque";
                     libelle := "Vente"; debit := 120;
                     credit := PrimFloat.nan |} ] in
  let r := save_ecriture calme "admin" exemple_db (Some 1%Z) exemple_values
             lignes in
  returned r = true /\
  map (fun l => (l_debit l, l_credit l)) (rows (lignes_ecriture (stored r)))
  = [(Some 120, None)]%float.
Proof. vm_compute. repeat split; reflexivity. Qed.

(** ** The colour of the difference and the balance check *)

(** The totals of the display are the sums of the check, when [sum] adds
    from left to right. *)
Lemma sum_left_to_right xs :
  Py.sum Py.left_to_right xs = fold_left PrimFloat.add xs 0%float.
Proof. by destruct xs. Qed.

Lemma display_totals_sums E lignes :
  summation E = Py.left_to_right ->
  display_totals lignes = (py_sum E (map debit lignes),
                           py_sum E (map credit lignes)).
Proof.
  intros Hhow. unfold py_sum. rewrite Hhow, !sum_left_to_right.
  unfold display_totals. generalize 0%float at 1 3.
  generalize 0%float.
  induction lignes as [|l lignes IH]; intros a b; cbn; [done|]. apply IH.
Qed.

(** Ten debits of 0.1 against one credit of 0.99. *)
Definition dix_dixiemes : list ligne :=
  repeat {| compte_id := 1; compte_nom := "512000 - Banque";
            libelle := "Vente"; debit := 0.1; credit := 0 |} 10
  ++ [ {| compte_id := 2; compte_nom := "706000 - Prestations";
          libelle := "Vente"; debit := 0; credit := 0.99 |} ].

(** X17.  With a [sum] that adds from left to right, as the interpreter
    did up to CPython 3.11, what the form shows in green 'Enregistrer'
    accepts: whenever [update_lignes_display], which adds line after line,
    colours the difference green, the balance check finds the entry
    balanced.  (Not the other way round: a difference of exactly 0.01 is
    shown in red and accepted.  And not with the compensated [sum] of
    CPython 3.12: see [green_and_rejected].) *)
Theorem green_is_balanced E lignes :
  summation E = Py.left_to_right ->
  difference_color lignes = "green" -> unbalanced E lignes = false.
Proof.
  intros Hhow. unfold difference_color, unbalanced.
  rewrite (display_totals_sums E) by done.
  destruct (PrimFloat.ltb (PrimFloat.abs _) _) eqn:Hlt; [|done].
  intros _. by apply ltb_asym.
Qed.

Lemma green_is_balanced_witness :
  unbalanced
    {| current_timestamp := "2024-01-16 10:00:00";
       fault := fun _ => None; commit_fault := None;
       summation := Py.left_to_right; literal := integer_literal |}
    dix_dixiemes = false.
Proof.
  apply green_is_balanced; [reflexivity|]. vm_compute. reflexivity.
Defined.

(** With the compensated [sum] the two disagree: the display adds ten
    times 0.1 to 0.9999999999999999, less than 0.01 away from 0.99, and
    shows green; [sum] gives 1.0, more than 0.01 away, and 'Enregistrer'
    rejects the entry. *)
Example green_and_rejected :
  summation calme = Py.compensated /\
  difference_color dix_dixiemes = "green" /\
  unbalanced calme dix_dixiemes = true /\
  calls_save (on_enregistrer calme "admin" exemple_db None values_2
                dix_dixiemes) = false.
Proof. vm_compute. repeat split; reflexivity. Qed.

Example red_and_accepted :
  difference_color un_centime = "red" /\ unbalanced calme un_centime = false.
Proof. vm_compute. split; reflexivity. Qed.

(** X18.  The balance check never rejects NaN: when an amount of some line
    is NaN, [abs(total_debits - total_credits) > 0.01] is false, and
    'Enregistrer' calls [save_ecriture] as soon as the three fields are
    filled. *)
Theorem nan_is_balanced E utilisateur db ecriture_id values lignes l :
  l ∈ lignes ->
  PrimFloat.is_nan (debit l) = true \/ PrimFloat.is_nan (credit l) = true ->
  unbalanced E lignes = false /\
  calls_save (on_enregistrer E utilisateur db ecriture_id values lignes)
  = Py.truthy (numero values) && Py.truthy (date_ecriture values)
    && Py.truthy (v_libelle values).
Proof.
  intros Hl Hnan.
  assert (unbalanced E lignes = false) as Hbal.
  { unfold unbalanced. apply ltb_nan_r, abs_nan, sub_nan.
    destruct Hnan as [Hd|Hc]; [left|right]; by eapply py_sum_nan. }
  split; [done|].
  rewrite calls_save_accepted. unfold accepted. rewrite Hbal.
  destruct lignes; [by apply elem_of_nil in Hl|].
  cbn. by rewrite !andb_true_r.
Qed.

Lemma nan_is_balanced_witness :
  let lignes := [ {| compte_id := 1; compte_nom := "512000 - Banque";
                     libelle := "Vente"; debit := PrimFloat.nan;
                     credit := 0 |} ] in
  unbalanced calme lignes = false /\
  calls_save (on_enregistrer calme "admin" exemple_db None values_2 lignes)
  = Py.truthy (numero values_2) && Py.truthy (date_ecriture values_2)
    && Py.truthy (v_libelle values_2).
Proof.
  intros lignes.
  apply (nan_is_balanced calme "admin" exemple_db None values_2 lignes
           {| compte_id := 1; compte_nom := "512000 - Banque";
              libelle := "Vente"; debit := PrimFloat.nan; credit := 0 |}).
  - apply list_elem_of_here.
  - left. vm_compute. reflexivity.
Defined.

(** X19.  The form of a line lets NaN through: when [float] reads the text
    of the debit as NaN, neither of the two tests on the amounts holds,
    whatever the credit, and the line is returned with its NaN. *)
Theorem ligne_form_accepts_nan float_of_string compte_map v_compte v_libelle
    v_debit v_credit x y id :
  Py.truthy v_compte = true ->
  Py.truthy v_libelle = true ->
  float_of_string (ValidationManager.replace "," "." (or_zero v_debit))
    = Some x ->
  PrimFloat.is_nan x = true ->
  float_of_string (ValidationManager.replace "," "." (or_zero v_credit))
    = Some y ->
  compte_map !! v_compte = Some id ->
  id ≠ 0%Z ->
  on_ligne_enregistrer float_of_string compte_map v_compte v_libelle v_debit
    v_credit
  = inr {| compte_id := id; compte_nom := v_compte; libelle := v_libelle;
           debit := x; credit := y |}.
Proof.
  intros Hcompte Hlibelle Hdebit Hnan%is_nan_spec Hcredit Hmap Hid.
  unfold on_ligne_enregistrer, ValidationManager.validate_amount.
  rewrite Hcompte, Hlibelle, Hdebit, Hcredit, Hmap. cbn [negb orb].
  rewrite (ltb_nan_r 0 x Hnan), (eqb_nan_l x 0 Hnan). cbn [andb].
  by rewrite (proj2 (Z.eqb_neq _ _) Hid).
Qed.

Lemma ligne_form_accepts_nan_witness :
  on_ligne_enregistrer lecteur comptes_du_combo "512000 - Banque" "Vente"
    "nan" "12,5"
  = inr {| compte_id := 1; compte_nom := "512000 - Banque";
           libelle := "Vente"; debit := PrimFloat.nan; credit := 12.5 |}.
Proof.
  apply (ligne_form_accepts_nan lecteur comptes_du_combo "512000 - Banque"
           "Vente" "nan" "12,5" PrimFloat.nan 12.5 1);
    try reflexivity.
  discriminate.
Defined.

End Accounting.

(* ===================================================================== *)
(** * BackupManager (demos/Accounting.py)                                 *)
(* ===================================================================== *)

Module BackupManager.

(** A file of the directory [backups]: what it holds and the time
    [os.path.getctime] reports for it.  The time is a float in Python; only
    its order matters here, and it is kept as an integer. *)
Record file := { content : string; ctime : Z }.

(** The files the manager works on: the database file (or, when it cannot
    be read, the text of the exception [open] raises) and the directory
    [backups], by file name. *)
Record disk := {
  db_file : string + string;
  backups : gmap string file
}.

Inductive effect :=
| popup_error (msg : string).

(** [filename.startswith('backup_') and filename.endswith('.db')]. *)
Definition endswith (s suffix : string) : bool :=
  String.prefix (String.rev suffix) (String.rev s).

Definition is_backup (filename : string) : bool :=
  String.prefix "backup_" filename && endswith filename ".db".

(** [create_backup]: [timestamp] is [datetime.now().strftime('%Y%m%d_%H%M%S')]
    and [t] the time the file system stamps the file with.  Returns the path
    of the backup, or the empty string when the copy raised. *)
Definition create_backup (timestamp : string) (t : Z) (d : disk)
  : string * disk * list effect :=
  let backup_filename := "backup_" +:+ timestamp +:+ ".db" in
  let backup_path := "backups/" +:+ backup_filename in
  match db_file d with
  | inr bytes =>
      (backup_path,
       {| db_file := db_file d;
          backups := <[backup_filename := {| content := bytes; ctime := t |}]>
                       (backups d) |},
       [])
  | inl e =>
      ("", d,
       [popup_error ("Erreur lors de la création de la sauvegarde : " +:+ e)])
  end.

(** [backup_files.sort(key=lambda x: x[1], reverse=True)]: most recent
    first; the sort is stable. *)
Fixpoint insert_desc (x : string * file) (l : list (string * file))
  : list (string * file) :=
  match l with
  | [] => [x]
  | y :: l' =>
      if (ctime x.2 <? ctime y.2)%Z then y :: insert_desc x l' else x :: l
  end.

Definition sort_desc (l : list (string * file)) : list (string * file) :=
  foldr insert_desc [] l.

(** The backup files of a directory, as the loop over [os.listdir] collects
    them. *)
Definition backup_files (dir : gmap string file) : list (string * file) :=
  filter (fun f => is_backup f.1 = true) (map_to_list dir).

(** The files [cleanup_old_backups] removes: those after the first
    [keep_count] of the sorted list. *)
Definition excess (keep_count : nat) (dir : gmap string file)
  : list (string * file) :=
  drop keep_count (sort_desc (backup_files dir)).

(** The files it keeps among the backups. *)
Definition kept (keep_count : nat) (dir : gmap string file)
  : list (string * file) :=
  take keep_count (sort_desc (backup_files dir)).

(** [os.remove] of each file in turn. *)
Definition remove_all (paths : list (string * file)) (dir : gmap string file)
  : gmap string file :=
  foldl (fun dir f => delete f.1 dir) dir paths.

Definition cleanup_old_backups (keep_count : nat) (d : disk) : disk :=
  {| db_file := db_file d;
     backups := remove_all (excess keep_count (backups d)) (backups d) |}.

(** The body of the thread [auto_backup] starts. *)
Definition auto_backup (timestamp : string) (t : Z) (d : disk)
  : disk * list effect :=
  let '(backup_path, d, shown) := create_backup timestamp t d in
  if Py.truthy backup_path then
    (* Nettoyage des anciennes sauvegardes (garde les 10 dernières) *)
    (cleanup_old_backups 10 d, shown)
  else (d, shown).

(** Most recent first. *)
Definition newer (f g : string * file) : Prop := (ctime g.2 <= ctime f.2)%Z.

(** Ten backups, one a day. *)
Definition jour (k : Z) : string * file :=
  ("backup_202401" +:+ (if (k <? 10)%Z then "0" else "") +:+ pretty k
   +:+ "_020000.db",
   {| content := "sqlite"; ctime := 1704074400 + 86400 * k |}).

Definition dix_sauvegardes : disk :=
  {| db_file := inr "sqlite";
     backups := list_to_map (jour <$> [1; 2; 3; 4; 5; 6; 7; 8; 9; 10]%Z) |}.

(** ** Sorting *)

Lemma insert_desc_Permutation x l : insert_desc x l ≡ₚ x :: l.
Proof.
  induction l as [|y l IH]; cbn; [done|].
  destruct (ctime x.2 <? ctime y.2)%Z; [|done].
  by rewrite IH, Permutation_swap.
Qed.

Lemma sort_desc_Permutation l : sort_desc l ≡ₚ l.
Proof.
  induction l as [|x l IH]; cbn; [done|].
  by rewrite insert_desc_Permutation, IH.
Qed.

Lemma insert_desc_Sorted x l :
  StronglySorted newer l -> StronglySorted newer (insert_desc x l).
Proof.
  induction 1 as [|y l Hsorted IH Hall]; cbn.
  - repeat constructor.
  - destruct (ctime x.2 <? ctime y.2)%Z eqn:Hlt.
    + apply Z.ltb_lt in Hlt. constructor; [done|].
      rewrite insert_desc_Permutation. constructor; [|done].
      unfold newer. lia.
    + apply Z.ltb_ge in Hlt. constructor; [by constructor|].
      constructor; [done|].
      eapply Forall_impl; [exact Hall|]. unfold newer. intros; lia.
Qed.

Lemma sort_desc_Sorted l : StronglySorted newer (sort_desc l).
Proof.
  induction l as [|x l IH]; cbn; [constructor|].
  by apply insert_desc_Sorted.
Qed.

(** In a sorted list, whatever sits after position [k] is no newer than
    whatever sits before. *)
Lemma sorted_take_drop k l f g :
  StronglySorted newer l -> f ∈ take k l -> g ∈ drop k l -> newer f g.
Proof.
  intros Hsorted. revert k.
  induction Hsorted as [|y l Hsorted IH Hall]; intros k Hf Hg.
  - rewrite take_nil in Hf. by apply elem_of_nil in Hf.
  - destruct k as [|k]; cbn in Hf, Hg.
    + by apply elem_of_nil in Hf.
    + apply elem_of_cons in Hf as [->|Hf]; [|by eapply IH].
      rewrite Forall_forall in Hall. apply Hall.
      by eapply subseteq_drop.
Qed.

(** ** What the cleanup removes *)

Lemma remove_all_lookup paths : forall (dir : gmap string file) name,
  remove_all paths dir !! name
  = if decide (name ∈ paths.*1) then None else dir !! name.
Proof.
  unfold remove_all.
  induction paths as [|p paths IH]; intros dir name; cbn [foldl].
  - rewrite decide_False; [done|]. cbn. apply not_elem_of_nil.
  - rewrite IH. rewrite fmap_cons.
    destruct (decide (name ∈ paths.*1)) as [Hin|Hnin].
    + rewrite decide_True; [done|]. by apply list_elem_of_further.
    + destruct (decide (name = p.1)) as [->|Hne].
      * rewrite decide_True by apply list_elem_of_here.
        apply lookup_delete_eq.
      * rewrite decide_False by (by intros [?|?]%elem_of_cons).
        by apply lookup_delete_ne.
Qed.

Lemma elem_of_backup_files (dir : gmap string file) name f :
  (name, f) ∈ backup_files dir <->
  dir !! name = Some f /\ is_backup name = true.
Proof.
  unfold backup_files.
  rewrite list_elem_of_filter, elem_of_map_to_list. cbn. tauto.
Qed.

Lemma backup_files_NoDup (dir : gmap string file) :
  NoDup (backup_files dir).*1.
Proof.
  unfold backup_files.
  eapply sublist_NoDup; [apply (NoDup_fst_map_to_list dir)|].
  apply fmap_sublist, sublist_filter.
Qed.

Lemma kept_excess keep_count (dir : gmap string file) :
  kept keep_count dir ++ excess keep_count dir ≡ₚ backup_files dir.
Proof.
  unfold kept, excess. by rewrite take_drop, sort_desc_Permutation.
Qed.

Lemma kept_excess_NoDup keep_count (dir : gmap string file) :
  NoDup ((kept keep_count dir).*1 ++ (excess keep_count dir).*1).
Proof.
  rewrite <- fmap_app, kept_excess. apply backup_files_NoDup.
Qed.

(** The backup files left by the cleanup are the first [keep_count] of the
    sorted list. *)
Lemma elem_of_kept keep_count (dir : gmap string file) name f :
  (name, f) ∈ kept keep_count dir <->
  (name, f) ∈ backup_files dir /\ name ∉ (excess keep_count dir).*1.
Proof.
  pose proof (kept_excess_NoDup keep_count dir) as Hnodup.
  apply NoDup_app in Hnodup as (_ & Hdisjoint & _).
  rewrite <- (kept_excess keep_count dir), elem_of_app. split.
  - intros Hkept. split; [by left|].
    apply Hdisjoint. by apply (list_elem_of_fmap_2 fst _ (name, f)).
  - intros [[Hkept|Hexcess] Hnot]; [done|].
    destruct Hnot. by apply (list_elem_of_fmap_2 fst _ (name, f)).
Qed.

Lemma backup_files_cleanup keep_count d :
  backup_files (backups (cleanup_old_backups keep_count d))
  ≡ₚ kept keep_count (backups d).
Proof.
  apply NoDup_Permutation.
  - eapply NoDup_fmap_1, backup_files_NoDup.
  - pose proof (kept_excess_NoDup keep_count (backups d)) as Hnodup.
    apply NoDup_app in Hnodup as (Hnodup & _). by eapply NoDup_fmap_1.
  - intros [name f].
    rewrite elem_of_kept, !elem_of_backup_files. cbn [cleanup_old_backups backups].
    rewrite remove_all_lookup. case_decide; intuition congruence.
Qed.

(** What [cleanup_old_backups] does to the directory. *)
Lemma cleanup_old_backups_spec keep_count d :
  let d' := cleanup_old_backups keep_count d in
  db_file d' = db_file d /\
  (forall name f, backups d' !! name = Some f -> backups d !! name = Some f) /\
  (forall name f,
     backups d !! name = Some f -> backups d' !! name = None ->
     is_backup name = true /\
     forall n g, backups d' !! n = Some g -> is_backup n = true ->
                 (ctime f <= ctime g)%Z) /\
  length (backup_files (backups d'))
  = min keep_count (length (backup_files (backups d))).
Proof.
  cbn zeta. split; [done|]. split; [|split].
  - intros name f. cbn. rewrite remove_all_lookup. by case_decide.
  - intros name f Hbefore Hafter. cbn in Hafter.
    rewrite remove_all_lookup in Hafter.
    case_decide as Hin; [|congruence].
    apply list_elem_of_fmap in Hin as ([name' f'] & -> & Hexcess). cbn in *.
    assert ((name', f') ∈ backup_files (backups d)) as Hbackup.
    { rewrite <- (kept_excess keep_count). apply elem_of_app. by right. }
    apply elem_of_backup_files in Hbackup as [Hlook Hname].
    assert (f' = f) as -> by congruence.
    split; [done|]. intros n g Hn Hbn.
    assert ((n, g) ∈ kept keep_count (backups d)) as Hkept.
    { rewrite <- backup_files_cleanup. by apply elem_of_backup_files. }
    apply (sorted_take_drop keep_count _ (n, g) (name', f)
             (sort_desc_Sorted _) Hkept Hexcess).
  - rewrite backup_files_cleanup. unfold kept.
    by rewrite length_take, sort_desc_Permutation.
Qed.

(** [create_backup] on its own removes nothing. *)
Lemma create_backup_keeps timestamp t d name :
  is_Some (backups d !! name) ->
  is_Some (backups (create_backup timestamp t d).1.2 !! name).
Proof.
  unfold create_backup. intros Hin.
  destruct (db_file d); cbn; [done|].
  rewrite lookup_insert. by case_decide.
Qed.

(** ** Ten backups, then one more *)

Example auto_backup_eleventh :
  let d := (auto_backup "20240111_020000" 1705024800 dix_sauvegardes).1 in
  backups dix_sauvegardes !! "backup_20240101_020000.db"
    = Some {| content := "sqlite"; ctime := 1704160800 |} /\
  backups d !! "backup_20240101_020000.db" = None /\
  backups d !! "backup_20240102_020000.db"
    = Some {| content := "sqlite"; ctime := 1704247200 |} /\
  backups d !! "backup_20240111_020000.db"
    = Some {| content := "sqlite"; ctime := 1705024800 |} /\
  size (backups d) = 10%nat.
Proof. vm_compute. repeat split; reflexivity. Qed.

(** C3 as stated fails: the automatic backup made at start-up removes the
    oldest backup once ten are there. *)
Lemma auto_backup_removes_oldest :
  ~ (forall timestamp t d name,
       is_Some (backups d !! name) ->
       is_Some (backups (auto_backup timestamp t d).1 !! name)).
Proof.
  intros Hclaim.
  destruct (Hclaim "20240111_020000" 1705024800%Z dix_sauvegardes
              "backup_20240101_020000.db") as [f Hf].
  - eexists. vm_compute. reflexivity.
  - vm_compute in Hf. discriminate Hf.
Qed.

(** C3, amended.  [auto_backup] applies a retention rule: after it has
    written the new backup it keeps the 10 most recent backup files of the
    directory and removes the others.  Every file it leaves is unchanged, a
    file it removes is a backup file no more recent than any backup it
    keeps, and files that are not backups stay.  When the database cannot be
    read nothing changes.  [create_backup] alone removes no file. *)
Theorem auto_backup_retention timestamp t d :
  let d' := (auto_backup timestamp t d).1 in
  match db_file d with
  | inl _ => d' = d
  | inr bytes =>
      let created :=
        <["backup_" +:+ timestamp +:+ ".db"
            := {| content := bytes; ctime := t |}]> (backups d) in
      (forall name f,
         backups d' !! name = Some f -> created !! name = Some f) /\
      (forall name f,
         created !! name = Some f -> backups d' !! name = None ->
         is_backup name = true /\
         forall n g, backups d' !! n = Some g -> is_backup n = true ->
                     (ctime f <= ctime g)%Z) /\
      length (backup_files (backups d'))
      = min 10 (length (backup_files created))
  end /\
  (forall name,
     is_Some (backups d !! name) ->
     is_Some (backups (create_backup timestamp t d).1.2 !! name)).
Proof.
  split; [|intros name; apply create_backup_keeps].
  unfold auto_backup, create_backup.
  destruct (db_file d) as [e|bytes] eqn:Hdb; [done|].
  change (Py.truthy _) with true. cbn [fst].
  set (d1 := {| db_file := _; backups := _ |}).
  destruct (cleanup_old_backups_spec 10 d1) as (_ & Hleft & Hremoved & Hlen).
  exact (conj Hleft (conj Hremoved Hlen)).
Qed.

(* ===================================================================== *)
(** * More of BackupManager: restore_backup, and the cleanup again         *)
(* ===================================================================== *)

(** The file a path given to [restore_backup] denotes: a file of the
    directory [backups], the database itself, or a file somewhere else, with
    what it holds when it exists. *)
Inductive location :=
| in_backups (name : string)
| the_database
| elsewhere (bytes : option string).

(** What [restore_backup] shows: the dialogs of [create_backup], the
    question and the final message. *)
Inductive dialog :=
| shown (e : effect)
| popup_yes_no (msg : string)
| popup (msg : string).

Definition confirmation : string :=
  "Êtes-vous sûr de vouloir restaurer cette sauvegarde ?
Toutes les données actuelles seront remplacées.".

(** [str(e)] for a file that [open] does not find, and the popup that shows
    it. *)
Definition no_such_file : string := "[Errno 2] No such file or directory".

Definition missing_file : string :=
  "Erreur lors de la restauration : " +:+ no_such_file.

(** [os.path.exists(backup_path)].  The database file exists once the
    application runs ([sqlite3.connect] creates it), also when it cannot be
    read. *)
Definition exists_at (source : location) (d : disk) : bool :=
  match source with
  | in_backups name => bool_decide (is_Some (backups d !! name))
  | the_database => true
  | elsewhere bytes => bool_decide (is_Some bytes)
  end.

(** [open(backup_path, 'rb')]: the bytes of the file, or the text of the
    exception. *)
Definition read_at (source : location) (d : disk) : string + string :=
  match source with
  | in_backups name =>
      match backups d !! name with
      | Some f => inr (content f)
      | None => inl no_such_file
      end
  | the_database => db_file d
  | elsewhere (Some bytes) => inr bytes
  | elsewhere None => inl no_such_file
  end.

(** What the file system may refuse during the copy, with [str(e)]:
    [open(backup_path, 'rb')], [open(self.db_name, 'wb')], [backup.read()],
    or [target.write(...)] after it has written [written] bytes. *)
Inductive failure :=
| no_failure
| open_source (e : string)
| open_target (e : string)
| read_fails (e : string)
| write_fails (e : string) (written : nat).

(** What [backup.read()] gives once [open(self.db_name, 'wb')] has emptied
    the database: the bytes of the backup, and nothing when the backup path
    is the database itself. *)
Definition copied (source : location) (bytes : string) : string :=
  match source with
  | the_database => ""
  | _ => bytes
  end.

(** [restore_backup]: [answer] is what the user answers to the question,
    [timestamp] and [t] are those of the security backup, and [fails] is
    what the file system refuses.  [open(self.db_name, 'wb')] empties the
    database before anything is read from the backup: a failure after it
    leaves the database empty or with the bytes written so far, and a
    backup path that is the database itself is read as empty. *)
Definition restore_backup (source : location) (answer : string)
    (timestamp : string) (t : Z) (fails : failure) (d : disk)
  : bool * disk * list dialog :=
  if negb (exists_at source d) then
    (false, d, [shown (popup_error "Le fichier de sauvegarde n'existe pas.")])
  else if negb (String.eqb answer "Yes") then
    (false, d, [popup_yes_no confirmation])
  else
    (* Sauvegarde de sécurité *)
    let '(security_backup, d, dialogs) := create_backup timestamp t d in
    let dialogs := popup_yes_no confirmation :: (shown <$> dialogs) in
    let raised e :=
      dialogs
      ++ [shown (popup_error ("Erreur lors de la restauration : " +:+ e))] in
    let truncated bytes := {| db_file := inr bytes; backups := backups d |} in
    (* Restauration *)
    match read_at source d, fails with
    | inl e, _ => (false, d, raised e)
    | inr _, open_source e => (false, d, raised e)
    | inr _, open_target e => (false, d, raised e)
    | inr _, read_fails e => (false, truncated "", raised e)
    | inr bytes, write_fails e written =>
        (false,
         truncated (String.substring 0 written (copied source bytes)),
         raised e)
    | inr bytes, no_failure =>
        (true, truncated (copied source bytes),
         dialogs ++ [popup "Restauration effectuée avec succès."])
    end.

(** Two dated backups, and the database changed since the first. *)
Definition deux_sauvegardes : disk :=
  {| db_file := inr "sqlite, mardi";
     backups := {[ "backup_20240101_020000.db"
                     := {| content := "sqlite, lundi"; ctime := 1704074400 |};
                   "notes.txt" := {| content := "notes"; ctime := 1704000000 |}
                ]} |}.

(** The disk on the Monday, before the first backup. *)
Definition lundi : disk :=
  {| db_file := inr "sqlite, lundi";
     backups := {[ "notes.txt" := {| content := "notes";
                                     ctime := 1704000000 |} ]} |}.

(** ** Names of backups *)

Lemma length_append (s t : string) :
  String.length (s +:+ t) = (String.length s + String.length t)%nat.
Proof.
  induction s as [|a s IH]; [done|].
  change (String a s +:+ t) with (String a (s +:+ t)). cbn. by rewrite IH.
Qed.

Lemma append_inj_r (t s1 s2 : string) : s1 +:+ t = s2 +:+ t -> s1 = s2.
Proof.
  revert s2. induction s1 as [|a s1 IH]; intros [|b s2] Heq.
  - done.
  - apply (f_equal String.length) in Heq.
    rewrite !length_append in Heq. cbn in Heq. lia.
  - apply (f_equal String.length) in Heq.
    rewrite !length_append in Heq. cbn in Heq. lia.
  - change (String a (s1 +:+ t) = String b (s2 +:+ t)) in Heq.
    injection Heq as -> Heq. f_equal. by apply IH.
Qed.

Lemma backup_filename_inj (ts ts' : string) :
  "backup_" +:+ ts +:+ ".db" = "backup_" +:+ ts' +:+ ".db" -> ts = ts'.
Proof. intros Heq. apply (append_inj_r ".db"). by simplify_eq. Qed.

(** ** The cleanup below the limit *)

Lemma excess_nil keep_count (dir : gmap string file) :
  (length (backup_files dir) <= keep_count)%nat -> excess keep_count dir = [].
Proof.
  intros Hlen. unfold excess. apply drop_ge.
  by rewrite sort_desc_Permutation.
Qed.

(** X20.  With no more backups than it is to keep, [cleanup_old_backups]
    removes nothing. *)
Theorem cleanup_old_backups_below keep_count d :
  (length (backup_files (backups d)) <= keep_count)%nat ->
  cleanup_old_backups keep_count d = d.
Proof.
  intros Hlen. unfold cleanup_old_backups.
  rewrite excess_nil by done. by destruct d.
Qed.

Lemma cleanup_old_backups_below_witness :
  cleanup_old_backups 10 dix_sauvegardes = dix_sauvegardes.
Proof.
  apply (cleanup_old_backups_below 10 dix_sauvegardes).
  vm_compute. lia.
Defined.

(** X21.  [cleanup_old_backups] is idempotent: a second cleanup with the
    same count finds nothing to remove. *)
Theorem cleanup_old_backups_idempotent keep_count d :
  cleanup_old_backups keep_count (cleanup_old_backups keep_count d)
  = cleanup_old_backups keep_count d.
Proof.
  set (d' := cleanup_old_backups keep_count d).
  unfold cleanup_old_backups at 1.
  rewrite excess_nil; [by destruct d'|].
  unfold d'. rewrite backup_files_cleanup. unfold kept.
  rewrite length_take. lia.
Qed.

(** ** The backup just made and the cleanup *)

(** A file more recent than every other backup is not among those removed,
    as soon as one file at least is kept. *)
Lemma newest_not_excess keep_count (dir : gmap string file) name f :
  (0 < keep_count)%nat ->
  dir !! name = Some f ->
  (forall n g, n ≠ name -> dir !! n = Some g -> is_backup n = true ->
               (ctime g < ctime f)%Z) ->
  name ∉ (excess keep_count dir).*1.
Proof.
  intros Hkeep Hf Hnewest Hin.
  apply list_elem_of_fmap in Hin as ([name' f'] & -> & Hexcess). cbn in *.
  assert ((name', f') ∈ backup_files dir) as Hbackup.
  { rewrite <- (kept_excess keep_count). apply elem_of_app. by right. }
  apply elem_of_backup_files in Hbackup as [Hlook _].
  assert (f' = f) as -> by congruence.
  destruct (kept keep_count dir) as [|[n g] rest] eqn:Hkept.
  - unfold kept in Hkept. unfold excess in Hexcess.
    destruct keep_count as [|k]; [lia|].
    destruct (sort_desc (backup_files dir)); [|done].
    rewrite drop_nil in Hexcess. by apply elem_of_nil in Hexcess.
  - assert ((n, g) ∈ kept keep_count dir) as Hng
      by (rewrite Hkept; apply list_elem_of_here).
    pose proof (sorted_take_drop keep_count _ (n, g) (name', f)
                  (sort_desc_Sorted _) Hng Hexcess) as Hnewer.
    apply elem_of_kept in Hng as [Hfile Hnot].
    apply elem_of_backup_files in Hfile as [Hn Hbn].
    assert (n ≠ name') as Hne.
    { intros ->. apply Hnot.
      by apply (list_elem_of_fmap_2 fst _ (name', f)). }
    specialize (Hnewest n g Hne Hn Hbn). unfold newer in Hnewer. cbn in *.
    lia.
Qed.

(** X22.  The backup [auto_backup] has just written survives its cleanup
    when the file system stamps it later than every other backup of the
    directory. *)
Theorem auto_backup_keeps_new timestamp t d bytes :
  db_file d = inr bytes ->
  (forall n g, n ≠ "backup_" +:+ timestamp +:+ ".db" ->
               backups d !! n = Some g -> is_backup n = true ->
               (ctime g < t)%Z) ->
  backups (auto_backup timestamp t d).1 !! ("backup_" +:+ timestamp +:+ ".db")
  = Some {| content := bytes; ctime := t |}.
Proof.
  intros Hdb Hnewest. unfold auto_backup, create_backup. rewrite Hdb.
  change (Py.truthy _) with true. cbn [fst cleanup_old_backups backups].
  rewrite remove_all_lookup, decide_False; [apply lookup_insert_eq|].
  apply (newest_not_excess 10 _ _ {| content := bytes; ctime := t |});
    [lia|apply lookup_insert_eq|].
  intros n g Hne Hn Hbn. rewrite lookup_insert_ne in Hn by done.
  by apply (Hnewest n g).
Qed.

Lemma auto_backup_keeps_new_witness :
  backups (auto_backup "20240111_020000" 1705024800 dix_sauvegardes).1
    !! ("backup_" +:+ "20240111_020000" +:+ ".db")
  = Some {| content := "sqlite"; ctime := 1705024800 |}.
Proof.
  apply (auto_backup_keeps_new "20240111_020000" 1705024800 dix_sauvegardes
           "sqlite" eq_refl).
  intros n g _ Hn _.
  apply elem_of_map_to_list in Hn. revert Hn.
  let l := eval vm_compute in (map_to_list (backups dix_sauvegardes)) in
  change (map_to_list (backups dix_sauvegardes)) with l.
  rewrite !elem_of_cons, elem_of_nil.
  intros Hn; repeat destruct Hn as [Hn|Hn]; try done;
    injection Hn as _ ->; vm_compute; reflexivity.
Defined.

(** ** restore_backup *)

Lemma restore_backup_yes name timestamp t d :
  is_Some (backups d !! name) ->
  restore_backup (in_backups name) "Yes" timestamp t no_failure d
  = let d1 := (create_backup timestamp t d).1.2 in
    match content <$> backups d1 !! name with
    | Some bytes =>
        (true, {| db_file := inr bytes; backups := backups d1 |},
         (popup_yes_no confirmation
            :: (shown <$> (create_backup timestamp t d).2))
         ++ [popup "Restauration effectuée avec succès."])
    | None =>
        (false, d1,
         (popup_yes_no confirmation
            :: (shown <$> (create_backup timestamp t d).2))
         ++ [shown (popup_error missing_file)])
    end.
Proof.
  intros Hname. unfold restore_backup, exists_at.
  rewrite bool_decide_eq_true_2 by done. cbn [negb String.eqb Ascii.eqb].
  change ("Yes" =? "Yes")%string with true. cbn [negb].
  destruct (create_backup timestamp t d) as [[path d1] dialogs].
  cbn [read_at fst snd]. by destruct (backups d1 !! name).
Qed.

(** X23.  Round trip: restoring a backup that [create_backup] made, however
    the database has changed since, gives the database the bytes it had
    when the backup was made, and the data replaced is in the security
    backup.  The security backup has to be of another second than the
    backup restored. *)
Theorem restore_backup_round_trip timestamp t d bytes timestamp' t' d' :
  db_file d = inr bytes ->
  backups d' !! ("backup_" +:+ timestamp +:+ ".db")
  = backups (create_backup timestamp t d).1.2
      !! ("backup_" +:+ timestamp +:+ ".db") ->
  timestamp' ≠ timestamp ->
  let r := restore_backup (in_backups ("backup_" +:+ timestamp +:+ ".db"))
             "Yes" timestamp' t' no_failure d' in
  r.1.1 = true /\
  db_file r.1.2 = inr bytes /\
  (forall current, db_file d' = inr current ->
     backups r.1.2 !! ("backup_" +:+ timestamp' +:+ ".db")
     = Some {| content := current; ctime := t' |}) /\
  (forall n, n ≠ "backup_" +:+ timestamp' +:+ ".db" ->
     backups r.1.2 !! n = backups d' !! n).
Proof.
  intros Hdb Hsaved Hne.
  assert (backups d' !! ("backup_" +:+ timestamp +:+ ".db")
          = Some {| content := bytes; ctime := t |}) as Hname.
  { rewrite Hsaved. unfold create_backup. rewrite Hdb. cbn.
    apply lookup_insert_eq. }
  assert ("backup_" +:+ timestamp' +:+ ".db"
          ≠ "backup_" +:+ timestamp +:+ ".db") as Hother
    by (by intros Heq%backup_filename_inj).
  cbn zeta. rewrite restore_backup_yes by (by rewrite Hname).
  unfold create_backup. destruct (db_file d') as [e|current]; cbn.
  - rewrite Hname. cbn. by repeat split.
  - rewrite lookup_insert_ne, Hname by done. cbn.
    repeat split.
    + intros c [= ->]. apply lookup_insert_eq.
    + intros n Hn. by apply lookup_insert_ne.
Qed.

Lemma restore_backup_round_trip_witness :
  let r := restore_backup (in_backups "backup_20240101_020000.db")
             "Yes" "20240102_093000" 1704187800 no_failure
             deux_sauvegardes in
  r.1.1 = true /\
  db_file r.1.2 = inr "sqlite, lundi" /\
  (forall current, db_file deux_sauvegardes = inr current ->
     backups r.1.2 !! "backup_20240102_093000.db"
     = Some {| content := current; ctime := 1704187800 |}) /\
  (forall n, n ≠ "backup_20240102_093000.db" ->
     backups r.1.2 !! n = backups deux_sauvegardes !! n).
Proof.
  apply (restore_backup_round_trip "20240101_020000" 1704074400 lundi
           "sqlite, lundi" "20240102_093000" 1704187800 deux_sauvegardes).
  - reflexivity.
  - vm_compute. reflexivity.
  - discriminate.
Defined.

(** X24.  Within the second of the backup it restores, [restore_backup]
    restores nothing: the security backup is written over the backup
    chosen before that is read, so the call reports success, the database
    keeps its bytes and the bytes of the backup are lost. *)
Theorem restore_backup_same_second timestamp t' d current :
  db_file d = inr current ->
  is_Some (backups d !! ("backup_" +:+ timestamp +:+ ".db")) ->
  let r := restore_backup (in_backups ("backup_" +:+ timestamp +:+ ".db"))
             "Yes" timestamp t' no_failure d in
  r.1.1 = true /\
  db_file r.1.2 = inr current /\
  backups r.1.2 !! ("backup_" +:+ timestamp +:+ ".db")
  = Some {| content := current; ctime := t' |}.
Proof.
  intros Hdb Hname. cbn zeta. rewrite restore_backup_yes by done.
  unfold create_backup. rewrite Hdb. cbn.
  rewrite lookup_insert_eq. cbn. repeat split. apply lookup_insert_eq.
Qed.

Lemma restore_backup_same_second_witness :
  let r := restore_backup (in_backups "backup_20240101_020000.db")
             "Yes" "20240101_020000" 1704074400 no_failure
             deux_sauvegardes in
  r.1.1 = true /\
  db_file r.1.2 = inr "sqlite, mardi" /\
  backups r.1.2 !! "backup_20240101_020000.db"
  = Some {| content := "sqlite, mardi"; ctime := 1704074400 |}.
Proof.
  apply (restore_backup_same_second "20240101_020000" 1704074400
           deux_sauvegardes "sqlite, mardi" eq_refl).
  vm_compute. by eexists.
Defined.

(** X25.  What [restore_backup] leaves as it is, and what it does not.
    Every file of the directory but the security backup is left in all
    cases, and the whole disk when the file is missing or the user does not
    answer ['Yes'].  Past the question, the database is as before only when
    the backup cannot be opened or when [open(self.db_name, 'wb')] itself is
    refused.  Once that [open] has emptied the database, a failure of
    [backup.read()] returns [False] with the database empty, a failure of
    [target.write] returns [False] with the bytes written so far, and a
    backup path that is the database itself is restored as the empty
    file. *)
Theorem restore_backup_frame source answer timestamp t fails d :
  let r := restore_backup source answer timestamp t fails d in
  (forall n, n ≠ "backup_" +:+ timestamp +:+ ".db" ->
     backups r.1.2 !! n = backups d !! n) /\
  (exists_at source d = false \/ answer ≠ "Yes" ->
   r.1.2 = d /\ r.1.1 = false) /\
  (exists_at source d = true -> answer = "Yes" ->
   match read_at source (create_backup timestamp t d).1.2, fails with
   | inl _, _ | inr _, open_source _ | inr _, open_target _ =>
       r.1.1 = false /\ db_file r.1.2 = db_file d
   | inr _, read_fails _ =>
       r.1.1 = false /\ db_file r.1.2 = inr ""
   | inr bytes, write_fails _ written =>
       r.1.1 = false /\
       db_file r.1.2
       = inr (String.substring 0 written (copied source bytes))
   | inr bytes, no_failure =>
       r.1.1 = true /\ db_file r.1.2 = inr (copied source bytes)
   end).
Proof.
  cbn zeta. unfold restore_backup.
  destruct (exists_at source d) eqn:Hexists; cbn [negb].
  2:{ repeat split; done. }
  destruct (String.eqb answer "Yes") eqn:Hanswer; cbn [negb].
  2:{ apply String.eqb_neq in Hanswer. repeat split; done. }
  apply String.eqb_eq in Hanswer as ->.
  assert (db_file (create_backup timestamp t d).1.2 = db_file d /\
          forall n, n ≠ "backup_" +:+ timestamp +:+ ".db" ->
            backups (create_backup timestamp t d).1.2 !! n = backups d !! n)
    as [Hdb Hothers].
  { unfold create_backup. destruct (db_file d) eqn:Hfile; cbn; [done|].
    split; [done|]. intros n Hn. by apply lookup_insert_ne. }
  destruct (create_backup timestamp t d) as [[path d1] dialogs].
  cbn [fst snd] in *.
  destruct (read_at source d1) as [e|bytes], fails as [|e'|e'|e'|e' written];
    cbn; (split; [done|]); (split; [by intros [?|?]|]); done.
Qed.

(** The backup path is the database itself: the call reports success and
    the database is empty; what it held is in the security backup. *)
Example restore_backup_onto_itself :
  let r := restore_backup the_database "Yes" "20240102_093000" 1704187800
             no_failure deux_sauvegardes in
  r.1.1 = true /\ db_file r.1.2 = inr "" /\
  backups r.1.2 !! "backup_20240102_093000.db"
  = Some {| content := "sqlite, mardi"; ctime := 1704187800 |}.
Proof. vm_compute. repeat split; reflexivity. Qed.

(** The disk fills up during the copy: the call returns [False] and the
    database holds the first bytes of the backup. *)
Example restore_backup_disk_full :
  let r := restore_backup (in_backups "backup_20240101_020000.db") "Yes"
             "20240102_093000" 1704187800
             (write_fails "[Errno 28] No space left on device" 6)
             deux_sauvegardes in
  r.1.1 = false /\ db_file r.1.2 = inr "sqlite".
Proof. vm_compute. repeat split; reflexivity. Qed.

End BackupManager.

(* ===================================================================== *)
(** * NetworkScanner.network_scan
      (demos/Network_Scanner_and_Port_Monitor.py)                         *)
(* ===================================================================== *)

Module NetworkScanner.

(** What [window.write_event_value] puts on the event queue of the GUI. *)
Inductive event :=
| SCAN_STATUS (msg : string)
| HOST_FOUND (ip hostname : string)
| SCAN_PROGRESS (progress : Z)
| SCAN_COMPLETE (count : nat)
| SCAN_ERROR (msg : string).

(** An item of [active_hosts]. *)
Record host := { ip : string; hostname : string; status : string }.

(** What [socket.gethostbyaddr] does for an address: it gives a name, or
    raises [socket.herror], or raises something else. *)
Inductive lookup :=
| named (name : string)
| herror
| other_error (e : string).

(** What the thread of a scan meets: the value [self.scanning] has at each
    of its reads of it (the GUI thread writes that attribute), what
    [future.result(timeout=2)] gives for the ping of an address (the value
    of [ping_host], or the text of an exception, a timeout for instance),
    and the answers of the resolver. *)
Record env := {
  scanning : nat -> bool;
  result : string -> string + bool;
  gethostbyaddr : string -> lookup
}.

(** [get_hostname]: a name, ["Unknown"] on [socket.herror]; another
    exception goes through. *)
Definition get_hostname (E : env) (ip : string) : string + string :=
  match gethostbyaddr E ip with
  | named name => inr name
  | herror => inr "Unknown"
  | other_error e => inl e
  end.

(** The first loop: a ping is submitted for each address until
    [self.scanning] reads false.  [futures] keeps the addresses in the
    order of submission; [reads] counts the reads of the flag. *)
Fixpoint submit (E : env) (hosts : list string) (reads : nat)
  : list string * nat :=
  match hosts with
  | [] => ([], reads)
  | ip :: hosts =>
      if negb (scanning E reads) then ([], S reads)
      else
        let '(futures, reads) := submit E hosts (S reads) in
        (ip :: futures, reads)
  end.

(** The second loop: the results are collected in the order of submission,
    until [self.scanning] reads false. *)
Fixpoint collect (E : env) (total : nat) (futures : list string)
    (completed : nat) (reads : nat) (active_hosts : list host)
  : list host * list event :=
  match futures with
  | [] => (active_hosts, [])
  | ip :: futures =>
      if negb (scanning E reads) then (active_hosts, [])
      else
        let completed := S completed in
        let '(active_hosts, found) :=
          match result E ip with
          | inr true =>
              match get_hostname E ip with
              | inr hostname =>
                  (active_hosts
                   ++ [{| ip := ip; hostname := hostname;
                          status := "Active" |}],
                   [HOST_FOUND ip hostname])
              | inl _ => (active_hosts, [])             (* except: pass *)
              end
          | inr false => (active_hosts, [])
          | inl _ => (active_hosts, [])                 (* except: pass *)
          end in
        let progress :=
          Py.int_of_float
            (Py.true_divide (Z.of_nat completed) (Z.of_nat total)
             * 100)%float in
        let '(active_hosts, posted) :=
          collect E total futures completed (S reads) active_hosts in
        (active_hosts, found ++ SCAN_PROGRESS progress :: posted)
  end.

(** [network_scan]: [network] is what [ipaddress.IPv4Network(network_range,
    strict=False).hosts()] gives, or the text of the exception the
    constructor raises; [scan_results] is the attribute before the call.
    Returns the attribute afterwards and the events posted. *)
Definition network_scan (E : env) (network_range : string)
    (network : string + list string) (scan_results : list host)
  : list host * list event :=
  match network with
  | inl e => (scan_results, [SCAN_ERROR e])
  | inr hosts =>
      let '(futures, reads) := submit E hosts 0 in
      let total := length futures in
      let '(active_hosts, posted) := collect E total futures 0 reads [] in
      (active_hosts,
       SCAN_STATUS ("Scanning " +:+ network_range +:+ "...")
         :: posted ++ [SCAN_COMPLETE (length active_hosts)])
  end.

(** The hosts announced by [HOST_FOUND] events, and the number of
    [SCAN_PROGRESS] events. *)
Definition announced (posted : list event) : list (string * string) :=
  omap (fun e => match e with
                 | HOST_FOUND ip hostname => Some (ip, hostname)
                 | _ => None
                 end) posted.

Definition is_loop_event (e : event) : bool :=
  match e with HOST_FOUND _ _ | SCAN_PROGRESS _ => true | _ => false end.

Definition progress_count (posted : list event) : nat :=
  length (List.filter (fun e => match e with
                                | SCAN_PROGRESS _ => true
                                | _ => false
                                end) posted).

(** A network of three addresses: the first answers, the second does not,
    the third answers but its name cannot be resolved. *)
Definition trois_adresses : list string :=
  ["192.168.1.1"; "192.168.1.2"; "192.168.1.3"].

Definition jamais_arrete : env :=
  {| scanning := fun _ => true;
     result := fun ip => inr (negb (String.eqb ip "192.168.1.2"));
     gethostbyaddr := fun ip =>
       if String.eqb ip "192.168.1.1" then named "routeur" else herror |}.

(** The user presses 'Stop Scan' while the results are collected. *)
Definition arrete : env :=
  {| scanning := fun k => Nat.ltb k 4;
     result := result jamais_arrete;
     gethostbyaddr := gethostbyaddr jamais_arrete |}.

Example network_scan_exemple :
  network_scan jamais_arrete "192.168.1.0/30" (inr trois_adresses) []
  = ([ {| ip := "192.168.1.1"; hostname := "routeur"; status := "Active" |};
       {| ip := "192.168.1.3"; hostname := "Unknown"; status := "Active" |} ],
     [ SCAN_STATUS "Scanning 192.168.1.0/30...";
       HOST_FOUND "192.168.1.1" "routeur"; SCAN_PROGRESS 33;
       SCAN_PROGRESS 66;
       HOST_FOUND "192.168.1.3" "Unknown"; SCAN_PROGRESS 100;
       SCAN_COMPLETE 2 ]).
Proof. vm_compute. reflexivity. Qed.

Example network_scan_arrete :
  network_scan arrete "192.168.1.0/30" (inr trois_adresses) []
  = ([ {| ip := "192.168.1.1"; hostname := "routeur"; status := "Active" |} ],
     [ SCAN_STATUS "Scanning 192.168.1.0/30...";
       HOST_FOUND "192.168.1.1" "routeur"; SCAN_PROGRESS 33;
       SCAN_COMPLETE 1 ]).
Proof. vm_compute. reflexivity. Qed.

(** ** The two loops *)

Lemma submit_subseteq E hosts : forall reads ip,
  ip ∈ (submit E hosts reads).1 -> ip ∈ hosts.
Proof.
  induction hosts as [|h hosts IH]; intros reads ip; cbn; [done|].
  destruct (scanning E reads); cbn; [|by intros ?%elem_of_nil].
  specialize (IH (S reads) ip).
  destruct (submit E hosts (S reads)) as [futures reads']. cbn in *.
  intros [->|Hip]%elem_of_cons; [apply list_elem_of_here|].
  apply list_elem_of_further. by apply IH.
Qed.

Lemma submit_all E hosts : forall reads,
  (forall k, scanning E k = true) ->
  (submit E hosts reads).1 = hosts.
Proof.
  induction hosts as [|h hosts IH]; intros reads Hon; cbn; [done|].
  rewrite Hon. cbn. specialize (IH (S reads) Hon).
  destruct (submit E hosts (S reads)) as [futures reads']. cbn in *.
  by rewrite IH.
Qed.

(** One iteration of the second loop, as [collect] has it. *)
Lemma collect_cons E total ip futures completed reads active_hosts :
  scanning E reads = true ->
  collect E total (ip :: futures) completed reads active_hosts
  = let found :=
      match result E ip with
      | inr true =>
          match get_hostname E ip with
          | inr hostname =>
              Some {| ip := ip; hostname := hostname; status := "Active" |}
          | inl _ => None
          end
      | _ => None
      end in
    let rest :=
      collect E total futures (S completed) (S reads)
        (active_hosts ++ option_list found) in
    (rest.1,
     match found with
     | Some h => [HOST_FOUND (NetworkScanner.ip h) (hostname h)]
     | None => []
     end
     ++ SCAN_PROGRESS
          (Py.int_of_float
             (Py.true_divide (Z.of_nat (S completed)) (Z.of_nat total)
              * 100)%float)
        :: rest.2).
Proof.
  intros Hon. cbn [collect]. rewrite Hon. cbn [negb].
  destruct (result E ip) as [e|[]]; cbn [option_list];
    rewrite ?app_nil_r;
    try (destruct (collect E total futures _ _ active_hosts); done).
  destruct (get_hostname E ip) as [e|name]; cbn [option_list];
    rewrite ?app_nil_r;
    by destruct (collect E total futures _ _ _).
Qed.

Lemma collect_spec E total futures : forall completed reads active_hosts,
  exists new,
    (collect E total futures completed reads active_hosts).1
    = active_hosts ++ new /\
    Forall (fun e => is_loop_event e = true)
      (collect E total futures completed reads active_hosts).2 /\
    announced (collect E total futures completed reads active_hosts).2
    = map (fun h => (ip h, hostname h)) new /\
    Forall (fun h => ip h ∈ futures /\ result E (ip h) = inr true
                     /\ status h = "Active") new.
Proof.
  induction futures as [|ip0 futures IH]; intros completed reads active_hosts.
  { exists []. cbn. by rewrite app_nil_r. }
  destruct (scanning E reads) eqn:Hon.
  2:{ exists []. cbn [collect]. rewrite Hon. cbn. by rewrite app_nil_r. }
  rewrite collect_cons by done. cbn zeta.
  destruct (result E ip0) as [e|[]] eqn:Hres; cbn [option_list];
    rewrite ?app_nil_r.
  1,3: destruct (IH (S completed) (S reads) active_hosts)
         as (new & Hnew & Hloop & Hann & Hall);
       exists new; cbn [fst snd app];
       (split; [done|]); (split; [by constructor|]); (split; [done|]);
       eapply Forall_impl; [exact Hall|];
       intros h (Hin & ? & ?); split; [by apply list_elem_of_further|done].
  destruct (get_hostname E ip0) as [e|name] eqn:Hname; cbn [option_list];
    rewrite ?app_nil_r.
  - destruct (IH (S completed) (S reads) active_hosts)
      as (new & Hnew & Hloop & Hann & Hall).
    exists new. cbn [fst snd app].
    split; [done|]. split; [by constructor|]. split; [done|].
    eapply Forall_impl; [exact Hall|].
    intros h (Hin & ? & ?). split; [by apply list_elem_of_further|done].
  - destruct (IH (S completed) (S reads)
                (active_hosts
                 ++ [{| ip := ip0; hostname := name; status := "Active" |}]))
      as (new & Hnew & Hloop & Hann & Hall).
    exists ({| ip := ip0; hostname := name; status := "Active" |} :: new).
    cbn [fst snd app ip hostname].
    change (option_list (Some ?h)) with [h].
    split; [by rewrite Hnew, <- app_assoc|].
    split; [by repeat constructor|].
    split; [cbn; by rewrite <- Hann|].
    constructor.
    + cbn. split; [apply list_elem_of_here|done].
    + eapply Forall_impl; [exact Hall|].
      intros h (Hin & ? & ?). split; [by apply list_elem_of_further|done].
Qed.

Lemma collect_all E total futures : forall completed reads active_hosts,
  (forall k, scanning E k = true) ->
  progress_count (collect E total futures completed reads active_hosts).2
  = length futures /\
  forall h,
    h ∈ active_hosts \/
    (ip h ∈ futures /\ result E (ip h) = inr true /\
     get_hostname E (ip h) = inr (hostname h) /\ status h = "Active") ->
    h ∈ (collect E total futures completed reads active_hosts).1.
Proof.
  induction futures as [|ip0 futures IH]; intros completed reads active_hosts
    Hon.
  { cbn. split; [done|]. intros h [Hh|[[]%elem_of_nil _]]. done. }
  rewrite collect_cons by done. cbn zeta.
  match goal with
  |- context [collect E total futures (S completed) (S reads) ?acc] =>
    destruct (IH (S completed) (S reads) acc Hon) as [Hcount Hin]
  end.
  split.
  - unfold progress_count in *. cbn [snd].
    rewrite List.filter_app, length_app. cbn [List.filter length].
    rewrite Hcount.
    by destruct (result E ip0) as [e|[]];
      [|destruct (get_hostname E ip0)|].
  - cbn [fst]. intros h [Hh|(Hip & Hres & Hname & Hst)]; apply Hin.
    + left. apply elem_of_app. by left.
    + apply elem_of_cons in Hip as [Hip|Hip]; [|by right].
      left. apply elem_of_app. right.
      rewrite <- Hip, Hres, Hname. cbn.
      destruct h as [hip hname hst]. cbn in *. subst.
      apply list_elem_of_here.
Qed.

(** X26.  A scan always ends with [SCAN_COMPLETE], stopped or not: after
    [SCAN_STATUS] come only [HOST_FOUND] and [SCAN_PROGRESS] events, the
    number [SCAN_COMPLETE] carries is the number of [HOST_FOUND] events,
    the hosts announced are those left in [scan_results], in order, and
    each of them is an address of the range whose ping answered. *)
Theorem network_scan_protocol E network_range hosts scan_results :
  let r := network_scan E network_range (inr hosts) scan_results in
  exists posted,
    r.2 = SCAN_STATUS ("Scanning " +:+ network_range +:+ "...")
            :: posted ++ [SCAN_COMPLETE (length (announced posted))] /\
    Forall (fun e => is_loop_event e = true) posted /\
    announced posted = map (fun h => (ip h, hostname h)) r.1 /\
    Forall (fun h => ip h ∈ hosts /\ result E (ip h) = inr true
                     /\ status h = "Active") r.1.
Proof.
  cbn zeta. unfold network_scan.
  pose proof (submit_subseteq E hosts 0) as Hsub.
  destruct (submit E hosts 0) as [futures reads]. cbn [fst] in Hsub.
  destruct (collect_spec E (length futures) futures 0 reads [])
    as (new & Hnew & Hloop & Hann & Hall).
  destruct (collect E (length futures) futures 0 reads [])
    as [active_hosts posted].
  cbn [fst snd app] in *. subst active_hosts.
  exists posted. rewrite Hann, length_map.
  split; [done|]. split; [done|]. split; [done|].
  eapply Forall_impl; [exact Hall|].
  intros h (Hin & ? & ?). split; [by apply Hsub|done].
Qed.

(** X27.  A scan that is not stopped goes through the whole range: it
    posts one [SCAN_PROGRESS] per address, and every address whose ping
    answered and whose name lookup did not fail otherwise than by
    [socket.herror] is in [scan_results]. *)
Theorem network_scan_complete E network_range hosts scan_results :
  (forall k, scanning E k = true) ->
  let r := network_scan E network_range (inr hosts) scan_results in
  progress_count r.2 = length hosts /\
  forall ip name,
    ip ∈ hosts -> result E ip = inr true -> get_hostname E ip = inr name ->
    {| ip := ip; hostname := name; status := "Active" |} ∈ r.1.
Proof.
  intros Hon. cbn zeta. unfold network_scan.
  pose proof (submit_all E hosts 0 Hon) as Hsub.
  destruct (submit E hosts 0) as [futures reads]. cbn [fst] in Hsub.
  subst futures.
  destruct (collect_all E (length hosts) hosts 0 reads [] Hon)
    as [Hcount Hin].
  destruct (collect E (length hosts) hosts 0 reads [])
    as [active_hosts posted].
  cbn [fst snd] in *. split.
  - unfold progress_count in *. cbn [List.filter].
    rewrite List.filter_app, length_app. cbn. lia.
  - intros ip name Hip Hres Hname. apply Hin. right. by cbn.
Qed.

Lemma network_scan_complete_witness :
  let r := network_scan jamais_arrete "192.168.1.0/30" (inr trois_adresses)
             [] in
  progress_count r.2 = length trois_adresses /\
  forall ip name,
    ip ∈ trois_adresses -> result jamais_arrete ip = inr true ->
    get_hostname jamais_arrete ip = inr name ->
    {| ip := ip; hostname := name; status := "Active" |} ∈ r.1.
Proof.
  apply (network_scan_complete jamais_arrete "192.168.1.0/30" trois_adresses
           []).
  reflexivity.
Defined.

End NetworkScanner.
